(** * Commodities scraper: parsing, ranking and alert evaluation

    A shallow embedding of [commodities_scraper.py] (table parsing, the
    pandas-based ranking engine and the alert service) together with the
    properties its specification states about it.

    Conventions of the embedding:
    - Python [str] is [string]; text is taken to be ASCII, so that
      [str.strip], [str.lower] and the [\s], [\d] classes of [re] are their
      ASCII restrictions.
    - Python [float] (and numpy [float64]) is IEEE 754 binary64, modelled by
      [spec_float] with precision 53 and maximal exponent 1024.
    - Python exceptions are values of [exn]; code that may raise returns
      [result]; a [try ... except Exception: return None] block turns a
      [result] into an [option].
    - A pandas frame is its column labels and its rows; the sort that
      pandas asks NumPy for is a parameter of the frames, and the generic
      quicksort that NumPy runs on [object] arrays is modelled after
      [npy_aquicksort] and proved to sort.
    - The database lookup and the notification channels are parameters
      of the alert service; stored prices are floats. *)

From Stdlib Require Import ZArith NArith List String Ascii Bool Lia.
From Stdlib Require Import Permutation Sorted SpecFloat DecimalString DecimalN.
From stdpp Require Import base option list strings gmap sorting.

Local Open Scope Z_scope.

(** ** Python exceptions *)

Inductive exn : Type :=
  | KeyError (key : string)
  | IndexError
  | TypeError
  | ValueError.

Inductive result (A : Type) : Type :=
  | Ok (a : A)
  | Raise (e : exn).
Arguments Ok {A} a.
Arguments Raise {A} e.

#[export] Instance result_ret : MRet result := fun A a => Ok a.
#[export] Instance result_bind : MBind result := fun A B k m =>
  match m with
  | Ok a => k a
  | Raise e => Raise e
  end.

(** [try: body except Exception: return None]. *)
Definition try_or_None {A} (m : result A) : option A :=
  match m with
  | Ok a => Some a
  | Raise _ => None
  end.

(** [l[i]] on a Python list. *)
Definition getitem {A} (l : list A) (i : nat) : result A :=
  match l !! i with
  | Some x => Ok x
  | None => Raise IndexError
  end.

(** ** Python strings *)

Module PyStr.

Definition chars (s : string) : list ascii := list_ascii_of_string s.
Definition str (cs : list ascii) : string := string_of_list_ascii cs.

Definition code (c : ascii) : N := N_of_ascii c.

(** [str.isspace] on ASCII: TAB, LF, VT, FF, CR, FS, GS, RS, US, SPACE. *)
Definition is_space (c : ascii) : bool :=
  let n := code c in
  ((9 <=? n) && (n <=? 13) || (28 <=? n) && (n <=? 32))%N.

Definition is_digit (c : ascii) : bool :=
  let n := code c in ((48 <=? n) && (n <=? 57))%N.

Definition digit_value (c : ascii) : N := (code c - 48)%N.

Fixpoint lstrip (cs : list ascii) : list ascii :=
  match cs with
  | c :: cs' => if is_space c then lstrip cs' else cs
  | [] => []
  end.

Definition rstrip (cs : list ascii) : list ascii := rev (lstrip (rev cs)).

(** [s.strip()] *)
Definition strip_chars (cs : list ascii) : list ascii := rstrip (lstrip cs).
Definition strip (s : string) : string := str (strip_chars (chars s)).

(** [s.replace(c, '')] for a one-character [c]. *)
Definition remove_char (c : ascii) (cs : list ascii) : list ascii :=
  List.filter (fun x => negb (Ascii.eqb x c)) cs.

(** [s.split(sep)] for a one-character separator. *)
Fixpoint split_chars (sep : ascii) (cs : list ascii) : list (list ascii) :=
  match cs with
  | [] => [[]]
  | c :: cs' =>
      if Ascii.eqb c sep then [] :: split_chars sep cs'
      else match split_chars sep cs' with
           | p :: ps => (c :: p) :: ps
           | [] => [[c]]
           end
  end.

Definition split (sep : ascii) (s : string) : list string :=
  map str (split_chars sep (chars s)).

(** [s.rsplit(sep, 1)]: split once, at the last separator. *)
Fixpoint break_at (sep : ascii) (cs : list ascii)
  : option (list ascii * list ascii) :=
  match cs with
  | [] => None
  | c :: cs' =>
      if Ascii.eqb c sep then Some ([], cs')
      else match break_at sep cs' with
           | Some (a, b) => Some (c :: a, b)
           | None => None
           end
  end.

Definition rsplit1 (sep : ascii) (s : string) : list string :=
  match break_at sep (rev (chars s)) with
  | Some (a, b) => [str (rev b); str (rev a)]
  | None => [s]
  end.

(** [s.lower()] *)
Definition lower_char (c : ascii) : ascii :=
  let n := code c in
  if ((65 <=? n) && (n <=? 90))%N then ascii_of_N (n + 32) else c.

Definition lower_chars (cs : list ascii) : list ascii := map lower_char cs.
Definition lower (s : string) : string := str (lower_chars (chars s)).

(** [sep.join(parts)] *)
Fixpoint join (sep : string) (parts : list string) : string :=
  match parts with
  | [] => ""
  | [p] => p
  | p :: ps => p +:+ sep +:+ join sep ps
  end.

(** [prefix] is how [cs] starts; the rest is returned. *)
Fixpoint strip_prefix (prefix cs : list ascii) : option (list ascii) :=
  match prefix, cs with
  | [], _ => Some cs
  | p :: ps, c :: cs' => if Ascii.eqb p c then strip_prefix ps cs' else None
  | _ :: _, [] => None
  end.

End PyStr.

(** ** Python floats (IEEE 754 binary64) *)

Module PyFloat.

Definition prec : Z := 53.
Definition emax : Z := 1024.

Definition float : Type := spec_float.

Definition zero : float := S754_zero false.
Definition nan : float := S754_nan.
Definition inf (neg : bool) : float := S754_infinity neg.

Definition is_nan (x : float) : bool :=
  match x with S754_nan => true | _ => false end.

(** [math.isfinite] *)
Definition is_finite (x : float) : bool :=
  match x with
  | S754_zero _ | S754_finite _ _ _ => true
  | S754_infinity _ | S754_nan => false
  end.

(** Comparison operators [<], [<=], [==], [!=], [>], [>=]. *)
Definition lt (x y : float) : bool := SFltb x y.
Definition le (x y : float) : bool := SFleb x y.
Definition eq (x y : float) : bool := SFeqb x y.
Definition ne (x y : float) : bool := negb (SFeqb x y).
Definition gt (x y : float) : bool := SFltb y x.
Definition ge (x y : float) : bool := SFleb y x.

(** Arithmetic, rounding to nearest even. *)
Definition sub (x y : float) : float := SFsub prec emax x y.
Definition mul (x y : float) : float := SFmul prec emax x y.
Definition div (x y : float) : float := SFdiv prec emax x y.
Definition abs (x : float) : float := SFabs x.
Definition neg (x : float) : float := SFopp x.

(** The float nearest to an integer, as in [float(n)] or in mixed
    arithmetic such as [x * 100]. *)
Definition of_Z (n : Z) : float := binary_normalize prec emax n 0 false.

(** The float nearest to the decimal [(-1)^neg * m * 10^e]. *)
Definition of_decimal (neg : bool) (m : N) (e : Z) : float :=
  match m with
  | N0 => S754_zero neg
  | Npos p =>
      if 0 <=? e then binary_round prec emax neg (p * Z.to_pos (10 ^ e)) 0
      else
        let '(q, e', l) :=
          SFdiv_core_binary prec emax (Zpos p) 0 (10 ^ (- e)) 0 in
        binary_round_aux prec emax neg q e' l
  end.

(** *** [float(str)] *)

Definition is_sign (c : ascii) : bool :=
  Ascii.eqb c "+" || Ascii.eqb c "-".

(** An optional sign: whether it is a minus, and the rest. *)
Definition take_sign (cs : list ascii) : bool * list ascii :=
  match cs with
  | c :: cs' => if is_sign c then (Ascii.eqb c "-", cs') else (false, cs)
  | [] => (false, [])
  end.

(** A maximal run of decimal digits: the number read so far, how many
    digits were read, and the rest. *)
Fixpoint take_digits (acc : N) (n : nat) (cs : list ascii)
  : N * nat * list ascii :=
  match cs with
  | c :: cs' =>
      if PyStr.is_digit c
      then take_digits (acc * 10 + PyStr.digit_value c)%N (S n) cs'
      else (acc, n, cs)
  | [] => (acc, n, [])
  end.

(** The exponent part, which must reach the end of the text. *)
Definition parse_exponent (cs : list ascii) : option Z :=
  match cs with
  | [] => Some 0
  | c :: cs' =>
      if Ascii.eqb (PyStr.lower_char c) "e" then
        let '(eneg, ds) := take_sign cs' in
        match take_digits 0 0 ds with
        | (_, O, _) => None
        | (v, S _, []) => Some (if eneg then - Z.of_N v else Z.of_N v)
        | (_, S _, _ :: _) => None
        end
      else None
  end.

(** A decimal literal: digits, an optional fraction, an optional
    exponent; at least one digit before the exponent. *)
Definition parse_decimal (neg : bool) (cs : list ascii) : option float :=
  let '(ip, ni, r1) := take_digits 0 0 cs in
  let '(m, nf, r2) :=
    match r1 with
    | c :: r => if Ascii.eqb c "." then take_digits ip 0 r else (ip, O, r1)
    | [] => (ip, O, r1)
    end in
  match (ni + nf)%nat with
  | O => None
  | S _ =>
      match parse_exponent r2 with
      | Some e => Some (of_decimal neg m (e - Z.of_nat nf))
      | None => None
      end
  end.

(** [inf], [infinity] and [nan], in any letter case. *)
Definition parse_inf_or_nan (neg : bool) (cs : list ascii) : option float :=
  let w := PyStr.str (PyStr.lower_chars cs) in
  if String.eqb w "inf" || String.eqb w "infinity" then Some (inf neg)
  else if String.eqb w "nan" then Some nan
  else None.

(** An underscore is accepted only between two digits. *)
Fixpoint underscores_ok (prev : option ascii) (cs : list ascii) : bool :=
  match cs with
  | [] => match prev with
          | Some p => negb (Ascii.eqb p "_")
          | None => true
          end
  | c :: cs' =>
      let prev_digit :=
        match prev with Some p => PyStr.is_digit p | None => false end in
      let prev_us :=
        match prev with Some p => Ascii.eqb p "_" | None => false end in
      (if Ascii.eqb c "_" then prev_digit
       else negb prev_us || PyStr.is_digit c)
      && underscores_ok (Some c) cs'
  end.

(** [float(s)]; [Raise ValueError] when the text is not a float literal. *)
Definition of_str (s : string) : result float :=
  let cs := PyStr.strip_chars (PyStr.chars s) in
  if underscores_ok None cs then
    let '(neg, body) := take_sign (PyStr.remove_char "_" cs) in
    match parse_decimal neg body with
    | Some x => Ok x
    | None =>
        match parse_inf_or_nan neg body with
        | Some x => Ok x
        | None => Raise ValueError
        end
    end
  else Raise ValueError.

End PyFloat.

(** ** [datetime.strptime] and [strftime] for the formats the scraper uses *)

Module PyDatetime.

Record datetime : Type := { year : N; month : N; day : N }.

(** The month abbreviations of the C locale, as [%b] knows them. *)
Definition a_month : list string :=
  ["jan"; "feb"; "mar"; "apr"; "may"; "jun";
   "jul"; "aug"; "sep"; "oct"; "nov"; "dec"].

Fixpoint index_of (w : string) (l : list string) (i : N) : option N :=
  match l with
  | [] => None
  | x :: l' => if String.eqb x w then Some i else index_of w l' (i + 1)%N
  end.

(** [%b]: three letters, in any letter case, naming a month. *)
Definition match_b (cs : list ascii) : option (N * list ascii) :=
  match cs with
  | a :: b :: c :: rest =>
      match index_of (PyStr.str (PyStr.lower_chars [a; b; c])) a_month 1 with
      | Some m => Some (m, rest)
      | None => None
      end
  | _ => None
  end.

(** [\s+] *)
Definition match_spaces (cs : list ascii) : option (list ascii) :=
  match cs with
  | c :: _ => if PyStr.is_space c then Some (PyStr.lstrip cs) else None
  | [] => None
  end.

(** [%d], reached after [\s+] has taken all the white space before it:
    [3[0-1]|[1-2]\d|0[1-9]|[1-9]]. *)
Definition match_d (cs : list ascii) : option (N * list ascii) :=
  let two :=
    match cs with
    | a :: b :: rest =>
        if PyStr.is_digit a && PyStr.is_digit b then
          let v := (PyStr.digit_value a * 10 + PyStr.digit_value b)%N in
          if ((1 <=? v) && (v <=? 31))%N then Some (v, rest) else None
        else None
    | _ => None
    end in
  match two with
  | Some r => Some r
  | None =>
      match cs with
      | a :: rest =>
          if PyStr.is_digit a && negb (Ascii.eqb a "0")
          then Some (PyStr.digit_value a, rest) else None
      | [] => None
      end
  end.

(** [%Y]: exactly four digits. *)
Definition match_Y (cs : list ascii) : option (N * list ascii) :=
  match cs with
  | a :: b :: c :: d :: rest =>
      if PyStr.is_digit a && PyStr.is_digit b
         && PyStr.is_digit c && PyStr.is_digit d
      then Some ((((PyStr.digit_value a * 10 + PyStr.digit_value b) * 10
                   + PyStr.digit_value c) * 10 + PyStr.digit_value d)%N,
                 rest)
      else None
  | _ => None
  end.

Definition is_leap (y : N) : bool :=
  ((y mod 4 =? 0) && (negb (y mod 100 =? 0) || (y mod 400 =? 0)))%N.

Definition days_in_month (y m : N) : N :=
  match m with
  | 2 => if is_leap y then 29 else 28
  | 4 | 6 | 9 | 11 => 30
  | _ => 31
  end%N.

(** [datetime.strptime(s, "%b %d %Y")]: the text has to match the format
    to its end and name a real calendar day. *)
Definition strptime_b_d_Y (s : string) : result datetime :=
  match
    '(m, r1) ← match_b (PyStr.chars s);
    r2 ← match_spaces r1;
    '(d, r3) ← match_d r2;
    r4 ← match_spaces r3;
    '(y, r5) ← match_Y r4;
    match r5 with
    | [] => Some {| year := y; month := m; day := d |}
    | _ :: _ => None
    end
  with
  | Some dt =>
      if ((1 <=? year dt) && (day dt <=? days_in_month (year dt) (month dt)))%N
      then Ok dt else Raise ValueError
  | None => Raise ValueError
  end.

Definition decimal (n : N) : string :=
  NilZero.string_of_uint (N.to_uint n).

(** Two digits, zero padded. *)
Definition pad2 (n : N) : string :=
  if (n <? 10)%N then "0" +:+ decimal n else decimal n.

(** [dt.strftime("%Y/%m/%d")] *)
Definition strftime_Y_m_d (dt : datetime) : string :=
  decimal (year dt) +:+ "/" +:+ pad2 (month dt) +:+ "/" +:+ pad2 (day dt).

End PyDatetime.

(** ** BeautifulSoup documents *)

Module Soup.

(** A parsed document: text nodes and tags with their children. *)
#[warnings="-register-all"]
Inductive PageElement : Type :=
  | NavigableString (text : string)
  | Tag (name : string) (contents : list PageElement).

(** [tag.descendants]: every node below the tag, in document order. *)
Fixpoint descendants (e : PageElement) : list PageElement :=
  match e with
  | NavigableString _ => []
  | Tag _ cs =>
      (fix go (l : list PageElement) : list PageElement :=
         match l with
         | [] => []
         | c :: l' => c :: descendants c ++ go l'
         end) cs
  end.

Definition is_tag (name : string) (e : PageElement) : bool :=
  match e with
  | Tag n _ => String.eqb n name
  | NavigableString _ => false
  end.

(** [tag.find_all(name)] *)
Definition find_all (name : string) (e : PageElement) : list PageElement :=
  List.filter (is_tag name) (descendants e).

(** [tag.find(name)]: the first match, or [None]. *)
Definition find (name : string) (e : PageElement) : option PageElement :=
  head (find_all name e).

(** [tag.find_all(text=True, recursive=True)] *)
Definition find_all_text (e : PageElement) : list string :=
  omap (fun d => match d with
                 | NavigableString t => Some t
                 | Tag _ _ => None
                 end) (descendants e).

(** The stripped text pieces that are not empty. *)
Definition stripped_strings (e : PageElement) : list string :=
  List.filter (fun t => negb (String.eqb t ""))
    (map PyStr.strip (find_all_text e)).

(** [tag.get_text(strip=True)] *)
Definition get_text_strip (e : PageElement) : string :=
  PyStr.join "" (stripped_strings e).

End Soup.

(** ** The scraper's records *)

Record Commodity : Type := {
  asset : string;
  name : string;
  unit : string;
  price : PyFloat.float;
  change : PyFloat.float;
  daily_pct : PyFloat.float;
  weekly_pct : PyFloat.float;
  monthly_pct : PyFloat.float;
  yearly_pct : PyFloat.float;
  three_year_pct : PyFloat.float;
  date : string
}.

(** ** [class TableParser] *)

Module TableParser.

(** [text.replace(',', '').replace(' ', '').strip()] *)
Definition number_text (text : string) : string :=
  PyStr.str (PyStr.strip_chars
    (PyStr.remove_char " " (PyStr.remove_char "," (PyStr.chars text)))).

(** [_parse_number]: [float] of the cleaned text, [0.0] on [ValueError]. *)
Definition _parse_number (text : string) : result PyFloat.float :=
  let cleaned := number_text text in
  match PyFloat.of_str cleaned with
  | Ok x => Ok x
  | Raise ValueError => Ok PyFloat.zero
  | Raise e => Raise e
  end.

(** [text.replace('%', '').replace(' ', '').strip()] *)
Definition percentage_text (text : string) : string :=
  PyStr.str (PyStr.strip_chars
    (PyStr.remove_char " " (PyStr.remove_char "%" (PyStr.chars text)))).

(** [_parse_percentage] *)
Definition _parse_percentage (text : string) : result PyFloat.float :=
  let cleaned := percentage_text text in
  if String.eqb cleaned "" || String.eqb cleaned "-" then Ok PyFloat.zero
  else
    match PyFloat.of_str cleaned with
    | Ok x => Ok x
    | Raise ValueError => Ok PyFloat.zero
    | Raise e => Raise e
    end.

(** The body of the [try] block of [_parse_date]. *)
Definition _parse_date_body (date_str : string) : result string :=
  let parts := PyStr.split "/" (PyStr.strip date_str) in
  if (length parts =? 2)%nat then
    month_str ← getitem parts 0;
    day_str ← getitem parts 1;
    let year := "2025" in
    date_obj ← PyDatetime.strptime_b_d_Y
                 (month_str +:+ " " +:+ day_str +:+ " " +:+ year);
    Ok (PyDatetime.strftime_Y_m_d date_obj)
  else Ok date_str.

(** [_parse_date] *)
Definition _parse_date (date_str : string) : string :=
  if String.eqb date_str "" || String.eqb (PyStr.strip date_str) "" then ""
  else
    match _parse_date_body date_str with
    | Ok s => s
    | Raise _ => date_str
    end.

(** [_split_name_unit_from_cell] *)
Definition _split_name_unit_from_cell (cell : Soup.PageElement)
  : string * string :=
  let text_elements := Soup.find_all_text cell in
  let clean_elements :=
    List.filter (fun t => negb (String.eqb t ""))
      (map PyStr.strip text_elements) in
  match clean_elements with
  | name :: unit :: _ => (name, unit)
  | [text] =>
      match PyStr.rsplit1 " " text with
      | [a; b] => (a, b)
      | _ => (text, "")
      end
  | [] => ("", "")
  end.

(** The body of the [try] block of [_parse_row]. *)
Definition _parse_row_body (cols : list Soup.PageElement)
    (asset_category : string) : result Commodity :=
  let cell_texts := map Soup.get_text_strip cols in
  name_unit_cell ← getitem cols 0;
  let '(name, unit) := _split_name_unit_from_cell name_unit_cell in
  price ← getitem cell_texts 1 ≫= _parse_number;
  change ← getitem cell_texts 2 ≫= _parse_number;
  daily ← getitem cell_texts 3 ≫= _parse_percentage;
  weekly ← getitem cell_texts 4 ≫= _parse_percentage;
  monthly ← getitem cell_texts 5 ≫= _parse_percentage;
  yearly ← getitem cell_texts 6 ≫= _parse_percentage;
  three_year ← getitem cell_texts 7 ≫= _parse_percentage;
  date_raw ← (if (8 <? length cell_texts)%nat
               then getitem cell_texts 8 else Ok "");
  let date := _parse_date date_raw in
  Ok {| asset := asset_category; name := name; unit := unit;
        price := price; change := change;
        daily_pct := daily; weekly_pct := weekly;
        monthly_pct := monthly; yearly_pct := yearly;
        three_year_pct := three_year; date := date |}.

(** [_parse_row]: [None] when anything in the body raises. *)
Definition _parse_row (cols : list Soup.PageElement)
    (asset_category : string) : option Commodity :=
  try_or_None (_parse_row_body cols asset_category).

(** The parser object: the records collected so far and the category of
    the last category header seen. *)
Record state : Type := {
  commodities : list Commodity;
  current_asset_category : string
}.

(** [__init__] *)
Definition init : state :=
  {| commodities := []; current_asset_category := "Unknown" |}.

(** The header texts of the column legend. *)
Definition column_labels : list string :=
  ["Price"; "Day"; "%"; "Week"; "Month"; "Year"; "3Y"].

Definition is_column_label (t : string) : bool :=
  existsb (String.eqb t) column_labels.

(** How the loop of [parse_tables] classifies a row. *)
Inductive row_kind : Type :=
  | HeaderRow (header : Soup.PageElement)
  | DataRow (cols : list Soup.PageElement)
  | IgnoredRow.

Definition classify (row : Soup.PageElement) : row_kind :=
  match Soup.find "th" row with
  | Some header => HeaderRow header
  | None =>
      let cols := Soup.find_all "td" row in
      if (8 <=? length cols)%nat then DataRow cols else IgnoredRow
  end.

(** One iteration of the loop of [parse_tables]. *)
Definition step (st : state) (row : Soup.PageElement) : state :=
  match classify row with
  | HeaderRow header =>
      let header_text := Soup.get_text_strip header in
      if negb (String.eqb header_text "")
         && negb (is_column_label header_text)
      then {| commodities := commodities st;
              current_asset_category := header_text |}
      else st
  | DataRow cols =>
      match _parse_row cols (current_asset_category st) with
      | Some commodity =>
          {| commodities := commodities st ++ [commodity];
             current_asset_category := current_asset_category st |}
      | None => st
      end
  | IgnoredRow => st
  end.

(** The loop of [parse_tables] over the rows, from a given state. *)
Definition parse_rows (st : state) (rows : list Soup.PageElement) : state :=
  fold_left step rows st.

(** [parse_tables], on a freshly built parser. *)
Definition parse_tables (soup : Soup.PageElement) : list Commodity :=
  commodities (parse_rows init (Soup.find_all "tr" soup)).

(** [_split_name_unit], the splitter of a plain text. *)
Definition _split_name_unit (text : string) : string * string :=
  match PyStr.rsplit1 " " text with
  | [a; b] => (a, b)
  | _ => (text, "")
  end.

End TableParser.

(** ** NumPy sorting *)

Module Numpy.

(** [ndarray.argsort(kind='quicksort')] for a given [<], returning the
    elements in the order of the computed indices.  NumPy documents this
    kind as a sort that is not stable; which algorithm runs depends on the
    element type and the build, so the frames below take the sort as a
    parameter, one function for each type of element. *)
Class Quicksort : Type :=
  argsort_quicksort : forall A : Type, (A -> A -> bool) -> list A -> list A.
#[global] Arguments argsort_quicksort {_} {A} lt l.

(** [lt] behaves as a strict weak order on the elements of [l]. *)
Record strict_weak_on {A} (lt : A -> A -> bool) (l : list A) : Prop := {
  swo_irrefl : forall x, In x l -> lt x x = false;
  swo_trans : forall x y z, In x l -> In y l -> In z l ->
    lt x y = true -> lt y z = true -> lt x z = true;
  swo_incomp : forall x y z, In x l -> In y l -> In z l ->
    lt x y = false -> lt y z = false -> lt x z = false
}.

(** What the callers rely on: the result is a rearrangement of the input,
    and it is in non-decreasing order whenever [<] orders the elements. *)
Class QuicksortSpec (Q : Quicksort) : Prop := {
  argsort_perm : forall A (lt : A -> A -> bool) l,
    Permutation (argsort_quicksort lt l) l;
  argsort_sorted : forall A (lt : A -> A -> bool) l,
    strict_weak_on lt l ->
    StronglySorted (fun x y => lt y x = false) (argsort_quicksort lt l)
}.

Section Generic.
Context {A : Type} (lt : A -> A -> bool).

(** *** Insertion sort, as in the tail of [npy_aquicksort]

    Each element moves left past the elements that are greater. The
    sorted prefix is kept reversed. *)
Fixpoint insert_from_right (x : A) (rev_prefix : list A) : list A :=
  match rev_prefix with
  | y :: r => if lt x y then y :: insert_from_right x r else x :: y :: r
  | [] => [x]
  end.

Definition insertion_sort (l : list A) : list A :=
  rev (fold_left (fun acc x => insert_from_right x acc) l []).

(** *** Arrays as lists *)

Definition swap (i j : nat) (a : list A) : list A :=
  match a !! i, a !! j with
  | Some x, Some y => <[i := y]> (<[j := x]> a)
  | _, _ => a
  end.

Definition lt_at (a : list A) (i j : nat) : bool :=
  match a !! i, a !! j with
  | Some x, Some y => lt x y
  | _, _ => false
  end.

(** *** The partition step of [npy_aquicksort] *)

(** [do ++pi; while (LT(v[*pi], vp) && pi < pj)] *)
Fixpoint scan_up (fuel : nat) (a : list A) (vp : A) (i j : nat) : nat :=
  match fuel with
  | O => S i
  | S f =>
      match a !! (S i) with
      | Some x =>
          if lt x vp && (S i <? j)%nat then scan_up f a vp (S i) j else S i
      | None => S i
      end
  end.

(** [do --pj; while (LT(vp, v[*pj]) && pi < pj)] *)
Fixpoint scan_down (fuel : nat) (a : list A) (vp : A) (i j : nat) : nat :=
  match fuel with
  | O => pred j
  | S f =>
      match a !! (pred j) with
      | Some x =>
          if lt vp x && (i <? pred j)%nat then scan_down f a vp i (pred j)
          else pred j
      | None => pred j
      end
  end.

Fixpoint partition_loop (fuel : nat) (a : list A) (vp : A) (i j : nat)
  : list A * nat :=
  match fuel with
  | O => (a, i)
  | S f =>
      let i' := scan_up (length a) a vp i j in
      let j' := scan_down (length a) a vp i' j in
      if (j' <=? i')%nat then (a, i')
      else partition_loop f (swap i' j' a) vp i' j'
  end.

(** Median of three, pivot parked at [pr - 1], scans from both ends that
    stop where they meet, pivot put in place: the array after the step and
    the pivot's position. *)
Definition partition (a : list A) : list A * nat :=
  let pr := (length a - 1)%nat in
  let pm := (pr / 2)%nat in
  let a := if lt_at a pm 0 then swap pm 0 a else a in
  let a := if lt_at a pr pm then swap pr pm a else a in
  let a := if lt_at a pm 0 then swap pm 0 a else a in
  match a !! pm with
  | Some vp =>
      let a := swap pm (pr - 1) a in
      let '(a, i) := partition_loop (length a) a vp 0 (pr - 1) in
      (swap i (pr - 1) a, i)
  | None => (a, O)
  end.

(** *** [npy_aheapsort], with the 1-based indexing of the C code *)

Definition get1 (a : list A) (k : nat) : option A := a !! (k - 1)%nat.
Definition set1 (a : list A) (k : nat) (x : A) : list A :=
  <[(k - 1)%nat := x]> a.

(** [if (j < n && LT(v[a[j]], v[a[j + 1]])) j += 1] *)
Definition larger_child (a : list A) (n j : nat) : nat :=
  if (j <? n)%nat then
    match get1 a j, get1 a (j + 1) with
    | Some x, Some y => if lt x y then (j + 1)%nat else j
    | _, _ => j
    end
  else j.

(** The inner [for (i, j = 2 i; j <= n;)] loop, moving [tmp] down. *)
Fixpoint sift (fuel : nat) (a : list A) (n : nat) (tmp : A) (i j : nat)
  : list A :=
  match fuel with
  | O => set1 a i tmp
  | S f =>
      if (n <? j)%nat then set1 a i tmp
      else
        let j := larger_child a n j in
        match get1 a j with
        | Some c =>
            if lt tmp c then sift f (set1 a i c) n tmp j (j + j)
            else set1 a i tmp
        | None => set1 a i tmp
        end
  end.

(** [for (l = n >> 1; l > 0; --l)] *)
Fixpoint heapify (l : nat) (a : list A) (n : nat) : list A :=
  match l with
  | O => a
  | S l' =>
      let a := match get1 a l with
               | Some tmp => sift n a n tmp l (l + l)
               | None => a
               end in
      heapify l' a n
  end.

(** [for (; n > 1;)] *)
Fixpoint extract (n : nat) (a : list A) : list A :=
  match n with
  | O => a
  | S n' =>
      match n' with
      | O => a
      | S _ =>
          match get1 a n, get1 a 1 with
          | Some tmp, Some top =>
              extract n' (sift n' (set1 a n top) n' tmp 1 2)
          | _, _ => a
          end
      end
  end.

Definition aheapsort (a : list A) : list A :=
  let n := length a in
  extract n (heapify (n / 2) a n).

(** *** [npy_aquicksort]

    Partitions while a range has more than [SMALL_QUICKSORT + 1]
    elements; the larger side is stacked and is heap sorted when its
    depth budget is used up; short ranges are insertion sorted. *)
Definition SMALL_QUICKSORT : nat := 16.

Fixpoint aquicksort_range (fuel : nat) (popped : bool) (cdepth : Z)
    (a : list A) : list A :=
  match fuel with
  | O => a
  | S f =>
      if popped && (cdepth <? 0) then aheapsort a
      else if (SMALL_QUICKSORT <? length a - 1)%nat then
        let '(a', i) := partition a in
        let left := take i a' in
        let right := drop (S i) a' in
        let pivot := take 1 (drop i a') in
        let d := cdepth - 1 in
        if (length left <? length right)%nat
        then aquicksort_range f false d left ++ pivot
               ++ aquicksort_range f true d right
        else aquicksort_range f true d left ++ pivot
               ++ aquicksort_range f false d right
      else insertion_sort a
  end.

Definition npy_get_msb (n : nat) : Z := Z.log2 (Z.of_nat n).

Definition npy_aquicksort (a : list A) : list A :=
  aquicksort_range (S (length a)) true (npy_get_msb (length a) * 2) a.

End Generic.

(** The generic quicksort, which NumPy runs on [object] arrays, such as a
    column of tuples, taken here for every type of element. *)
Definition generic_quicksort : Quicksort := fun A lt l => npy_aquicksort lt l.

End Numpy.

(** ** pandas data frames *)

Module Pandas.

(** A frame: its column labels and its rows, in row order. A selection
    [df[[...]]] keeps the rows and narrows the labels. *)
Record DataFrame (R : Type) : Type := {
  columns : list string;
  rows : list R
}.
Arguments columns {R} d.
Arguments rows {R} d.

(** [pd.DataFrame()] *)
Definition empty_frame {R} : DataFrame R := {| columns := []; rows := [] |}.

(** [df.empty] *)
Definition is_empty {R} (df : DataFrame R) : bool :=
  match rows df with [] => true | _ :: _ => false end.

Definition has_column {R} (df : DataFrame R) (label : string) : bool :=
  existsb (String.eqb label) (columns df).

(** [df[label]]: the values of a column, [KeyError] without it. *)
Definition column {R B} (df : DataFrame R) (label : string) (field : R -> B)
  : result (list B) :=
  if has_column df label then Ok (map field (rows df))
  else Raise (KeyError label).

(** [df[[l1, ..., lk]]]: every label has to be a column. *)
Definition select {R} (labels : list string) (df : DataFrame R)
  : result (DataFrame R) :=
  match List.filter (fun l => negb (has_column df l)) labels with
  | [] => Ok {| columns := labels; rows := rows df |}
  | missing :: _ => Raise (KeyError missing)
  end.

(** The first of the labels that is not a column raises [KeyError]. *)
Definition require_all {R} (labels : list string) (df : DataFrame R)
  : result Datatypes.unit :=
  match List.filter (fun l => negb (has_column df l)) labels with
  | [] => Ok ()
  | missing :: _ => Raise (KeyError missing)
  end.

(** [df[mask]] *)
Definition where_ {R} (mask : R -> bool) (df : DataFrame R) : DataFrame R :=
  {| columns := columns df; rows := List.filter mask (rows df) |}.

(** [series.unique()]: the distinct values, in order of first appearance. *)
Fixpoint unique_from (seen l : list string) : list string :=
  match l with
  | [] => []
  | x :: l' =>
      if existsb (String.eqb x) seen then unique_from seen l'
      else x :: unique_from (x :: seen) l'
  end.

Definition unique (l : list string) : list string := unique_from [] l.

(** [pd.concat(frames, ignore_index=True)] of frames with the same
    columns. *)
Definition concat_rows {R} (frames : list (list R)) : list R := concat frames.

(** [df.groupby(by).cumcount()]: for each row, how many earlier rows have
    the same group key. *)
Fixpoint cumcount_from (seen l : list string) : list nat :=
  match l with
  | [] => []
  | g :: l' =>
      length (List.filter (String.eqb g) seen) :: cumcount_from (g :: seen) l'
  end.

Definition cumcount (groups : list string) : list nat :=
  cumcount_from [] groups.

Section Sorting.
Context {Q : Numpy.Quicksort} {R : Type}.

(** [nargsort(..., kind='quicksort', ascending=False,
    na_position='last')], applied to the rows: the rows whose key is
    not missing are reversed, sorted upwards, and reversed again; the
    rows with a missing key follow. *)
Definition sort_values_desc {K} (lt : K -> K -> bool) (isna : K -> bool)
    (key : R -> K) (rs : list R) : list R :=
  let non_nans := List.filter (fun r => negb (isna (key r))) rs in
  let nans := List.filter (fun r => isna (key r)) rs in
  rev (Numpy.argsort_quicksort (fun a b => lt (key a) (key b))
         (rev non_nans))
  ++ nans.

(** [Series.nlargest(n, keep='first')] on a float column, applied to the
    rows. With [n] at least the number of rows, the whole column is
    sorted downwards.  Otherwise the keys that are not NaN are negated
    and sorted upwards by a stable sort, so that equal keys stay in row
    order, and rows with a NaN key fill up the result. *)
Definition nlargest (n : Z) (key : R -> PyFloat.float) (rs : list R)
  : list R :=
  if n <=? 0 then []
  else if Z.of_nat (length rs) <=? n then
    take (Z.to_nat n) (sort_values_desc PyFloat.lt PyFloat.is_nan key rs)
  else
    let dropped := List.filter (fun r => negb (PyFloat.is_nan (key r))) rs in
    let nan_index := List.filter (fun r => PyFloat.is_nan (key r)) rs in
    let by_negated a b :=
      PyFloat.lt (PyFloat.neg (key a)) (PyFloat.neg (key b)) in
    take (Z.to_nat n) (Numpy.insertion_sort by_negated dropped ++ nan_index).

End Sorting.

End Pandas.

(** ** [class CommodityDataManager] *)

Module CommodityDataManager.
Import Pandas.

Definition commodity_columns : list string :=
  ["Asset"; "Name"; "Unit"; "Price"; "Change"; "Daily %"; "Weekly %";
   "Monthly %"; "Yearly %"; "3-Year %"; "Date"].

(** The float columns, by label. *)
Definition numeric_column (label : string)
  : option (Commodity -> PyFloat.float) :=
  if String.eqb label "Price" then Some price
  else if String.eqb label "Change" then Some change
  else if String.eqb label "Daily %" then Some daily_pct
  else if String.eqb label "Weekly %" then Some weekly_pct
  else if String.eqb label "Monthly %" then Some monthly_pct
  else if String.eqb label "Yearly %" then Some yearly_pct
  else if String.eqb label "3-Year %" then Some three_year_pct
  else None.

(** [_create_dataframe]: [pd.DataFrame(data)] of one dict per commodity.
    The labels come from the dicts, so a frame built from no dict has no
    column. *)
Definition _create_dataframe (commodities : list Commodity)
  : DataFrame Commodity :=
  {| columns := match commodities with
                | [] => []
                | _ :: _ => commodity_columns
                end;
     rows := commodities |}.

(** A row of [get_strong_leads]. *)
Record StrongLead : Type := {
  Rank : nat;
  Rank_Asset : nat;
  lead : Commodity;
  Match : string
}.

(** A row of one frame of [get_investment_opportunities]. *)
Record Opportunity : Type := {
  opp_Rank : nat;
  opp_Rank_Asset : nat;
  candidate : Commodity;
  Timeframe : string
}.

Record Opportunities : Type := {
  short_term : DataFrame Opportunity;
  mid_term : DataFrame Opportunity;
  long_term : DataFrame Opportunity
}.

(** [int(s)] for the digits of a count. *)
Definition py_int (s : string) : result Z :=
  match PyFloat.take_digits 0 0 (PyStr.strip_chars (PyStr.chars s)) with
  | (v, S _, []) => Ok (Z.of_N v)
  | _ => Raise ValueError
  end.

(** [<] on the tuples [(count, x, y)] that [sort_key] builds: the first
    position where the tuples differ decides. *)
Definition sort_tuple : Type := Z * PyFloat.float * PyFloat.float.

Definition tuple_lt (a b : sort_tuple) : bool :=
  let '(c1, x1, y1) := a in
  let '(c2, x2, y2) := b in
  if negb (c1 =? c2) then c1 <? c2
  else if PyFloat.ne x1 x2 then PyFloat.lt x1 x2
  else if PyFloat.ne y1 y2 then PyFloat.lt y1 y2
  else false.

Section Manager.
Context {Q : Numpy.Quicksort}.

(** [df.nlargest(n, period)] *)
Definition df_nlargest (n : Z) (period : string) (df : DataFrame Commodity)
  : result (DataFrame Commodity) :=
  if has_column df period then
    match numeric_column period with
    | Some key =>
        Ok {| columns := columns df; rows := nlargest n key (rows df) |}
    | None => Raise TypeError
    end
  else Raise (KeyError period).

(** [get_top_performers] *)
Definition get_top_performers (period : string) (n : Z)
    (df : DataFrame Commodity) : result (DataFrame Commodity) :=
  df_nlargest n period df ≫= select ["Asset"; "Name"; "Price"; period].

(** [get_top_by_category] *)
Definition get_top_by_category (period : string) (n : Z)
    (df : DataFrame Commodity) : result (DataFrame Commodity) :=
  assets ← column df "Asset" asset;
  let categories := unique assets in
  result_frames ← mapM (fun category =>
      let category_df := where_ (fun r => String.eqb (asset r) category) df in
      df_nlargest n period category_df
        ≫= select ["Asset"; "Name"; "Unit"; "Price"; "Change"; period; "Date"])
    categories;
  match result_frames with
  | [] => Ok empty_frame
  | _ :: _ =>
      Ok {| columns := ["Asset"; "Name"; "Unit"; "Price"; "Change"; period; "Date"];
            rows := concat_rows (map rows result_frames) |}
  end.

(** The names of the top three rows of a category for one period, as a
    set. *)
Definition top3 (key : Commodity -> PyFloat.float)
    (category_rows : list Commodity) : gset string :=
  list_to_set (map name (nlargest 3 key category_rows)).

(** [count_top3_appearances] *)
Definition count_top3_appearances
    (top3_daily top3_weekly top3_monthly top3_yearly : gset string)
    (row : Commodity) : string :=
  let tally (top : gset string) (label : string)
            (st : nat * list string) : nat * list string :=
    if bool_decide (name row ∈ top)
    then (S (fst st), snd st ++ [label]) else st in
  let '(count, periods) :=
    tally top3_yearly "Y" (tally top3_monthly "M"
      (tally top3_weekly "W" (tally top3_daily "D" (O, [])))) in
  PyDatetime.decimal (N.of_nat count) +:+ "/4 ("
    +:+ PyStr.join "," periods +:+ ")".

(** One round of the loop of [get_strong_leads]: the frame appended
    for a category, if any, as rows with their [Match] text. *)
Definition category_leads (category_df : DataFrame Commodity)
  : result (option (list (Commodity * string))) :=
  if (length (rows category_df) =? 0)%nat then Ok None
  else
    _ ← require_all ["Daily %"; "Name"; "Weekly %"; "Monthly %";
                     "Yearly %"; "Asset"; "Unit"; "Price"; "Date"]
          category_df;
    let top3_daily := top3 daily_pct (rows category_df) in
    let top3_weekly := top3 weekly_pct (rows category_df) in
    let top3_monthly := top3 monthly_pct (rows category_df) in
    let top3_yearly := top3 yearly_pct (rows category_df) in
    let strong_leads :=
      top3_daily ∪ top3_weekly ∪ top3_monthly ∪ top3_yearly in
    if bool_decide (strong_leads = ∅) then Ok None
    else
      let leads_df :=
        List.filter (fun r => bool_decide (name r ∈ strong_leads))
          (rows category_df) in
      Ok (Some (map (fun r =>
                       (r, count_top3_appearances top3_daily top3_weekly
                             top3_monthly top3_yearly r))
                    leads_df)).

(** [combined_df['Match'].str.split('/').str[0].astype(int)] *)
Definition match_count (m : string) : result Z :=
  getitem (PyStr.split "/" m) 0 ≫= py_int.

(** [sort_key] *)
Definition sort_key (count : Z) (row : Commodity) : sort_tuple :=
  if count =? 1 then (count, daily_pct row, weekly_pct row)
  else (count, weekly_pct row, monthly_pct row).

Definition strong_lead_columns : list string :=
  ["Rank"; "Rank_Asset"; "Asset"; "Name"; "Unit"; "Price"; "Daily %";
   "Weekly %"; "Monthly %"; "Yearly %"; "Date"; "Match"].

(** The combined leads with their [_sort_tuple], before sorting. *)
Definition keyed_leads (combined : list (Commodity * string))
  : result (list (Commodity * string * sort_tuple)) :=
  mapM (fun rm : Commodity * string =>
          c ← match_count (snd rm);
          Ok (rm, sort_key c (fst rm)))
       combined.

(** [Rank] and [Rank_Asset] for rows in their final order. *)
Definition number_leads (sorted : list (Commodity * string))
  : list StrongLead :=
  let ranks := seq 1 (length sorted) in
  let rank_assets :=
    map S (cumcount (map (fun rm => asset (fst rm)) sorted)) in
  zip_with (fun '(rk, ra) '(r, m) =>
              {| Rank := rk; Rank_Asset := ra; lead := r; Match := m |})
    (zip ranks rank_assets) sorted.

(** The [result_frames] of [get_strong_leads]. *)
Definition lead_frames (df : DataFrame Commodity)
  : result (list (list (Commodity * string))) :=
  assets ← column df "Asset" asset;
  let categories := unique assets in
  frames ← mapM (fun category =>
      category_leads
        (where_ (fun r => String.eqb (asset r) category) df))
    categories;
  Ok (omap id frames).

(** [get_strong_leads] *)
Definition get_strong_leads (df : DataFrame Commodity)
  : result (DataFrame StrongLead) :=
  result_frames ← lead_frames df;
  match result_frames with
  | [] => Ok empty_frame
  | _ :: _ =>
      let combined := concat_rows result_frames in
      keyed ← keyed_leads combined;
      let sorted :=
        sort_values_desc tuple_lt (fun _ => false) snd keyed in
      Ok {| columns := strong_lead_columns;
            rows := number_leads (map fst sorted) |}
  end.

(** The candidate of a category for one timeframe: among the rows with
    both percentages positive, [nlargest(1, key)]. *)
Definition candidates (first second key : Commodity -> PyFloat.float)
    (category_rows : list Commodity) : list Commodity :=
  nlargest 1 key
    (List.filter
       (fun r => PyFloat.gt (first r) PyFloat.zero
                 && PyFloat.gt (second r) PyFloat.zero)
       category_rows).

(** One round of the loop of [get_investment_opportunities]: what is
    appended to the short, mid and long term lists. *)
Definition category_opportunities (category_df : DataFrame Commodity)
  : result (list Commodity * list Commodity * list Commodity) :=
  if (length (rows category_df) =? 0)%nat then Ok ([], [], [])
  else
    _ ← require_all ["Daily %"; "Weekly %"; "Asset"; "Name"; "Unit";
                     "Price"; "Date"; "Monthly %"; "Yearly %"]
          category_df;
    let rs := rows category_df in
    Ok (candidates daily_pct weekly_pct daily_pct rs,
        candidates weekly_pct monthly_pct weekly_pct rs,
        candidates yearly_pct monthly_pct yearly_pct rs).

(** [Rank], [Rank_Asset] and [Timeframe] for the rows of one bucket. *)
Definition number_opportunities (timeframe : string)
    (combined : list Commodity) : list Opportunity :=
  let ranks := seq 1 (length combined) in
  let rank_assets := map S (cumcount (map asset combined)) in
  zip_with (fun '(rk, ra) r =>
              {| opp_Rank := rk; opp_Rank_Asset := ra;
                 candidate := r; Timeframe := timeframe |})
    (zip ranks rank_assets) combined.

(** The frame of one timeframe, from the frames appended to its list. *)
Definition combine_opportunities (timeframe : string)
    (labels : list string) (frames : list (list Commodity))
  : DataFrame Opportunity :=
  match List.filter (fun f => negb (bool_decide (f = []))) frames with
  | [] => empty_frame
  | (_ :: _) as kept =>
      {| columns := ["Rank"; "Rank_Asset"] ++ labels ++ ["Timeframe"];
         rows := number_opportunities timeframe (concat_rows kept) |}
  end.

(** [get_investment_opportunities] *)
Definition get_investment_opportunities (df : DataFrame Commodity)
  : result Opportunities :=
  assets ← column df "Asset" asset;
  let categories := unique assets in
  per_category ← mapM (fun category =>
      category_opportunities
        (where_ (fun r => String.eqb (asset r) category) df))
    categories;
  Ok {| short_term :=
          combine_opportunities "Short-term"
            ["Asset"; "Name"; "Unit"; "Price"; "Daily %"; "Weekly %"; "Date"]
            (map (fun t => fst (fst t)) per_category);
        mid_term :=
          combine_opportunities "Mid-term"
            ["Asset"; "Name"; "Unit"; "Price"; "Weekly %"; "Monthly %"; "Date"]
            (map (fun t => snd (fst t)) per_category);
        long_term :=
          combine_opportunities "Long-term"
            ["Asset"; "Name"; "Unit"; "Price"; "Monthly %"; "Yearly %"; "Date"]
            (map snd per_category) |}.

End Manager.

End CommodityDataManager.

(** ** Price alerts *)

Record PriceAlert : Type := {
  commodity_name : string;
  asset_type : string;
  current_price : PyFloat.float;
  previous_price : PyFloat.float;
  price_change : PyFloat.float;
  percent_change : PyFloat.float;
  alert_daily_pct : PyFloat.float;
  alert_weekly_pct : PyFloat.float;
  alert_date : string
}.

Record Subscription : Type := {
  sub_commodity_name : string;
  email : option string;
  sms_number : option string;
  min_percent_change : PyFloat.float
}.

(** The notification channels, by class. *)
Inductive NotificationChannel : Type :=
  | EmailNotification
  | SMSNotification
  | OtherNotification.

(** ** [class AlertService] *)

Module AlertService.
Import Pandas.

(** An optional text counts as true when it is there and not empty. *)
Definition truthy (o : option string) : bool :=
  match o with
  | Some s => negb (String.eqb s "")
  | None => false
  end.

Section Service.
(** The calendar dates, the price stored for a commodity name, an asset
    and the day before a date ([_get_previous_day_data], a database
    query), and the delivery of an alert by a channel ([send]). *)
Context {Date : Type}.
Variable _get_previous_day_data :
  string -> string -> Date -> option PyFloat.float.
Variable send : NotificationChannel -> PriceAlert -> string -> bool.

(** The rows of the current data for a subscription:
    [current_data[current_data['Name'].str.lower()
                  == subscription.commodity_name.lower()]]. *)
Definition current_commodity (subscription : Subscription)
    (current_data : DataFrame Commodity) : result (DataFrame Commodity) :=
  _ ← column current_data "Name" name;
  Ok (where_ (fun r => String.eqb (PyStr.lower (name r))
                         (PyStr.lower (sub_commodity_name subscription)))
        current_data).

(** [percent_change] *)
Definition percent_change_of (price_change previous : PyFloat.float)
  : PyFloat.float :=
  if PyFloat.ne previous PyFloat.zero
  then PyFloat.mul (PyFloat.div price_change previous) (PyFloat.of_Z 100)
  else PyFloat.zero.

(** From the current row and the previous price to the alert, if the
    change reaches the threshold of the subscription. *)
Definition evaluate (subscription : Subscription) (current_row : Commodity)
    (previous : PyFloat.float) : option PriceAlert :=
  let price_change := PyFloat.sub (price current_row) previous in
  let percent_change := percent_change_of price_change previous in
  if PyFloat.ge (PyFloat.abs percent_change)
       (min_percent_change subscription)
  then Some {| commodity_name := name current_row;
               asset_type := asset current_row;
               current_price := price current_row;
               previous_price := previous;
               price_change := price_change;
               percent_change := percent_change;
               alert_daily_pct := daily_pct current_row;
               alert_weekly_pct := weekly_pct current_row;
               alert_date := date current_row |}
  else None.

(** One round of the loop of [check_and_send_alerts], up to the alert:
    [None] when the round ends with [continue] or below the threshold. *)
Definition subscription_alert (subscription : Subscription)
    (current_data : DataFrame Commodity) (current_date : Date)
  : result (option PriceAlert) :=
  matching ← current_commodity subscription current_data;
  match rows matching with
  | [] => Ok None
  | current_row :: _ =>
      _ ← require_all ["Asset"] matching;
      match _get_previous_day_data (sub_commodity_name subscription)
              (asset current_row) current_date with
      | None => Ok None
      | Some previous =>
          _ ← require_all ["Price"] matching;
          match evaluate subscription current_row previous with
          | Some alert =>
              _ ← require_all ["Daily %"; "Weekly %"; "Date"] matching;
              Ok (Some alert)
          | None => Ok None
          end
      end
  end.

(** The sends of one channel for an alert, counted. *)
Definition channel_sends (subscription : Subscription) (alert : PriceAlert)
    (channel : NotificationChannel) : nat :=
  (match channel, email subscription with
   | EmailNotification, Some to =>
       if truthy (email subscription) && send channel alert to then 1 else 0
   | _, _ => 0
   end
   +
   match channel, sms_number subscription with
   | SMSNotification, Some to =>
       if truthy (sms_number subscription) && send channel alert to
       then 1 else 0
   | _, _ => 0
   end)%nat.

(** [check_and_send_alerts]: the number of notifications sent. *)
Fixpoint check_and_send_alerts (subscriptions : list Subscription)
    (notification_channels : list NotificationChannel)
    (current_data : DataFrame Commodity) (current_date : Date)
  : result nat :=
  match subscriptions with
  | [] => Ok O
  | subscription :: rest =>
      fired ← subscription_alert subscription current_data current_date;
      let sent :=
        match fired with
        | Some alert =>
            list_sum (map (channel_sends subscription alert)
                        notification_channels)
        | None => O
        end in
      more ← check_and_send_alerts rest notification_channels
               current_data current_date;
      Ok (sent + more)%nat
  end.

End Service.

(** The service object: its channels and its subscriptions, in the order
    in which they were added. *)
Record state : Type := {
  notification_channels : list NotificationChannel;
  subscriptions : list Subscription
}.

(** [__init__] *)
Definition init : state :=
  {| notification_channels := []; subscriptions := [] |}.

(** [add_notification_channel] *)
Definition add_notification_channel (self : state)
    (channel : NotificationChannel) : state :=
  {| notification_channels := notification_channels self ++ [channel];
     subscriptions := subscriptions self |}.

(** [add_subscription] *)
Definition add_subscription (self : state) (subscription : Subscription)
  : state :=
  {| notification_channels := notification_channels self;
     subscriptions := subscriptions self ++ [subscription] |}.

End AlertService.

(** ** [class CommoditiesApp] *)

Module CommoditiesApp.

Section App.
(** What [fetch_page] returns, the text of the page or nothing, and the
    document that [BeautifulSoup] makes of a text. *)
Variable fetch_page : option string.
Variable BeautifulSoup : string -> Soup.PageElement.

(** [run]: the frame of the data manager that is returned, if one is. *)
Definition run : option (Pandas.DataFrame Commodity) :=
  match fetch_page with
  | None => None
  | Some html =>
      if String.eqb html "" then None
      else
        let commodities := TableParser.parse_tables (BeautifulSoup html) in
        match commodities with
        | [] => None
        | _ :: _ => Some (CommodityDataManager._create_dataframe commodities)
        end
  end.

End App.

End CommoditiesApp.

(** * Vocabulary of the properties *)

(** ** Rows of a table *)

Section RowKinds.
Import Soup TableParser.

(** Whether the loop of [parse_tables] treats the row as a header row. *)
Definition is_header_row (row : PageElement) : bool :=
  match classify row with
  | HeaderRow _ => true
  | DataRow _ | IgnoredRow => false
  end.

(** A data row of the expected shape: no label cell, eight data cells or
    more. *)
Definition valid_data_row (row : PageElement) : Prop :=
  find "th" row = None /\ (8 <= length (find_all "td" row))%nat.

(** A data row whose field extraction fails. *)
Definition invalid_data_row (row : PageElement) : Prop :=
  find "th" row = None
  /\ forall category, _parse_row (find_all "td" row) category = None.

End RowKinds.

(** ** Codes of floats and of sort tuples *)

Section FloatCodes.
Import CommodityDataManager.

(** Floats, and so sort tuples, can be told apart. *)
#[export] Instance spec_float_eq_dec : EqDecision spec_float.
Proof. solve_decision. Defined.

(** A code of the floats other than NaN whose lexicographic order is the
    order of [SFcompare]. *)
Definition float_code (x : PyFloat.float) : Z * Z * Z :=
  match x with
  | S754_infinity true => (-2, 0, 0)
  | S754_finite true m e => (-1, - e, Zneg m)
  | S754_zero _ => (0, 0, 0)
  | S754_nan => (0, 0, 0)
  | S754_finite false m e => (1, e, Zpos m)
  | S754_infinity false => (2, 0, 0)
  end.

(** The lexicographic order of codes, as a proposition and as a
    comparison. *)
Definition lex3_lt (a b : Z * Z * Z) : Prop :=
  let '(a1, a2, a3) := a in
  let '(b1, b2, b3) := b in
  a1 < b1 \/ (a1 = b1 /\ (a2 < b2 \/ (a2 = b2 /\ a3 < b3))).

Definition lex3_compare (a b : Z * Z * Z) : comparison :=
  let '(a1, a2, a3) := a in
  let '(b1, b2, b3) := b in
  match a1 ?= b1 with
  | Eq => match a2 ?= b2 with
          | Eq => a3 ?= b3
          | c => c
          end
  | c => c
  end.

(** A sort tuple without NaN. *)
Definition tuple_not_nan (t : sort_tuple) : Prop :=
  PyFloat.is_nan (snd (fst t)) = false /\ PyFloat.is_nan (snd t) = false.

(** The order of sort tuples without NaN, on integer codes. *)
Definition lex7_lt (c1 : Z) (x1 y1 : Z * Z * Z) (c2 : Z) (x2 y2 : Z * Z * Z)
  : Prop :=
  let '(a1, a2, a3) := x1 in
  let '(b1, b2, b3) := y1 in
  let '(a1', a2', a3') := x2 in
  let '(b1', b2', b3') := y2 in
  c1 < c2 \/ (c1 = c2 /\
  (a1 < a1' \/ (a1 = a1' /\ (a2 < a2' \/ (a2 = a2' /\ (a3 < a3' \/ (a3 = a3' /\
  (b1 < b1' \/ (b1 = b1' /\ (b2 < b2' \/ (b2 = b2' /\ b3 < b3'))))))))))).

End FloatCodes.

(** ** Invariants of the generic quicksort *)

Section SortInvariants.
Context {A : Type} (lt : A -> A -> bool).

(** The state of the partition loop: the elements are those of [U],
    everything up to [i] is not above the pivot, everything from [j] on is
    not below it, and the pivot is parked at [hi]. *)
Definition loop_inv (U : list A) (vp : A) (hi : nat) (a : list A)
    (i j : nat) : Prop :=
  incl a U
  /\ (i < j <= hi)%nat /\ (S hi < length a)%nat
  /\ a !! hi = Some vp
  /\ (forall k x, (k <= i)%nat -> a !! k = Some x -> lt vp x = false)
  /\ (forall k x, (j <= k)%nat -> a !! k = Some x -> lt x vp = false).

(** Node [k] of the heap in the first [n] cells is not below its
    children. *)
Definition node_ok (a : list A) (n k : nat) : Prop :=
  forall c x y, (c = 2 * k \/ c = 2 * k + 1)%nat -> (c <= n)%nat ->
    Numpy.get1 a k = Some x -> Numpy.get1 a c = Some y -> lt x y = false.

(** The state of the extraction loop of heap sort: a heap in the first
    [n] cells, below the sorted rest. *)
Definition extract_inv (U : list A) (a : list A) (n : nat) : Prop :=
  incl a U /\ (n <= length a)%nat
  /\ (forall k, (1 <= k <= n)%nat -> node_ok a n k)
  /\ StronglySorted (fun x y => lt y x = false) (drop n a)
  /\ (forall x y, In x (take n a) -> In y (drop n a) -> lt y x = false).

End SortInvariants.

(** ** Leads and candidates *)

Section Leads.
Import Pandas CommodityDataManager.
Context {Q : Numpy.Quicksort}.

(** A record qualifies for the short term when both its daily and its
    weekly percentage are above zero. *)
Definition short_term_qualifies (r : Commodity) : bool :=
  PyFloat.gt (daily_pct r) PyFloat.zero && PyFloat.gt (weekly_pct r) PyFloat.zero.

(** The records of a category. *)
Definition of_category (category : string) (records : list Commodity)
  : list Commodity :=
  List.filter (fun r => String.eqb (asset r) category) records.

(** Whether a name is among the names of the top three rows of a category
    for a period. *)
Definition in_top3 (key : Commodity -> PyFloat.float)
    (category_rows : list Commodity) (n : string) : bool :=
  existsb (String.eqb n) (map name (nlargest 3 key category_rows)).

(** The labels of the periods, out of daily, weekly, monthly and yearly,
    marked by the four flags. *)
Definition period_labels (d w m y : bool) : list string :=
  (if d then ["D"] else []) ++ (if w then ["W"] else [])
  ++ (if m then ["M"] else []) ++ (if y then ["Y"] else []).

(** The periods in which a name is in the top three of its category. *)
Definition matched_periods (category_rows : list Commodity) (n : string)
  : list string :=
  period_labels (in_top3 daily_pct category_rows n)
    (in_top3 weekly_pct category_rows n)
    (in_top3 monthly_pct category_rows n)
    (in_top3 yearly_pct category_rows n).

(** The [Match] text for a list of period labels. *)
Definition match_text (periods : list string) : string :=
  PyDatetime.decimal (N.of_nat (length periods)) +:+ "/4 ("
    +:+ PyStr.join "," periods +:+ ")".

(** The count that [get_strong_leads] reads back from a [Match] text. *)
Definition match_count_of (l : StrongLead) : Z :=
  match match_count (Match l) with
  | Ok c => c
  | Raise _ => 0
  end.

(** The sort key of a row of the result, as the specification words it:
    the count with the daily and weekly percentage when the count is one,
    the count with the weekly and monthly percentage otherwise. *)
Definition lead_key (l : StrongLead) : sort_tuple :=
  if match_count_of l =? 1
  then (match_count_of l, daily_pct (lead l), weekly_pct (lead l))
  else (match_count_of l, weekly_pct (lead l), monthly_pct (lead l)).

(** The sort key of a row of the combined frame, from its [Match] text,
    before the rows are sorted and ranked. *)
Definition pair_key (rm : Commodity * string) : sort_tuple :=
  match match_count (snd rm) with
  | Ok c => sort_key c (fst rm)
  | Raise _ => sort_key 0 (fst rm)
  end.

(** Two sort tuples tie when neither is below the other, as tuples that
    differ in the sign of a zero do. *)
Definition tied (a b : sort_tuple) : bool :=
  negb (tuple_lt a b) && negb (tuple_lt b a).

(** No NaN among the percentages that sort keys are made of. *)
Definition key_fields_not_nan (r : Commodity) : Prop :=
  PyFloat.is_nan (daily_pct r) = false
  /\ PyFloat.is_nan (weekly_pct r) = false
  /\ PyFloat.is_nan (monthly_pct r) = false.

(** The frame that one round of the loop appends for the rows of a
    category. *)
Definition leads_frame (category_rows : list Commodity)
  : option (list (Commodity * string)) :=
  match category_rows with
  | [] => None
  | _ :: _ =>
      let qualifies (r : Commodity) :=
        in_top3 daily_pct category_rows (name r)
        || in_top3 weekly_pct category_rows (name r)
        || in_top3 monthly_pct category_rows (name r)
        || in_top3 yearly_pct category_rows (name r) in
      match List.filter qualifies category_rows with
      | [] => None
      | (_ :: _) as leads =>
          Some (map (fun r => (r, match_text
                                    (matched_periods category_rows (name r))))
                  leads)
      end
  end.

(** Whether a row is a strong lead among the rows of its category. *)
Definition qualifies (category_rows : list Commodity) (r : Commodity) : bool :=
  in_top3 daily_pct category_rows (name r)
  || in_top3 weekly_pct category_rows (name r)
  || in_top3 monthly_pct category_rows (name r)
  || in_top3 yearly_pct category_rows (name r).

(** The frames of all categories, concatenated. *)
Definition combined_leads (records : list Commodity)
  : list (Commodity * string) :=
  concat (omap id (map (fun category => leads_frame (of_category category records))
                     (unique (map asset records)))).

(** The count of periods and the sort tuple that go with a row of the
    combined frame. *)
Definition lead_count (records : list Commodity) (rm : Commodity * string) : Z :=
  Z.of_nat (length (matched_periods (of_category (asset (fst rm)) records)
                      (name (fst rm)))).

Definition with_key (records : list Commodity) (rm : Commodity * string)
  : Commodity * string * sort_tuple :=
  (rm, sort_key (lead_count records rm) (fst rm)).

(** The rows of [get_strong_leads] for a sequence of records. *)
Definition strong_leads_rows (records : list Commodity) : list StrongLead :=
  number_leads
    (map fst (sort_values_desc tuple_lt (fun _ => false) snd
                (map (with_key records) (combined_leads records)))).

(** A bucket of investment opportunities is in order: ranks count from
    one, every row is the only one of its category and carries the name
    of the bucket, and the categories come in the order in which the
    records first show them. *)
Definition bucket_ok (records : list Commodity) (timeframe : string)
    (bucket : DataFrame Opportunity) : Prop :=
  map opp_Rank (rows bucket) = seq 1 (length (rows bucket))
  /\ Forall (fun o => opp_Rank_Asset o = 1%nat /\ Timeframe o = timeframe)
       (rows bucket)
  /\ sublist (map (fun o => asset (candidate o)) (rows bucket))
       (unique (map asset records)).

End Leads.

(** ** Alerts *)

Section Alerting.
Import Pandas AlertService.

(** The percent change as the specification words it: the price change
    over the previous price, times one hundred, and zero when the previous
    price equals zero. *)
Definition spec_percent_change (current previous : PyFloat.float)
  : PyFloat.float :=
  if PyFloat.eq previous PyFloat.zero then PyFloat.zero
  else PyFloat.mul (PyFloat.div (PyFloat.sub current previous) previous)
         (PyFloat.of_Z 100).

(** The rows of the current data whose name is the subscribed name, letter
    case apart. *)
Definition matching_rows (subscription : Subscription)
    (current_data : DataFrame Commodity) : list Commodity :=
  List.filter
    (fun r => String.eqb (PyStr.lower (name r))
                (PyStr.lower (sub_commodity_name subscription)))
    (rows current_data).

(** The columns that [check_and_send_alerts] reads. *)
Definition alert_columns : list string :=
  ["Name"; "Asset"; "Price"; "Daily %"; "Weekly %"; "Date"].

End Alerting.

(** ** Rows and categories of a document *)

Section Categories.
Import Soup TableParser.

(** Whether the loop of [parse_tables] hands the row to [_parse_row]. *)
Definition is_data_row (row : PageElement) : bool :=
  match classify row with
  | DataRow _ => true
  | HeaderRow _ | IgnoredRow => false
  end.

(** The category that a row sets, if it sets one: the text of the first
    label cell of a header row, unless it is empty or a column label. *)
Definition category_header (row : PageElement) : option string :=
  match classify row with
  | HeaderRow header =>
      let t := get_text_strip header in
      if negb (String.eqb t "") && negb (is_column_label t)
      then Some t else None
  | DataRow _ | IgnoredRow => None
  end.

End Categories.
Section Calendar.

(** A letter in lower case and in upper case. *)
Definition letter_cases (c : ascii) : list ascii :=
  [c; ascii_of_N (PyStr.code c - 32)].

(** The spellings of a word of lower case letters in either letter
    case. *)
Fixpoint spellings (cs : list ascii) : list (list ascii) :=
  match cs with
  | [] => [[]]
  | c :: rest =>
      flat_map (fun x => map (cons x) (spellings rest)) (letter_cases c)
  end.

(** The month abbreviations in every spelling, with the number of the
    month. *)
Definition month_spellings : list (string * N) :=
  flat_map (fun wm : string * N =>
              map (fun cs => (PyStr.str cs, snd wm))
                  (spellings (PyStr.chars (fst wm))))
    (combine PyDatetime.a_month (map N.of_nat (seq 1 12))).

(** The days of a month, as numbers. *)
Definition month_days : list N := map N.of_nat (seq 1 31).

(** The text [yyyy/mm/dd] of a day of 2025. *)
Definition normal_date (m d : N) : string :=
  "2025/" +:+ PyDatetime.pad2 m +:+ "/" +:+ PyDatetime.pad2 d.

(** What [_parse_date] is to give for a month abbreviation and a day
    number, written with or without a leading zero. *)
Definition calendar_ok (mon : string) (m d : N) : bool :=
  forallb (fun day =>
             String.eqb (TableParser._parse_date (mon +:+ "/" +:+ day))
               (if (d <=? PyDatetime.days_in_month 2025 m)%N
                then normal_date m d else mon +:+ "/" +:+ day))
    [PyDatetime.decimal d; PyDatetime.pad2 d].

End Calendar.
(** ** Rankings *)

Section Ranking.

(** In a ranking by [key], from the highest value down and with the rows
    without a value last, row [a] may come before row [b]. *)
Definition ranks_before {R} (key : R -> PyFloat.float) (a b : R) : Prop :=
  PyFloat.is_nan (key b) = true
  \/ (PyFloat.is_nan (key a) = false
      /\ PyFloat.le (key b) (key a) = true).

(** The labels of the columns that hold text. *)
Definition text_columns : list string := ["Asset"; "Name"; "Unit"; "Date"].

End Ranking.
(** ** Notifications *)

Section Deliveries.
Import AlertService.

Definition is_email_channel (c : NotificationChannel) : bool :=
  match c with EmailNotification => true | _ => false end.

Definition is_sms_channel (c : NotificationChannel) : bool :=
  match c with SMSNotification => true | _ => false end.

(** The notifications that an alert of a subscription can lead to: one
    for each email channel when the subscription has an email address,
    one for each SMS channel when it has a number. *)
Definition deliveries (subscription : Subscription)
    (channels : list NotificationChannel) : nat :=
  ((if truthy (email subscription)
    then length (List.filter is_email_channel channels) else 0)
   + (if truthy (sms_number subscription)
      then length (List.filter is_sms_channel channels) else 0))%nat.

(** The same subscription with another threshold. *)
Definition with_threshold (subscription : Subscription)
    (threshold : PyFloat.float) : Subscription :=
  {| sub_commodity_name := sub_commodity_name subscription;
     email := email subscription;
     sms_number := sms_number subscription;
     min_percent_change := threshold |}.

End Deliveries.
(** ** Buckets without a row *)

Section Buckets.

(** Both percentages are above zero. *)
Definition both_positive (first second : Commodity -> PyFloat.float)
    (r : Commodity) : bool :=
  PyFloat.gt (first r) PyFloat.zero && PyFloat.gt (second r) PyFloat.zero.

End Buckets.

(** ** Example data *)

Section Examples.
Import Soup Pandas CommodityDataManager.

(** A record with the given category, name and daily, weekly, monthly and
    yearly percentages. *)
Definition quote (a n : string) (d w m y : PyFloat.float) : Commodity :=
  {| asset := a; name := n; unit := "USD"; price := PyFloat.of_Z 100;
     change := PyFloat.zero; daily_pct := d; weekly_pct := w;
     monthly_pct := m; yearly_pct := y; three_year_pct := PyFloat.zero;
     date := "2025/11/28" |}.

(** One category with five records, four of which lead one period each,
    and a second category whose best weekly mover has a negative day. *)
Definition sample_records : list Commodity :=
  [quote "Energy" "A" (PyFloat.of_Z 5) (PyFloat.of_Z 1) (PyFloat.of_Z 1) (PyFloat.of_Z 1);
   quote "Energy" "B" (PyFloat.of_Z 1) (PyFloat.of_Z 5) (PyFloat.of_Z 1) (PyFloat.of_Z 1);
   quote "Energy" "C" (PyFloat.of_Z 1) (PyFloat.of_Z 1) (PyFloat.of_Z 5) (PyFloat.of_Z 1);
   quote "Energy" "D" PyFloat.zero PyFloat.zero PyFloat.zero (PyFloat.of_Z 9);
   quote "Energy" "E" PyFloat.zero PyFloat.zero PyFloat.zero PyFloat.zero;
   quote "Metals" "G" (PyFloat.of_Z 2) (PyFloat.of_Z 1) (PyFloat.of_Z 4) (PyFloat.of_Z 5);
   quote "Metals" "H" (PyFloat.of_Z (-2)) (PyFloat.of_Z 3) PyFloat.zero PyFloat.zero].

(** Three records of one category; the weekly percentage of the second
    is NaN, as read from a cell with the text [nan]. *)
Definition nan_records : list Commodity :=
  [quote "Metals" "X" PyFloat.zero (PyFloat.of_Z 3) PyFloat.zero PyFloat.zero;
   quote "Metals" "Y" PyFloat.zero PyFloat.nan PyFloat.zero PyFloat.zero;
   quote "Metals" "Z" PyFloat.zero (PyFloat.of_Z 5) PyFloat.zero PyFloat.zero].

(** Six categories of three records each, all percentages zero: eighteen
    strong leads with one and the same sort key. *)
Definition tied_records : list Commodity :=
  flat_map
    (fun a => map (fun n => quote a (a +:+ n) PyFloat.zero PyFloat.zero
                              PyFloat.zero PyFloat.zero)
                ["1"; "2"; "3"])
    ["A"; "B"; "C"; "D"; "E"; "F"].

(** Five such categories: fifteen strong leads with one and the same
    sort key. *)
Definition few_tied_records : list Commodity :=
  List.filter (fun r => negb (String.eqb (asset r) "F")) tied_records.

(** The strong leads of the sequences above, under the generic quicksort
    of NumPy. *)
Definition nan_leads : DataFrame StrongLead :=
  Eval vm_compute in
    match get_strong_leads (Q := Numpy.generic_quicksort)
            (_create_dataframe nan_records) with
    | Ok res => res
    | Raise _ => empty_frame
    end.

Definition tied_leads : DataFrame StrongLead :=
  Eval vm_compute in
    match get_strong_leads (Q := Numpy.generic_quicksort)
            (_create_dataframe tied_records) with
    | Ok res => res
    | Raise _ => empty_frame
    end.

(** Two categories of two records each, whose weekly percentages are
    zeros of either sign: four strong leads whose keys tie. *)
Definition zero_sign_records : list Commodity :=
  [quote "A" "P" PyFloat.zero PyFloat.zero PyFloat.zero PyFloat.zero;
   quote "A" "N" PyFloat.zero (PyFloat.neg PyFloat.zero) PyFloat.zero
     PyFloat.zero;
   quote "B" "Q" PyFloat.zero (PyFloat.neg PyFloat.zero) PyFloat.zero
     PyFloat.zero;
   quote "B" "R" PyFloat.zero PyFloat.zero PyFloat.zero PyFloat.zero].

Definition td (text : string) : PageElement := Tag "td" [NavigableString text].

(** A data row of nine cells. *)
Definition gold_row : PageElement :=
  Tag "tr" [td "Gold USD/t.oz"; td "4,100.50"; td "12.3"; td "0.30%";
            td "1.2%"; td "-3%"; td "55.1%"; td "120%"; td "Nov/28"].

(** A data row of two cells. *)
Definition short_row : PageElement := Tag "tr" [td "Silver"; td "50.1"].

Definition sample_table : PageElement :=
  Tag "table" [gold_row; short_row; gold_row].

Definition gold_subscription : Subscription :=
  {| sub_commodity_name := "GOLD"; email := Some "desk@example.com";
     sms_number := None; min_percent_change := PyFloat.of_Z 1 |}.

(** A record named Gold at the given price. *)
Definition gold_at (p : PyFloat.float) : Commodity :=
  {| asset := "Metals"; name := "Gold"; unit := "USD/t.oz"; price := p;
     change := PyFloat.zero; daily_pct := PyFloat.zero;
     weekly_pct := PyFloat.zero; monthly_pct := PyFloat.zero;
     yearly_pct := PyFloat.zero; three_year_pct := PyFloat.zero;
     date := "2025/11/28" |}.

(** The float [100.5]. *)
Definition f100_5 : PyFloat.float := PyFloat.of_decimal false 1005 (-1).

Definition th (text : string) : PageElement := Tag "th" [NavigableString text].

(** A document with a column legend, two categories and a row that is
    too short. *)
Definition two_category_table : PageElement :=
  Tag "table"
    [Tag "tr" [th "Price"; th "Day"; th "%"];
     gold_row;
     Tag "tr" [th "Metals"];
     gold_row; short_row; gold_row;
     Tag "tr" [th "Energy"];
     gold_row].

(** The three best daily performers of the sample records. *)
Definition top_daily_sample : DataFrame Commodity :=
  Eval vm_compute in
    match get_top_performers (Q := Numpy.generic_quicksort) "Daily %" 3
            (_create_dataframe sample_records) with
    | Ok res => res
    | Raise _ => empty_frame
    end.

(** The cells of a data row without a date. *)
Definition eight_cells : list PageElement :=
  [td "Gold USD/t.oz"; td "4,100.50"; td "12.3"; td "0.30%"; td "1.2%";
   td "-3%"; td "55.1%"; td "120%"].

End Examples.

(** * Properties *)

(** ** Cell normalizers *)

Section CellNormalizer.
Import TableParser.

Lemma of_str_raises_ValueError s e :
  PyFloat.of_str s = Raise e -> e = ValueError.
Proof.
  unfold PyFloat.of_str.
  destruct (PyFloat.underscores_ok _ _); [|congruence].
  destruct (PyFloat.take_sign _) as [sg body].
  destruct (PyFloat.parse_decimal _ _); [congruence|].
  destruct (PyFloat.parse_inf_or_nan _ _); congruence.
Qed.

Lemma _parse_number_total text : exists x, _parse_number text = Ok x.
Proof.
  unfold _parse_number.
  destruct (PyFloat.of_str _) as [x|e] eqn:E; [eauto|].
  apply of_str_raises_ValueError in E as ->. eauto.
Qed.

Lemma _parse_percentage_total text : exists x, _parse_percentage text = Ok x.
Proof.
  unfold _parse_percentage.
  destruct (_ || _); [eauto|].
  destruct (PyFloat.of_str _) as [x|e] eqn:E; [eauto|].
  apply of_str_raises_ValueError in E as ->. eauto.
Qed.

(** C8 as the specification states it fails: the text [inf] is read as
    an infinity and [nan%] as a NaN. *)
Lemma C8_not_always_finite :
  _parse_number "inf" = Ok (PyFloat.inf false)
  /\ PyFloat.is_finite (PyFloat.inf false) = false
  /\ _parse_percentage "nan%" = Ok PyFloat.nan
  /\ PyFloat.is_finite PyFloat.nan = false.
Proof. repeat split; vm_compute; reflexivity. Qed.

(** C8, amended (the result is a float, not always a finite one): for
    every text, [_parse_number] and [_parse_percentage] return without
    raising; both return [0.0] when [float] rejects the cleaned text;
    [_parse_percentage] returns [0.0] when the cleaned text is empty or
    a lone [-]. *)
Theorem C8_parse_total_with_zero_fallback (s : string) :
  (exists x, _parse_number s = Ok x)
  /\ (exists y, _parse_percentage s = Ok y)
  /\ (PyFloat.of_str (number_text s) = Raise ValueError ->
      _parse_number s = Ok PyFloat.zero)
  /\ (PyFloat.of_str (percentage_text s) = Raise ValueError ->
      _parse_percentage s = Ok PyFloat.zero)
  /\ (percentage_text s = "" \/ percentage_text s = "-" ->
      _parse_percentage s = Ok PyFloat.zero).
Proof.
  split; [apply _parse_number_total|].
  split; [apply _parse_percentage_total|].
  unfold _parse_number, _parse_percentage.
  split; [intros ->; reflexivity|].
  split.
  - intros ->. destruct (_ || _); reflexivity.
  - intros [-> | ->]; reflexivity.
Qed.

Lemma C8_parse_total_witness :
  _parse_number "n/a" = Ok PyFloat.zero
  /\ _parse_percentage "1.2.3%" = Ok PyFloat.zero
  /\ _parse_percentage " - % " = Ok PyFloat.zero.
Proof.
  destruct (C8_parse_total_with_zero_fallback "n/a") as (_ & _ & H1 & _).
  destruct (C8_parse_total_with_zero_fallback "1.2.3%") as (_ & _ & _ & H2 & _).
  destruct (C8_parse_total_with_zero_fallback " - % ") as (_ & _ & _ & _ & H3).
  split; [apply H1; vm_compute; reflexivity|].
  split; [apply H2; vm_compute; reflexivity|].
  apply H3. right. vm_compute. reflexivity.
Defined.

End CellNormalizer.

(** ** Dates *)

Section ParseDate.
Import TableParser.

Lemma chars_app s t : PyStr.chars (s +:+ t) = PyStr.chars s ++ PyStr.chars t.
Proof.
  unfold PyStr.chars. induction s as [|c s IH]; simpl; [reflexivity|].
  now rewrite IH.
Qed.

Lemma strip_empty : PyStr.strip "" = "".
Proof. reflexivity. Qed.

Lemma index_of_In w l i k : PyDatetime.index_of w l i = Some k -> In w l.
Proof.
  revert i. induction l as [|x l IH]; simpl; intros i H; [discriminate|].
  destruct (String.eqb x w) eqn:E.
  - left. now apply String.eqb_eq.
  - right. eauto.
Qed.

(** No month abbreviation contains a space. *)
Lemma month_without_space a b c :
  a = " "%char \/ b = " "%char \/ c = " "%char ->
  ~ In (String a (String b (String c ""))) PyDatetime.a_month.
Proof.
  intros Hsp Hin. simpl in Hin.
  repeat (destruct Hin as [Hin|Hin];
          [inversion Hin; subst; destruct Hsp as [? | [? | ?] ]; discriminate|]).
  destruct Hin.
Qed.

Lemma lower_char_space : PyStr.lower_char " " = " "%char.
Proof. reflexivity. Qed.

Lemma match_b_triple a b c rest :
  PyDatetime.match_b (a :: b :: c :: rest)
  = match PyDatetime.index_of
            (String (PyStr.lower_char a) (String (PyStr.lower_char b)
               (String (PyStr.lower_char c) ""))) PyDatetime.a_month 1 with
    | Some m => Some (m, rest)
    | None => None
    end.
Proof. reflexivity. Qed.

Lemma match_b_space a b c rest :
  a = " "%char \/ b = " "%char \/ c = " "%char ->
  PyDatetime.match_b (a :: b :: c :: rest) = None.
Proof.
  intros Hsp. rewrite match_b_triple.
  destruct (PyDatetime.index_of _ _ _) as [m|] eqn:E; [|reflexivity].
  apply index_of_In in E. exfalso. revert E. apply month_without_space.
  destruct Hsp as [-> | [-> | ->] ]; rewrite lower_char_space; auto.
Qed.

(** A first part that does not start with a month abbreviation makes
    [strptime] fail, whatever the day part is. *)
Lemma unrecognized_month_fails m t :
  PyDatetime.match_b (PyStr.chars m) = None ->
  PyDatetime.match_b (PyStr.chars (m +:+ " " +:+ t)) = None.
Proof.
  intros H. rewrite !chars_app.
  destruct (PyStr.chars m) as [|a [|b [|c rest]]]; simpl app.
  - destruct (PyStr.chars t) as [|x [|y r]]; try reflexivity;
      apply match_b_space; auto.
  - destruct (PyStr.chars t) as [|x r]; try reflexivity;
      apply match_b_space; auto.
  - apply match_b_space; auto.
  - rewrite match_b_triple in *.
    destruct (PyDatetime.index_of _ _ _); [discriminate|reflexivity].
Qed.

Lemma strptime_unrecognized m t :
  PyDatetime.match_b (PyStr.chars m) = None ->
  PyDatetime.strptime_b_d_Y (m +:+ " " +:+ t) = Raise ValueError.
Proof.
  intros H. unfold PyDatetime.strptime_b_d_Y.
  now rewrite (unrecognized_month_fails _ _ H).
Qed.

Lemma not_blank_guard s :
  PyStr.strip s <> "" ->
  String.eqb s "" || String.eqb (PyStr.strip s) "" = false.
Proof.
  intros H. apply orb_false_iff. split; apply String.eqb_neq; [|exact H].
  intros ->. now apply H.
Qed.

(** C7 as the specification states it fails: a blank text does not split
    into two parts, and yet it is not returned unchanged. *)
Lemma C7_blank_text_not_unchanged :
  length (PyStr.split "/" (PyStr.strip " ")) <> 2%nat
  /\ _parse_date " " = ""
  /\ _parse_date " " <> " ".
Proof. repeat split; vm_compute; congruence. Qed.

(** C7, amended (blank text, not only the empty text, gives the empty
    text): [_parse_date] maps [Nov/28] to [2025/11/28], the empty text
    and every text of white space to the empty text, and returns any
    other text unchanged when its stripped form does not split at [/]
    into exactly two parts, or when the first of the two parts does not
    start with a month abbreviation ([garbage] stays [garbage]). *)
Theorem C7_parse_date :
  _parse_date "Nov/28" = "2025/11/28"
  /\ _parse_date "" = ""
  /\ _parse_date "garbage" = "garbage"
  /\ forall s,
      (PyStr.strip s = "" -> _parse_date s = "")
      /\ (PyStr.strip s <> "" ->
          length (PyStr.split "/" (PyStr.strip s)) <> 2%nat ->
          _parse_date s = s)
      /\ (PyStr.strip s <> "" ->
          forall month_str day_str,
            PyStr.split "/" (PyStr.strip s) = [month_str; day_str] ->
            PyDatetime.match_b (PyStr.chars month_str) = None ->
            _parse_date s = s).
Proof.
  repeat split; try reflexivity.
  - intros H. unfold _parse_date. rewrite H. simpl.
    now rewrite orb_true_r.
  - intros Hne Hlen. unfold _parse_date, _parse_date_body.
    rewrite (not_blank_guard _ Hne).
    apply Nat.eqb_neq in Hlen. now rewrite Hlen.
  - intros Hne m d Hsplit Hm. unfold _parse_date, _parse_date_body.
    rewrite (not_blank_guard _ Hne), Hsplit. simpl.
    now rewrite (strptime_unrecognized _ _ Hm).
Qed.

Lemma C7_parse_date_witness :
  _parse_date "   " = ""
  /\ _parse_date "Nov/28/2025" = "Nov/28/2025"
  /\ _parse_date "Foo/12" = "Foo/12".
Proof.
  destruct C7_parse_date as (_ & _ & _ & H).
  split; [apply (H "   "); reflexivity|].
  split.
  - apply (H "Nov/28/2025"); vm_compute; congruence.
  - apply (proj2 (proj2 (H "Foo/12"))) with (month_str := "Foo") (day_str := "12");
      vm_compute; congruence.
Defined.

End ParseDate.

(** ** Table walking *)

Section TableWalker.
Import Soup TableParser.

Lemma getitem_lookup {A} (l : list A) i x : l !! i = Some x -> getitem l i = Ok x.
Proof. unfold getitem. now intros ->. Qed.

Lemma getitem_short {A} (l : list A) i :
  (length l <= i)%nat -> getitem l i = Raise IndexError.
Proof. intros H. unfold getitem. now rewrite (lookup_ge_None_2 l i H). Qed.

Lemma getitem_map {A B} (f : A -> B) (l : list A) i x :
  l !! i = Some x -> getitem (map f l) i = Ok (f x).
Proof.
  intros H. apply getitem_lookup.
  change (map f l) with (f <$> l). now rewrite list_lookup_fmap, H.
Qed.

Lemma bind_Ok {A B} (a : A) (k : A -> result B) : (Ok a ≫= k) = k a.
Proof. reflexivity. Qed.

Lemma bind_Raise {A B} e (k : A -> result B) : (Raise e ≫= k) = Raise e.
Proof. reflexivity. Qed.

(** With eight cells or more, every field is extracted. *)
Lemma _parse_row_body_ok cols category :
  (8 <= length cols)%nat ->
  exists c, _parse_row_body cols category = Ok c /\ asset c = category.
Proof.
  intros Hlen.
  destruct cols as [|c0 [|c1 [|c2 [|c3 [|c4 [|c5 [|c6 [|c7 rest]]]]]]]];
    simpl in Hlen; try lia.
  unfold _parse_row_body.
  rewrite (getitem_lookup _ 0 c0) by reflexivity. rewrite bind_Ok.
  destruct (_split_name_unit_from_cell c0) as [nm un].
  rewrite (getitem_map _ _ 1 c1), (getitem_map _ _ 2 c2), (getitem_map _ _ 3 c3),
    (getitem_map _ _ 4 c4), (getitem_map _ _ 5 c5), (getitem_map _ _ 6 c6),
    (getitem_map _ _ 7 c7) by reflexivity.
  rewrite !bind_Ok.
  destruct (_parse_number_total (get_text_strip c1)) as [x1 ->]. rewrite bind_Ok.
  destruct (_parse_number_total (get_text_strip c2)) as [x2 ->]. rewrite bind_Ok.
  destruct (_parse_percentage_total (get_text_strip c3)) as [x3 ->]. rewrite bind_Ok.
  destruct (_parse_percentage_total (get_text_strip c4)) as [x4 ->]. rewrite bind_Ok.
  destruct (_parse_percentage_total (get_text_strip c5)) as [x5 ->]. rewrite bind_Ok.
  destruct (_parse_percentage_total (get_text_strip c6)) as [x6 ->]. rewrite bind_Ok.
  destruct (_parse_percentage_total (get_text_strip c7)) as [x7 ->]. rewrite bind_Ok.
  destruct rest as [|c8 rest'].
  - simpl. eauto.
  - replace (8 <? length _)%nat with true by reflexivity.
    rewrite (getitem_map _ _ 8 c8) by reflexivity. rewrite bind_Ok. eauto.
Qed.

(** With fewer than eight cells, an index is out of range. *)
Lemma _parse_row_body_short cols category :
  (length cols < 8)%nat ->
  _parse_row_body cols category = Raise IndexError.
Proof.
  intros Hlen. unfold _parse_row_body.
  destruct cols as [|c0 cols]; [reflexivity|].
  rewrite (getitem_lookup _ 0 c0) by reflexivity. rewrite bind_Ok.
  destruct (_split_name_unit_from_cell c0) as [nm un].
  assert (Htot : forall t (k : PyFloat.float -> result Commodity),
             (forall x, k x = Raise IndexError) ->
             (_parse_number t ≫= k) = Raise IndexError).
  { intros t k Hk. destruct (_parse_number_total t) as [x ->]. apply Hk. }
  assert (Htot' : forall t (k : PyFloat.float -> result Commodity),
             (forall x, k x = Raise IndexError) ->
             (_parse_percentage t ≫= k) = Raise IndexError).
  { intros t k Hk. destruct (_parse_percentage_total t) as [x ->]. apply Hk. }
  repeat
    (match goal with
     | |- context [getitem (map get_text_strip (c0 :: ?l)) ?i] =>
         let Hs := fresh "Hs" in
         let t := fresh "t" in
         let Ht := fresh "Ht" in
         destruct (decide (length (map get_text_strip (c0 :: l)) <= i)%nat) as [Hs|Hs];
         [rewrite (getitem_short _ i Hs); reflexivity|];
         destruct (lookup_lt_is_Some_2 (map get_text_strip (c0 :: l)) i) as [t Ht];
         [lia|];
         rewrite (getitem_lookup _ i t Ht), bind_Ok;
         first [apply Htot | apply Htot']; intros ?
     end).
  rewrite length_map in *. simpl in *. lia.
Qed.

Lemma _parse_row_None_iff cols category :
  _parse_row cols category = None <-> (length cols < 8)%nat.
Proof.
  unfold _parse_row. split.
  - intros H. destruct (decide (length cols < 8)%nat) as [|Hge]; [assumption|].
    destruct (_parse_row_body_ok cols category) as (c & Hc & _); [lia|].
    rewrite Hc in H. discriminate.
  - intros H. now rewrite _parse_row_body_short.
Qed.

Lemma _parse_row_Some cols category :
  (8 <= length cols)%nat ->
  exists c, _parse_row cols category = Some c /\ asset c = category.
Proof.
  intros H. destruct (_parse_row_body_ok cols category H) as (c & Hc & Ha).
  exists c. unfold _parse_row. now rewrite Hc.
Qed.

Lemma is_header_row_iff row :
  is_header_row row = true <-> find_all "th" row <> [].
Proof.
  unfold is_header_row, classify, find.
  destruct (find_all "th" row) as [|h l]; cbn [head];
    repeat case_match; split; congruence.
Qed.

Lemma is_column_label_In t : In t column_labels -> is_column_label t = true.
Proof.
  intros H. unfold is_column_label. apply existsb_exists.
  exists t. split; [assumption|apply String.eqb_refl].
Qed.

Lemma step_column_label st row header :
  classify row = HeaderRow header ->
  In (get_text_strip header) column_labels ->
  step st row = st.
Proof.
  intros Hc Hin. unfold step. rewrite Hc.
  rewrite (is_column_label_In _ Hin). now rewrite andb_false_r.
Qed.

Lemma parse_rows_app st rows1 rows2 :
  parse_rows st (rows1 ++ rows2) = parse_rows (parse_rows st rows1) rows2.
Proof. apply fold_left_app. Qed.

(** A row that is not a header row leaves the category alone and adds at
    most one record, of the current category. *)
Lemma step_not_header st row :
  is_header_row row = false ->
  current_asset_category (step st row) = current_asset_category st
  /\ (commodities (step st row) = commodities st
      \/ exists c, commodities (step st row) = commodities st ++ [c]
                   /\ asset c = current_asset_category st).
Proof.
  unfold is_header_row, step. destruct (classify row) as [h|cols|] eqn:Hc;
    [discriminate| |]; intros _.
  - destruct (_parse_row cols _) as [c|] eqn:Hp; simpl; [|auto].
    split; [reflexivity|]. right. exists c. split; [reflexivity|].
    unfold classify in Hc. destruct (find "th" row); [discriminate|].
    destruct (8 <=? length (find_all "td" row))%nat eqn:Hlen; [|discriminate].
    injection Hc as <-. apply Nat.leb_le in Hlen.
    destruct (_parse_row_Some _ (current_asset_category st) Hlen)
      as (c' & Hc' & Ha).
    congruence.
  - auto.
Qed.

Lemma parse_rows_no_header rows st :
  Forall (fun r => is_header_row r = false) rows ->
  current_asset_category (parse_rows st rows) = current_asset_category st
  /\ exists new,
       commodities (parse_rows st rows) = commodities st ++ new
       /\ Forall (fun c => asset c = current_asset_category st) new.
Proof.
  intros H. revert st. induction H as [|row rows Hrow _ IH]; intros st.
  - simpl. split; [reflexivity|]. exists []. now rewrite app_nil_r.
  - simpl. change (fold_left step rows (step st row))
      with (parse_rows (step st row) rows).
    destruct (IH (step st row)) as (Hcat & new & Hnew & Hall).
    destruct (step_not_header st row Hrow) as (Hcat' & Hstep).
    rewrite Hcat' in *. split; [assumption|].
    destruct Hstep as [Heq|(c & Heq & Hc)]; rewrite Hnew, Heq.
    + exists new. auto.
    + exists (c :: new). rewrite <- app_assoc. split; [reflexivity|].
      constructor; assumption.
Qed.

Lemma parse_rows_prefix rows st :
  exists new, commodities (parse_rows st rows) = commodities st ++ new.
Proof.
  revert st. induction rows as [|row rows IH]; intros st; simpl.
  - exists []. now rewrite app_nil_r.
  - destruct (IH (step st row)) as [new Hnew].
    change (fold_left step rows (step st row))
      with (parse_rows (step st row) rows).
    rewrite Hnew. unfold step.
    destruct (classify row) as [h|cols|].
    + destruct (_ && _); simpl; eauto.
    + destruct (_parse_row _ _) as [c|]; simpl; [|eauto].
      exists (c :: new). now rewrite <- app_assoc.
    + eauto.
Qed.

(** C5 as the specification states it fails: a row with a label cell and
    a data cell is treated as a header row. *)
Lemma C5_header_row_with_data_cell :
  let row := Tag "tr" [Tag "th" [NavigableString "Energy"];
                       Tag "td" [NavigableString "58.5"]] in
  is_header_row row = true
  /\ find_all "th" row <> []
  /\ find_all "td" row <> []
  /\ current_asset_category (step init row) = "Energy".
Proof. repeat split; vm_compute; congruence. Qed.

(** C5, amended (data cells do not matter for the classification): a row
    is treated as a header row if and only if it contains a label cell; a
    header whose text is one of Price, Day, %, Week, Month, Year, 3Y never
    changes the tracked category; the records of the data rows that come
    before any header row have category Unknown. *)
Theorem C5_table_walking :
  (forall row, is_header_row row = true <-> find_all "th" row <> [])
  /\ (forall st row header,
        classify row = HeaderRow header ->
        In (get_text_strip header)
           ["Price"; "Day"; "%"; "Week"; "Month"; "Year"; "3Y"] ->
        step st row = st)
  /\ (forall before rest,
        Forall (fun r => is_header_row r = false) before ->
        Forall (fun c => asset c = "Unknown")
               (commodities (parse_rows init before))
        /\ exists later,
             commodities (parse_rows init (before ++ rest))
             = commodities (parse_rows init before) ++ later).
Proof.
  split; [exact is_header_row_iff|].
  split; [exact step_column_label|].
  intros before rest Hno.
  destruct (parse_rows_no_header before init Hno) as (_ & new & Hnew & Hall).
  split.
  - rewrite Hnew. exact Hall.
  - rewrite parse_rows_app. apply parse_rows_prefix.
Qed.

Lemma step_valid st row :
  valid_data_row row ->
  exists c,
    step st row = {| commodities := commodities st ++ [c];
                     current_asset_category := current_asset_category st |}.
Proof.
  intros [Hth Hlen]. unfold step, classify. rewrite Hth.
  apply Nat.leb_le in Hlen as Hlen'. rewrite Hlen'.
  destruct (_parse_row_Some _ (current_asset_category st) Hlen) as (c & -> & _).
  eauto.
Qed.

Lemma step_invalid st row : invalid_data_row row -> step st row = st.
Proof.
  intros [Hth Hfail]. unfold step, classify. rewrite Hth.
  destruct (Nat.leb _ _); [|reflexivity]. now rewrite Hfail.
Qed.

Lemma parse_rows_valid_length rows st :
  Forall valid_data_row rows ->
  length (commodities (parse_rows st rows))
  = (length (commodities st) + length rows)%nat.
Proof.
  intros H. revert st. induction H as [|row rows Hrow _ IH]; intros st; simpl.
  - lia.
  - change (fold_left step rows (step st row))
      with (parse_rows (step st row) rows).
    rewrite IH. destruct (step_valid st row Hrow) as [c ->]. simpl.
    rewrite length_app. simpl. lia.
Qed.

(** C6: when the field extraction of a row raises, [_parse_row] gives no
    record and the walker goes on unchanged; a table of N valid data rows
    and one invalid data row yields exactly N records, those of the valid
    rows. *)
Theorem C6_row_drop (soup : PageElement) (before after : list PageElement)
    (bad : PageElement) :
  find_all "tr" soup = before ++ bad :: after ->
  Forall valid_data_row (before ++ after) ->
  invalid_data_row bad ->
  (forall cols category e,
      _parse_row_body cols category = Raise e ->
      _parse_row cols category = None)
  /\ (forall st, step st bad = st)
  /\ parse_tables soup = commodities (parse_rows init (before ++ after))
  /\ length (parse_tables soup) = length (before ++ after).
Proof.
  intros Hrows Hvalid Hbad.
  split; [intros cols category e H; unfold _parse_row; now rewrite H|].
  split; [intros st; now apply step_invalid|].
  assert (Heq : parse_tables soup
                = commodities (parse_rows init (before ++ after))).
  { unfold parse_tables. rewrite Hrows, !parse_rows_app. simpl.
    now rewrite (step_invalid _ _ Hbad). }
  split; [exact Heq|].
  rewrite Heq, (parse_rows_valid_length _ _ Hvalid). reflexivity.
Qed.

End TableWalker.

(** ** The order of floats *)

Section FloatOrder.

Lemma SFcompare_code x y :
  PyFloat.is_nan x = false -> PyFloat.is_nan y = false ->
  SFcompare x y = Some (lex3_compare (float_code x) (float_code y)).
Proof.
  destruct x as [sx|sx| |sx mx ex], y as [sy|sy| |sy my ey];
    try discriminate; intros _ _;
    try (destruct sx; destruct sy; reflexivity).
  destruct sx, sy; try reflexivity; unfold SFcompare, float_code, lex3_compare.
  change (-1 ?= -1) with Eq. rewrite Z.compare_opp.
  rewrite (Z.compare_antisym ex ey).
  destruct (ex ?= ey); reflexivity.
Qed.

Lemma lex3_compare_Lt a b : lex3_compare a b = Lt <-> lex3_lt a b.
Proof.
  destruct a as [[a1 a2] a3], b as [[b1 b2] b3]. unfold lex3_compare, lex3_lt.
  destruct (Z.compare_spec a1 b1), (Z.compare_spec a2 b2),
    (Z.compare_spec a3 b3); split; intros Hyp; try discriminate;
    try reflexivity; try lia.
Qed.

Lemma lex3_compare_Eq a b : lex3_compare a b = Eq <-> a = b.
Proof.
  destruct a as [[a1 a2] a3], b as [[b1 b2] b3]. unfold lex3_compare.
  destruct (Z.compare_spec a1 b1), (Z.compare_spec a2 b2),
    (Z.compare_spec a3 b3); split; intros Hyp; try discriminate;
    try reflexivity; try (injection Hyp; lia); try congruence.
Qed.

Lemma float_lt_iff x y :
  PyFloat.is_nan x = false -> PyFloat.is_nan y = false ->
  PyFloat.lt x y = true <-> lex3_lt (float_code x) (float_code y).
Proof.
  intros Hx Hy. unfold PyFloat.lt, SFltb. rewrite (SFcompare_code x y Hx Hy).
  rewrite <- lex3_compare_Lt.
  destruct (lex3_compare _ _); split; congruence.
Qed.

Lemma float_eq_iff x y :
  PyFloat.is_nan x = false -> PyFloat.is_nan y = false ->
  PyFloat.eq x y = true <-> float_code x = float_code y.
Proof.
  intros Hx Hy. unfold PyFloat.eq, SFeqb. rewrite (SFcompare_code x y Hx Hy).
  rewrite <- lex3_compare_Eq.
  destruct (lex3_compare _ _); split; congruence.
Qed.

Lemma float_le_iff x y :
  PyFloat.is_nan x = false -> PyFloat.is_nan y = false ->
  PyFloat.le x y = true
  <-> lex3_lt (float_code x) (float_code y) \/ float_code x = float_code y.
Proof.
  intros Hx Hy. unfold PyFloat.le, SFleb. rewrite (SFcompare_code x y Hx Hy).
  rewrite <- lex3_compare_Lt, <- lex3_compare_Eq.
  destruct (lex3_compare _ _); split; try congruence; auto.
  intros [?|?]; congruence.
Qed.

Lemma float_code_neg x :
  float_code (PyFloat.neg x)
  = (- fst (fst (float_code x)), - snd (fst (float_code x)),
     - snd (float_code x)).
Proof.
  destruct x as [s|s| |s m e]; try destruct s; simpl; try reflexivity.
  now rewrite Z.opp_involutive.
Qed.

Lemma is_nan_neg x : PyFloat.is_nan (PyFloat.neg x) = PyFloat.is_nan x.
Proof. destruct x; reflexivity. Qed.

(** A float that is greater than zero is not NaN. *)
Lemma gt_zero_not_nan x :
  PyFloat.gt x PyFloat.zero = true -> PyFloat.is_nan x = false.
Proof. destruct x; simpl; intros H; try reflexivity; discriminate. Qed.

End FloatOrder.

(** ** Sorting *)

Section InsertionSort.
Context {A : Type} (lt : A -> A -> bool).

Lemma strict_weak_on_incl (l l' : list A) :
  incl l' l -> Numpy.strict_weak_on lt l -> Numpy.strict_weak_on lt l'.
Proof.
  intros Hi [H1 H2 H3]. split.
  - intros x Hx. apply H1, Hi, Hx.
  - intros x y z Hx Hy Hz. apply H2; apply Hi; assumption.
  - intros x y z Hx Hy Hz. apply H3; apply Hi; assumption.
Qed.

Lemma strict_weak_asym (l : list A) x y :
  Numpy.strict_weak_on lt l -> In x l -> In y l ->
  lt x y = true -> lt y x = false.
Proof.
  intros [H1 H2 _] Hx Hy Hxy.
  destruct (lt y x) eqn:Hyx; [|reflexivity].
  rewrite <- (H1 x Hx). symmetry. now apply (H2 x y x).
Qed.

Lemma insert_from_right_perm x p :
  Permutation (Numpy.insert_from_right lt x p) (x :: p).
Proof.
  induction p as [|y r IH]; simpl; [reflexivity|].
  destruct (lt x y); [|reflexivity].
  rewrite IH. apply perm_swap.
Qed.

Lemma fold_insert_perm l acc :
  Permutation
    (fold_left (fun acc x => Numpy.insert_from_right lt x acc) l acc)
    (l ++ acc).
Proof.
  revert acc. induction l as [|x l IH]; intros acc; simpl; [reflexivity|].
  rewrite IH, insert_from_right_perm. symmetry. apply Permutation_middle.
Qed.

Lemma insertion_sort_perm l : Permutation (Numpy.insertion_sort lt l) l.
Proof.
  unfold Numpy.insertion_sort. rewrite <- Permutation_rev.
  rewrite fold_insert_perm. now rewrite app_nil_r.
Qed.

(** The reversed prefix holds no element below a later one. *)
Lemma insert_from_right_sorted x p :
  Numpy.strict_weak_on lt (x :: p) ->
  StronglySorted (fun a b => lt a b = false) p ->
  StronglySorted (fun a b => lt a b = false) (Numpy.insert_from_right lt x p).
Proof.
  intros Hswo Hs. revert Hswo.
  induction Hs as [|y r Hr IH Hy]; intros Hswo; simpl.
  - repeat constructor.
  - assert (Hswo' : Numpy.strict_weak_on lt (x :: r)).
    { eapply strict_weak_on_incl; [|exact Hswo].
      intros z [->|Hz]; simpl; auto. }
    destruct (lt x y) eqn:Hxy.
    + constructor; [auto|].
      eapply Permutation_Forall; [symmetry; apply insert_from_right_perm|].
      constructor; [|assumption].
      eapply strict_weak_asym; [exact Hswo| | |exact Hxy]; simpl; auto.
    + constructor; [constructor; assumption|].
      constructor; [assumption|].
      rewrite Forall_forall in Hy |- *. intros z Hz.
      pose proof (proj1 (list_elem_of_In _ _) Hz) as Hz'.
      apply (Numpy.swo_incomp lt _ Hswo x y z); simpl; auto.
Qed.

Lemma fold_insert_sorted l acc :
  Numpy.strict_weak_on lt (l ++ acc) ->
  StronglySorted (fun a b => lt a b = false) acc ->
  StronglySorted (fun a b => lt a b = false)
    (fold_left (fun acc x => Numpy.insert_from_right lt x acc) l acc).
Proof.
  revert acc. induction l as [|x l IH]; intros acc Hswo Hs; simpl; [assumption|].
  apply IH.
  - eapply strict_weak_on_incl; [|exact Hswo].
    intros z Hz. apply in_app_or in Hz as [Hz|Hz].
    + simpl. right. apply in_or_app. now left.
    + apply (Permutation_in _ (insert_from_right_perm x acc)) in Hz.
      destruct Hz as [->|Hz]; simpl; [now left|].
      right. apply in_or_app. now right.
  - apply insert_from_right_sorted; [|assumption].
    eapply strict_weak_on_incl; [|exact Hswo].
    intros z [->|Hz]; simpl; [now left|].
    right. apply in_or_app. now right.
Qed.

(** Insertion sort is stable: rows that are pairwise not below one
    another stay in their order. *)
Lemma insert_from_right_filter (P : A -> bool) x p :
  (forall y, In y p -> P x = true -> P y = true -> lt x y = false) ->
  List.filter P (Numpy.insert_from_right lt x p) = List.filter P (x :: p).
Proof.
  induction p as [|y r IH]; intros H; [reflexivity|].
  cbn [Numpy.insert_from_right]. destruct (lt x y) eqn:Hxy; [|reflexivity].
  cbn [List.filter]. rewrite IH by (intros z Hz; apply H; now right).
  cbn [List.filter].
  destruct (P x) eqn:Px, (P y) eqn:Py; try reflexivity.
  rewrite (H y) in Hxy; [discriminate|now left|auto..].
Qed.

Lemma fold_insert_filter (P : A -> bool) l acc :
  (forall x y, In x (l ++ acc) -> In y (l ++ acc) ->
     P x = true -> P y = true -> lt x y = false) ->
  List.filter P (fold_left (fun acc x => Numpy.insert_from_right lt x acc) l acc)
  = rev (List.filter P l) ++ List.filter P acc.
Proof.
  revert acc. induction l as [|x l IH]; intros acc H; [reflexivity|].
  cbn [fold_left]. rewrite IH.
  - rewrite insert_from_right_filter.
    + cbn [List.filter]. destruct (P x); cbn [rev];
        rewrite <- ?app_assoc; reflexivity.
    + intros y Hy. apply H; simpl; auto using in_or_app.
  - assert (Hin : forall a, In a (l ++ Numpy.insert_from_right lt x acc) ->
                    In a ((x :: l) ++ acc)).
    { intros a Ha. apply in_app_or in Ha as [Ha|Ha].
      - simpl. right. apply in_or_app. now left.
      - apply (Permutation_in _ (insert_from_right_perm x acc)) in Ha.
        destruct Ha as [->|Ha]; simpl; [now left|].
        right. apply in_or_app. now right. }
    intros a b Ha Hb. apply H; auto.
Qed.

Lemma insertion_sort_stable (P : A -> bool) l :
  (forall x y, In x l -> In y l -> P x = true -> P y = true ->
     lt x y = false) ->
  List.filter P (Numpy.insertion_sort lt l) = List.filter P l.
Proof.
  intros H. unfold Numpy.insertion_sort.
  rewrite filter_rev, fold_insert_filter by (now rewrite app_nil_r).
  cbn [List.filter]. now rewrite app_nil_r, rev_involutive.
Qed.

Lemma StronglySorted_rev (R : A -> A -> Prop) l :
  StronglySorted R l -> StronglySorted (fun x y => R y x) (rev l).
Proof.
  induction 1 as [|x l Hl IH Hx]; simpl; [constructor|].
  apply StronglySorted_app. split; [|split; [assumption|repeat constructor]].
  intros a b Ha Hb. apply list_elem_of_singleton in Hb as ->.
  rewrite Forall_forall in Hx. apply Hx.
  apply list_elem_of_In. apply list_elem_of_In in Ha. now apply in_rev.
Qed.

Lemma insertion_sort_sorted l :
  Numpy.strict_weak_on lt l ->
  StronglySorted (fun x y => lt y x = false) (Numpy.insertion_sort lt l).
Proof.
  intros Hswo. unfold Numpy.insertion_sort.
  apply (StronglySorted_rev (fun a b => lt a b = false)).
  apply fold_insert_sorted; [now rewrite app_nil_r|constructor].
Qed.

End InsertionSort.

Lemma npy_aquicksort_short {A} (lt : A -> A -> bool) (l : list A) :
  (length l <= 17)%nat -> Numpy.npy_aquicksort lt l = Numpy.insertion_sort lt l.
Proof.
  intros H. unfold Numpy.npy_aquicksort. simpl.
  assert (Hd : (Numpy.npy_get_msb (length l) * 2 <? 0) = false).
  { apply Z.ltb_ge. unfold Numpy.npy_get_msb.
    pose proof (Z.log2_nonneg (Z.of_nat (length l))). lia. }
  rewrite Hd. simpl.
  assert (Hs : (Numpy.SMALL_QUICKSORT <? length l - 1)%nat = false).
  { apply Nat.ltb_ge. unfold Numpy.SMALL_QUICKSORT. lia. }
  now rewrite Hs.
Qed.

(** ** The generic quicksort of NumPy *)

Section GenericQuicksort.
Import Numpy.
Context {A : Type} (lt : A -> A -> bool).

(** *** Arrays *)

Lemma swap_length i j (a : list A) : length (swap i j a) = length a.
Proof.
  unfold swap. destruct (a !! i), (a !! j); rewrite ?length_insert; reflexivity.
Qed.

Lemma swap_perm i j (a : list A) : Permutation (swap i j a) a.
Proof.
  unfold swap. destruct (a !! i) as [x|] eqn:Hi; [|reflexivity].
  destruct (a !! j) as [y|] eqn:Hj; [|reflexivity].
  now apply Permutation_insert_swap.
Qed.

Lemma swap_lookup i j (a : list A) k :
  (i < length a)%nat -> (j < length a)%nat ->
  swap i j a !! k
  = if decide (k = i) then a !! j
    else if decide (k = j) then a !! i else a !! k.
Proof.
  intros Hi Hj. unfold swap.
  destruct (lookup_lt_is_Some_2 a i Hi) as [x Hx].
  destruct (lookup_lt_is_Some_2 a j Hj) as [y Hy].
  rewrite Hx, Hy.
  destruct (decide (k = i)) as [->|Hki].
  - now rewrite list_lookup_insert_eq by (rewrite length_insert; lia).
  - rewrite list_lookup_insert_ne by congruence.
    destruct (decide (k = j)) as [->|Hkj].
    + now rewrite list_lookup_insert_eq by lia.
    + now rewrite list_lookup_insert_ne by congruence.
Qed.

Lemma swap_lookup_r i j (a : list A) :
  (i < length a)%nat -> (j < length a)%nat -> swap i j a !! j = a !! i.
Proof.
  intros Hi Hj. rewrite swap_lookup by lia.
  repeat case_decide; congruence.
Qed.

Lemma swap_lookup_ne i j (a : list A) k :
  (i < length a)%nat -> (j < length a)%nat -> k <> i -> k <> j ->
  swap i j a !! k = a !! k.
Proof.
  intros Hi Hj Hki Hkj. rewrite swap_lookup by lia.
  repeat case_decide; congruence.
Qed.

Lemma Permutation_incl (a b u : list A) :
  Permutation a b -> incl b u -> incl a u.
Proof. intros Hp Hb x Hx. apply Hb. now apply (Permutation_in _ Hp). Qed.

Lemma lookup_incl (a u : list A) k x : incl a u -> a !! k = Some x -> In x u.
Proof.
  intros Hi Hk. apply Hi, list_elem_of_In. eapply list_elem_of_lookup_2, Hk.
Qed.

(** *** The scans of the partition step *)

Lemma scan_up_spec fuel (a : list A) vp i j :
  (j <= i + fuel)%nat -> (j < length a)%nat -> (i < j)%nat ->
  (i < scan_up lt fuel a vp i j <= j)%nat
  /\ (forall k x, (i < k < scan_up lt fuel a vp i j)%nat ->
        a !! k = Some x -> lt x vp = true)
  /\ (scan_up lt fuel a vp i j = j
      \/ exists x, a !! scan_up lt fuel a vp i j = Some x /\ lt x vp = false).
Proof.
  revert i. induction fuel as [|f IH]; intros i Hf Hj Hij; [lia|].
  cbn [scan_up].
  destruct (lookup_lt_is_Some_2 a (S i) ltac:(lia)) as [x Hx]. rewrite Hx.
  destruct (lt x vp && (S i <? j)%nat) eqn:Hc.
  - apply andb_true_iff in Hc as [Hlt Hlt']. apply Nat.ltb_lt in Hlt'.
    destruct (IH (S i)) as (Hr & Hbelow & Hstop); [lia..|].
    split; [lia|]. split; [|exact Hstop].
    intros k y Hk Hy. destruct (decide (k = S i)) as [->|Hne].
    + congruence.
    + apply (Hbelow k y); [lia|exact Hy].
  - split; [lia|]. split; [intros k y Hk; lia|].
    apply andb_false_iff in Hc as [Hc|Hc].
    + right. eauto.
    + left. apply Nat.ltb_ge in Hc. lia.
Qed.

Lemma scan_down_spec fuel (a : list A) vp i j :
  (j <= i + fuel)%nat -> (j <= length a)%nat -> (1 <= i <= j)%nat ->
  (scan_down lt fuel a vp i j < j)%nat
  /\ (i <= S (scan_down lt fuel a vp i j))%nat
  /\ ((i < j)%nat -> (i <= scan_down lt fuel a vp i j)%nat)
  /\ (forall k x, (scan_down lt fuel a vp i j < k < j)%nat ->
        a !! k = Some x -> lt vp x = true)
  /\ ((scan_down lt fuel a vp i j <= i)%nat
      \/ exists x, a !! scan_down lt fuel a vp i j = Some x
                   /\ lt vp x = false).
Proof.
  revert j. induction fuel as [|f IH]; intros j Hf Hj Hij.
  - cbn [scan_down]. repeat split; lia.
  - cbn [scan_down].
    destruct (lookup_lt_is_Some_2 a (pred j) ltac:(lia)) as [x Hx]. rewrite Hx.
    destruct (lt vp x && (i <? pred j)%nat) eqn:Hc.
    + apply andb_true_iff in Hc as [Hlt Hlt']. apply Nat.ltb_lt in Hlt'.
      destruct (IH (pred j)) as (Hr & Hlow & Hlow' & Habove & Hstop); [lia..|].
      split; [lia|]. split; [lia|]. split; [intros _; apply Hlow'; lia|].
      split; [|exact Hstop].
      intros k y Hk Hy. destruct (decide (k = pred j)) as [->|Hne].
      * congruence.
      * apply (Habove k y); [lia|exact Hy].
    + split; [lia|]. split; [lia|]. split; [lia|].
      split; [intros k y Hk; lia|].
      apply andb_false_iff in Hc as [Hc|Hc].
      * right. eauto.
      * left. apply Nat.ltb_ge in Hc. lia.
Qed.


(** *** Rearrangement *)

Lemma partition_loop_perm fuel (a : list A) vp i j :
  Permutation (fst (partition_loop lt fuel a vp i j)) a.
Proof.
  revert a i j. induction fuel as [|f IH]; intros a i j; cbn [partition_loop];
    [reflexivity|].
  destruct (_ <=? _)%nat; [reflexivity|].
  rewrite IH. apply swap_perm.
Qed.

Lemma compare_exchange_perm (a : list A) q p :
  Permutation (if lt_at lt a q p then swap q p a else a) a.
Proof. destruct (lt_at lt a q p); [apply swap_perm|reflexivity]. Qed.

Lemma partition_perm (a : list A) : Permutation (fst (partition lt a)) a.
Proof.
  unfold partition.
  set (pr := (length a - 1)%nat). set (pm := (pr / 2)%nat).
  set (a1 := if lt_at lt a pm 0 then swap pm 0 a else a).
  set (a2 := if lt_at lt a1 pr pm then swap pr pm a1 else a1).
  set (a3 := if lt_at lt a2 pm 0 then swap pm 0 a2 else a2).
  assert (H3 : Permutation a3 a).
  { unfold a3, a2, a1. now rewrite !compare_exchange_perm. }
  destruct (a3 !! pm) as [vp|]; [|exact H3].
  pose proof (partition_loop_perm (length (swap pm (pr - 1) a3))
                (swap pm (pr - 1) a3) vp 0 (pr - 1)) as Hl.
  destruct (partition_loop _ _ _ _ _ _) as [a5 p]. cbn [fst] in *.
  now rewrite swap_perm, Hl, swap_perm.
Qed.

Lemma set1_length (a : list A) k x : length (set1 a k x) = length a.
Proof. apply length_insert. Qed.

Lemma sift_length fuel (a : list A) n tmp i j :
  length (sift lt fuel a n tmp i j) = length a.
Proof.
  revert a i j. induction fuel as [|f IH]; intros a i j; cbn [sift].
  - apply set1_length.
  - destruct (n <? j)%nat; [apply set1_length|].
    destruct (get1 a (larger_child lt a n j)) as [c|]; [|apply set1_length].
    destruct (lt tmp c); [|apply set1_length].
    rewrite IH. apply set1_length.
Qed.

Lemma larger_child_range (a : list A) n j :
  (j <= larger_child lt a n j <= j + 1)%nat
  /\ ((j <= n)%nat -> (larger_child lt a n j <= n)%nat).
Proof.
  unfold larger_child. destruct (j <? n)%nat eqn:E.
  - apply Nat.ltb_lt in E.
    destruct (get1 a j), (get1 a (j + 1)); try destruct (lt _ _); lia.
  - lia.
Qed.

(** The cell [i] is free while [tmp] moves down: the result holds what
    the array with [tmp] in cell [i] holds. *)
Lemma sift_perm fuel (a : list A) n tmp i j :
  (1 <= i <= length a)%nat -> (i < j)%nat ->
  Permutation (sift lt fuel a n tmp i j) (set1 a i tmp).
Proof.
  revert a i j.
  induction fuel as [|f IH]; intros a i j Hi Hij; cbn [sift]; [reflexivity|].
  destruct (n <? j)%nat; [reflexivity|].
  pose proof (larger_child_range a n j) as [Hj' _].
  set (j' := larger_child lt a n j) in *.
  destruct (get1 a j') as [c|] eqn:Hc; [|reflexivity].
  destruct (lt tmp c); [|reflexivity].
  unfold get1 in Hc. pose proof (lookup_lt_Some _ _ _ Hc) as Hlen.
  rewrite IH by (rewrite ?set1_length; lia).
  unfold set1.
  rewrite <- (list_insert_insert_eq a (i - 1) c tmp).
  apply Permutation_insert_swap.
  - apply list_lookup_insert_eq. lia.
  - rewrite list_lookup_insert_ne by lia. exact Hc.
Qed.

Lemma heapify_length l (a : list A) n : length (heapify lt l a n) = length a.
Proof.
  revert a. induction l as [|l IH]; intros a; cbn [heapify]; [reflexivity|].
  rewrite IH. destruct (get1 a (S l)); [apply sift_length|reflexivity].
Qed.

Lemma heapify_perm l (a : list A) n : Permutation (heapify lt l a n) a.
Proof.
  revert a. induction l as [|l IH]; intros a; cbn [heapify]; [reflexivity|].
  rewrite IH. destruct (get1 a (S l)) as [tmp|] eqn:Ht; [|reflexivity].
  unfold get1 in Ht. pose proof (lookup_lt_Some _ _ _ Ht) as Hlen.
  rewrite sift_perm by lia.
  unfold set1. now rewrite list_insert_id.
Qed.

Lemma extract_step_perm (a : list A) n tmp top :
  (2 <= n)%nat -> get1 a n = Some tmp -> get1 a 1 = Some top ->
  Permutation (set1 (set1 a n top) 1 tmp) a.
Proof.
  unfold get1, set1. intros Hn Ht Htop.
  now apply Permutation_insert_swap.
Qed.

Lemma extract_perm n (a : list A) : Permutation (extract lt n a) a.
Proof.
  revert a. induction n as [|n IH]; intros a; cbn [extract]; [reflexivity|].
  destruct n as [|n']; [reflexivity|].
  destruct (get1 a (S (S n'))) as [tmp|] eqn:Ht; [|reflexivity].
  destruct (get1 a 1) as [top|] eqn:Htop; [|reflexivity].
  rewrite IH.
  pose proof (lookup_lt_Some _ _ _ Htop) as Hlen.
  rewrite sift_perm by (rewrite ?set1_length; lia).
  apply extract_step_perm; [lia|assumption..].
Qed.

Lemma aheapsort_perm (a : list A) : Permutation (aheapsort lt a) a.
Proof. unfold aheapsort. now rewrite extract_perm, heapify_perm. Qed.

Lemma take_pivot_drop (a : list A) i :
  take i a ++ take 1 (drop i a) ++ drop (S i) a = a.
Proof.
  rewrite <- (take_drop i a) at 4. f_equal.
  rewrite <- (take_drop 1 (drop i a)) at 2. f_equal.
  rewrite drop_drop. f_equal. lia.
Qed.

Lemma aquicksort_range_perm fuel popped cdepth (a : list A) :
  Permutation (aquicksort_range lt fuel popped cdepth a) a.
Proof.
  revert popped cdepth a.
  induction fuel as [|f IH]; intros popped cdepth a; cbn [aquicksort_range];
    [reflexivity|].
  destruct (popped && (cdepth <? 0)); [apply aheapsort_perm|].
  destruct (SMALL_QUICKSORT <? length a - 1)%nat;
    [|apply insertion_sort_perm].
  pose proof (partition_perm a) as Hp.
  destruct (partition lt a) as [a' i]. cbn [fst] in Hp.
  transitivity (take i a' ++ take 1 (drop i a') ++ drop (S i) a').
  - destruct (_ <? _)%nat; now rewrite !IH.
  - now rewrite take_pivot_drop.
Qed.

Lemma npy_aquicksort_perm (a : list A) : Permutation (npy_aquicksort lt a) a.
Proof. apply aquicksort_range_perm. Qed.

(** The cells past the heap stay as they are. *)
Lemma sift_frame fuel (a : list A) n tmp i j m :
  (1 <= i <= n)%nat -> (i < j)%nat -> (n <= m)%nat ->
  sift lt fuel a n tmp i j !! m = a !! m.
Proof.
  revert a i j.
  induction fuel as [|f IH]; intros a i j Hi Hij Hm; cbn [sift];
    [apply list_lookup_insert_ne; lia|].
  destruct (n <? j)%nat eqn:E; [apply list_lookup_insert_ne; lia|].
  apply Nat.ltb_ge in E.
  pose proof (larger_child_range a n j) as [Hj' Hj'n].
  set (j' := larger_child lt a n j) in *.
  destruct (get1 a j') as [c|]; [|apply list_lookup_insert_ne; lia].
  destruct (lt tmp c); [|apply list_lookup_insert_ne; lia].
  rewrite IH by lia. apply list_lookup_insert_ne. lia.
Qed.

(** *** The partition step, for a strict weak order *)

Section Ordered.
Context (U : list A) (Hswo : strict_weak_on lt U).

Lemma lt_irrefl x : In x U -> lt x x = false.
Proof. apply (swo_irrefl lt U Hswo). Qed.

Lemma lt_asym x y : In x U -> In y U -> lt x y = true -> lt y x = false.
Proof. apply (strict_weak_asym lt U x y Hswo). Qed.

Lemma ge_trans x y z :
  In x U -> In y U -> In z U ->
  lt x y = false -> lt y z = false -> lt x z = false.
Proof. apply (swo_incomp lt U Hswo). Qed.

Lemma partition_loop_spec fuel vp hi (a : list A) i j :
  In vp U -> loop_inv lt U vp hi a i j -> (j - i <= fuel)%nat ->
  exists a' p,
    partition_loop lt fuel a vp i j = (a', p)
    /\ Permutation a' a /\ a' !! hi = Some vp /\ (p <= hi)%nat
    /\ (forall k x, (k < p)%nat -> a' !! k = Some x -> lt vp x = false)
    /\ (forall k x, (p <= k)%nat -> a' !! k = Some x -> lt x vp = false).
Proof.
  intros Hvp. revert a i j.
  induction fuel as [|f IH];
    intros a i j (Hin & Hij & Hlen & Hhi & Hlow & Hhigh) Hf; [lia|].
  cbn [partition_loop].
  destruct (scan_up_spec (length a) a vp i j) as (Hi' & Hbelow & Hstop);
    [lia..|].
  set (i' := scan_up lt (length a) a vp i j) in *.
  destruct (scan_down_spec (length a) a vp i' j)
    as (Hj' & Hj'low & Hj'low' & Habove & Hstop'); [lia..|].
  set (j' := scan_down lt (length a) a vp i' j) in *.
  assert (Hleft : forall k x, (k < i')%nat -> a !! k = Some x ->
                    lt vp x = false).
  { intros k x Hk Hx. destruct (decide (k <= i)%nat) as [Hki|Hki].
    - eapply Hlow; eauto.
    - apply lt_asym; [eapply lookup_incl; eauto|assumption|].
      apply (Hbelow k x); [lia|exact Hx]. }
  assert (Hright : forall k x, (j' < k)%nat -> a !! k = Some x ->
                     lt x vp = false).
  { intros k x Hk Hx. destruct (decide (j <= k)%nat) as [Hjk|Hjk].
    - eapply Hhigh; eauto.
    - apply lt_asym; [assumption|eapply lookup_incl; eauto|].
      apply (Habove k x); [lia|exact Hx]. }
  destruct (j' <=? i')%nat eqn:Hc.
  - apply Nat.leb_le in Hc. exists a, i'.
    split; [reflexivity|]. split; [reflexivity|]. split; [assumption|].
    split; [lia|]. split; [exact Hleft|].
    intros k x Hk Hx. destruct (decide (j' < k)%nat) as [Hjk|Hjk].
    + eapply Hright; eauto.
    + assert (k = i') as -> by lia.
      destruct Hstop as [Hstop|(y & Hy & Hlt)]; [|congruence].
      apply (Hhigh i' x); [lia|exact Hx].
  - apply Nat.leb_gt in Hc.
    destruct Hstop as [Hstop|(x & Hx & Hxlt)]; [lia|].
    destruct Hstop' as [Hstop'|(y & Hy & Hylt)]; [lia|].
    destruct (IH (swap i' j' a) i' j') as (a' & p & E & Hp & Hhi' & Hple & Hl & Hr).
    + split; [eapply Permutation_incl; [apply swap_perm|exact Hin]|].
      split; [lia|]. split; [rewrite swap_length; lia|].
      split; [rewrite swap_lookup by lia; repeat case_decide; (lia || assumption)|].
      split.
      * intros k z Hk. rewrite swap_lookup by lia.
        repeat case_decide; try lia.
        -- intros Hz. congruence.
        -- intros Hz. apply (Hleft k z); [lia|exact Hz].
      * intros k z Hk. rewrite swap_lookup by lia.
        repeat case_decide; try lia.
        -- intros Hz. congruence.
        -- intros Hz. apply (Hright k z); [lia|exact Hz].
    + lia.
    + exists a', p. split; [exact E|]. split; [|auto].
      rewrite Hp. apply swap_perm.
Qed.

(** One comparison and exchange of the median of three. *)
Lemma compare_exchange (a : list A) q p x y :
  incl a U -> q <> p -> a !! q = Some x -> a !! p = Some y ->
  exists a' x' y',
    (if lt_at lt a q p then swap q p a else a) = a'
    /\ length a' = length a /\ Permutation a' a
    /\ (forall k, k <> q -> k <> p -> a' !! k = a !! k)
    /\ a' !! q = Some x' /\ a' !! p = Some y' /\ lt x' y' = false
    /\ ((x' = x /\ y' = y) \/ (x' = y /\ y' = x /\ lt x y = true)).
Proof.
  intros Hin Hqp Hx Hy. unfold lt_at. rewrite Hx, Hy.
  pose proof (lookup_lt_Some _ _ _ Hx) as Hq.
  pose proof (lookup_lt_Some _ _ _ Hy) as Hp.
  destruct (lt x y) eqn:Hlt.
  - exists (swap q p a), y, x. split; [reflexivity|].
    split; [apply swap_length|]. split; [apply swap_perm|].
    split; [intros k Hkq Hkp; rewrite swap_lookup by lia;
            repeat case_decide; (lia || reflexivity)|].
    split; [rewrite swap_lookup by lia; repeat case_decide; (lia || assumption)|].
    split; [rewrite swap_lookup by lia; repeat case_decide; (lia || assumption)|].
    split; [|auto].
    apply lt_asym; [eapply lookup_incl; eauto..|exact Hlt].
  - exists a, x, y. repeat split; auto.
Qed.

Lemma partition_spec (a : list A) :
  incl a U -> (3 <= length a)%nat ->
  exists a' p vp,
    partition lt a = (a', p)
    /\ Permutation a' a /\ a' !! p = Some vp
    /\ Forall (fun x => lt vp x = false) (take p a')
    /\ Forall (fun x => lt x vp = false) (drop (S p) a').
Proof.
  intros Hin Hlen. unfold partition.
  set (pr := (length a - 1)%nat). set (pm := (pr / 2)%nat).
  assert (Hpm : (0 < pm < pr)%nat).
  { subst pm. split.
    - apply Nat.div_str_pos. lia.
    - apply Nat.div_lt; lia. }
  destruct (lookup_lt_is_Some_2 a 0 ltac:(lia)) as [x0 Hx0].
  destruct (lookup_lt_is_Some_2 a pm ltac:(lia)) as [y0 Hy0].
  destruct (lookup_lt_is_Some_2 a pr ltac:(lia)) as [z0 Hz0].
  destruct (compare_exchange a pm 0 y0 x0)
    as (a1 & y1 & x1 & -> & Hlen1 & Hp1 & Hframe1 & Hy1 & Hx1 & Hlt1 & _);
    [assumption|lia|assumption..|].
  assert (Hin1 : incl a1 U) by (eapply Permutation_incl; eauto).
  assert (Hz1 : a1 !! pr = Some z0) by (rewrite Hframe1 by lia; assumption).
  destruct (compare_exchange a1 pr pm z0 y1)
    as (a2 & z2 & y2 & -> & Hlen2 & Hp2 & Hframe2 & Hz2 & Hy2 & Hlt2 & Hcase2);
    [assumption|lia|assumption..|].
  assert (Hin2 : incl a2 U) by (eapply Permutation_incl; eauto).
  assert (Hx2 : a2 !! 0%nat = Some x1) by (rewrite Hframe2 by lia; assumption).
  destruct (compare_exchange a2 pm 0 y2 x1)
    as (a3 & y3 & x3 & -> & Hlen3 & Hp3 & Hframe3 & Hy3 & Hx3 & Hlt3 & Hcase3);
    [assumption|lia|assumption..|].
  assert (Hin3 : incl a3 U) by (eapply Permutation_incl; eauto).
  assert (Hz3 : a3 !! pr = Some z2) by (rewrite Hframe3 by lia; assumption).
  pose proof (lookup_incl _ _ _ _ Hin1 Hx1) as Ux1.
  pose proof (lookup_incl _ _ _ _ Hin1 Hy1) as Uy1.
  pose proof (lookup_incl _ _ _ _ Hin2 Hy2) as Uy2.
  pose proof (lookup_incl _ _ _ _ Hin2 Hz2) as Uz2.
  pose proof (lookup_incl _ _ _ _ Hin3 Hy3) as Uy3.
  assert (Hzy : lt z2 y3 = false).
  { destruct Hcase3 as [[-> ->]|(-> & -> & _)]; [assumption|].
    destruct Hcase2 as [[-> ->]|(-> & -> & _)]; [|assumption].
    eapply (ge_trans z0 y1 x1); eauto. }
  rewrite Hy3.
  set (a4 := swap pm (pr - 1) a3).
  assert (Hlen4 : length a4 = length a) by (unfold a4; rewrite swap_length; lia).
  destruct (partition_loop_spec (length a4) y3 (pr - 1) a4 0 (pr - 1))
    as (a5 & p & E & Hp5 & Hhi5 & Hple & Hl & Hr); [assumption| |lia|].
  { split; [eapply Permutation_incl; [apply swap_perm|exact Hin3]|].
    split; [lia|]. split; [lia|].
    split; [unfold a4; rewrite swap_lookup_r by lia; assumption|].
    split.
    - intros k x Hk. assert (k = 0%nat) as -> by lia.
      unfold a4. rewrite swap_lookup_ne by lia. congruence.
    - intros k x Hk Hx.
      pose proof (lookup_lt_Some _ _ _ Hx) as Hklen.
      revert Hx. unfold a4.
      destruct (decide (k = pr - 1)%nat) as [->|Hne].
      + rewrite swap_lookup_r by lia. intros Hx.
        assert (x = y3) as -> by congruence.
        now apply lt_irrefl.
      + assert (k = pr) as -> by lia.
        rewrite swap_lookup_ne by lia. congruence. }
  rewrite E.
  assert (Hlen5 : length a5 = length a).
  { rewrite <- Hlen4. now apply Permutation_length. }
  exists (swap p (pr - 1) a5), p, y3.
  split; [reflexivity|].
  split; [rewrite swap_perm, Hp5; unfold a4; rewrite swap_perm; eauto using Permutation_trans|].
  split; [rewrite swap_lookup by lia; repeat case_decide; (lia || assumption)|].
  split.
  - apply Forall_lookup. intros k x Hk.
    apply lookup_take_Some in Hk as [Hk Hkp]. revert Hk.
    rewrite swap_lookup by lia. repeat case_decide; try lia.
    intros Hx. eapply Hl; eauto.
  - apply Forall_lookup. intros k x. rewrite lookup_drop.
    rewrite swap_lookup by lia. repeat case_decide; try lia.
    + intros Hx. apply (Hr p x); [lia|exact Hx].
    + intros Hx. apply (Hr (S p + k)%nat x); [lia|exact Hx].
Qed.

(** *** Heap sort, for a strict weak order *)

Lemma get1_incl (a : list A) k x : incl a U -> get1 a k = Some x -> In x U.
Proof. intros Ha Hk. exact (lookup_incl _ _ _ _ Ha Hk). Qed.

Lemma get1_is_Some (a : list A) k :
  (1 <= k <= length a)%nat -> exists x, get1 a k = Some x.
Proof. intros Hk. apply (lookup_lt_is_Some_2 a (k - 1)). lia. Qed.

Lemma get1_set1 (a : list A) i x k :
  (1 <= i <= length a)%nat -> (1 <= k)%nat ->
  get1 (set1 a i x) k = if decide (k = i) then Some x else get1 a k.
Proof.
  intros Hi Hk. unfold get1, set1. destruct (decide (k = i)) as [->|Hne].
  - apply list_lookup_insert_eq. lia.
  - apply list_lookup_insert_ne. lia.
Qed.

Lemma set1_incl (a : list A) i x : incl a U -> In x U -> incl (set1 a i x) U.
Proof.
  intros Ha Hx y Hy.
  apply list_elem_of_In, list_elem_of_lookup in Hy as [k Hk].
  unfold set1 in Hk.
  apply list_lookup_insert_Some in Hk as [(_ & <- & _)|[_ Hk]]; [assumption|].
  exact (lookup_incl _ _ _ _ Ha Hk).
Qed.

Lemma larger_child_spec (a : list A) n i :
  incl a U -> (1 <= i)%nat -> (i + i <= n <= length a)%nat ->
  (larger_child lt a n (i + i) = 2 * i
   \/ larger_child lt a n (i + i) = 2 * i + 1)%nat
  /\ (larger_child lt a n (i + i) <= n)%nat
  /\ exists c,
       get1 a (larger_child lt a n (i + i)) = Some c
       /\ forall s y, (s = 2 * i \/ s = 2 * i + 1)%nat -> (s <= n)%nat ->
            get1 a s = Some y -> lt c y = false.
Proof.
  intros Ha Hi Hn. unfold larger_child.
  destruct (get1_is_Some a (i + i)) as [x Hx]; [lia|].
  pose proof (get1_incl _ _ _ Ha Hx) as Ux.
  destruct (i + i <? n)%nat eqn:E.
  - apply Nat.ltb_lt in E.
    destruct (get1_is_Some a (i + i + 1)) as [y Hy]; [lia|].
    pose proof (get1_incl _ _ _ Ha Hy) as Uy.
    rewrite Hx, Hy. destruct (lt x y) eqn:Hlt.
    + split; [lia|]. split; [lia|]. exists y. split; [assumption|].
      intros s z [->| ->] Hs Hz.
      * replace (2 * i)%nat with (i + i)%nat in Hz by lia.
        assert (z = x) as -> by congruence. now apply lt_asym.
      * replace (2 * i + 1)%nat with (i + i + 1)%nat in Hz by lia.
        assert (z = y) as -> by congruence. now apply lt_irrefl.
    + split; [lia|]. split; [lia|]. exists x. split; [assumption|].
      intros s z [->| ->] Hs Hz.
      * replace (2 * i)%nat with (i + i)%nat in Hz by lia.
        assert (z = x) as -> by congruence. now apply lt_irrefl.
      * replace (2 * i + 1)%nat with (i + i + 1)%nat in Hz by lia.
        congruence.
  - apply Nat.ltb_ge in E.
    split; [lia|]. split; [lia|]. exists x. split; [assumption|].
    intros s z [->| ->] Hs Hz; [|lia].
    replace (2 * i)%nat with (i + i)%nat in Hz by lia.
    assert (z = x) as -> by congruence. now apply lt_irrefl.
Qed.

(** Putting [tmp] in the free cell [i] makes a heap, once [tmp] is not
    below the children of [i]. *)
Lemma fill_ok (a : list A) n tmp l i :
  incl a U -> In tmp U -> (1 <= l <= i)%nat -> (i <= n <= length a)%nat ->
  (forall k, (l <= k <= n)%nat -> k <> i -> node_ok lt a n k) ->
  (i <> l -> forall x, get1 a i = Some x -> lt x tmp = false) ->
  (forall c y, (c = 2 * i \/ c = 2 * i + 1)%nat -> (c <= n)%nat ->
     get1 a c = Some y -> lt tmp y = false) ->
  forall k, (l <= k <= n)%nat -> node_ok lt (set1 a i tmp) n k.
Proof.
  intros Ha Ht Hl Hn Hok Hup Hdown k Hk c x y Hc Hcn.
  rewrite !get1_set1 by lia.
  destruct (decide (k = i)) as [->|Hki].
  - intros [= <-]. destruct (decide (c = i)); [lia|].
    intros Hy. eapply Hdown; eauto.
  - intros Hx. destruct (decide (c = i)) as [->|Hci].
    + intros [= <-].
      destruct (get1_is_Some a i) as [z Hz]; [lia|].
      apply (ge_trans x z tmp);
        [exact (get1_incl _ _ _ Ha Hx)|exact (get1_incl _ _ _ Ha Hz)
        |assumption| |].
      * apply (Hok k ltac:(lia) Hki i x z); (lia || assumption).
      * apply Hup; [lia|assumption].
    + intros Hy. apply (Hok k ltac:(lia) Hki c x y); (lia || assumption).
Qed.

Lemma sift_heap fuel (a : list A) n tmp l i :
  incl a U -> In tmp U -> (1 <= l <= i)%nat -> (i <= n <= length a)%nat ->
  (n < i + fuel)%nat ->
  (forall k, (l <= k <= n)%nat -> k <> i -> node_ok lt a n k) ->
  (i <> l -> node_ok lt a n i
             /\ forall x, get1 a i = Some x -> lt x tmp = false) ->
  forall k, (l <= k <= n)%nat ->
    node_ok lt (sift lt fuel a n tmp i (i + i)) n k.
Proof.
  intros Ha Ht. revert a i Ha.
  induction fuel as [|f IH]; intros a i Ha Hl Hn Hf Hok Hup; [lia|].
  cbn [sift]. destruct (n <? i + i)%nat eqn:E.
  - apply Nat.ltb_lt in E. apply fill_ok; auto.
    + intros Hne. now apply Hup.
    + intros c y Hc Hcn. lia.
  - apply Nat.ltb_ge in E.
    destruct (larger_child_spec a n i) as (Hj & Hjn & c & Hc & Hmax);
      [assumption|lia|lia|].
    set (j := larger_child lt a n (i + i)) in *.
    pose proof (get1_incl _ _ _ Ha Hc) as Uc.
    rewrite Hc. destruct (lt tmp c) eqn:Hlt.
    + apply IH.
      * now apply set1_incl.
      * lia.
      * rewrite set1_length. lia.
      * lia.
      * intros k Hk Hkj c' x y Hc' Hc'n. rewrite !get1_set1 by lia.
        destruct (decide (k = i)) as [->|Hki].
        -- intros [= <-]. destruct (decide (c' = i)); [lia|].
           intros Hy. eapply Hmax; eauto.
        -- intros Hx. destruct (decide (c' = i)) as [->|Hci].
           ++ intros [= <-].
              destruct (get1_is_Some a i) as [z Hz]; [lia|].
              destruct Hup as [Hnode _]; [lia|].
              apply (ge_trans x z c);
                [exact (get1_incl _ _ _ Ha Hx)|exact (get1_incl _ _ _ Ha Hz)
                |assumption| |].
              ** apply (Hok k ltac:(lia) Hki i x z); (lia || assumption).
              ** apply (Hnode j z c); (lia || assumption).
           ++ intros Hy. apply (Hok k ltac:(lia) Hki c' x y); (lia || assumption).
      * intros Hjl. split.
        -- intros c' x y Hc' Hc'n. rewrite !get1_set1 by lia.
           destruct (decide (j = i)); [lia|].
           destruct (decide (c' = i)); [lia|].
           apply (Hok j); lia.
        -- intros x. rewrite get1_set1 by lia.
           destruct (decide (j = i)); [lia|].
           rewrite Hc. intros [= <-]. now apply lt_asym.
    + apply fill_ok; auto.
      * intros Hne. now apply Hup.
      * intros s y Hs Hsn Hy.
        apply (ge_trans tmp c y);
          [assumption|assumption|exact (get1_incl _ _ _ Ha Hy)|assumption|].
        eapply Hmax; eauto.
Qed.

Lemma heap_root_max (a : list A) n :
  incl a U -> (n <= length a)%nat ->
  (forall k, (1 <= k <= n)%nat -> node_ok lt a n k) ->
  forall k x y, (1 <= k <= n)%nat ->
    get1 a 1 = Some x -> get1 a k = Some y -> lt x y = false.
Proof.
  intros Ha Hn Hheap k.
  induction k as [k IH] using lt_wf_ind. intros x y Hk Hx Hy.
  pose proof (get1_incl _ _ _ Ha Hx) as Ux.
  destruct (decide (k = 1%nat)) as [->|Hne].
  - assert (y = x) as -> by congruence. now apply lt_irrefl.
  - pose proof (Nat.div_mod_eq k 2) as Hdiv.
    pose proof (Nat.mod_upper_bound k 2 ltac:(lia)) as Hmod.
    destruct (get1_is_Some a (k / 2)) as [z Hz]; [lia|].
    apply (ge_trans x z y);
      [assumption|exact (get1_incl _ _ _ Ha Hz)|exact (get1_incl _ _ _ Ha Hy)| |].
    + apply (IH (k / 2)%nat); (lia || assumption).
    + apply (Hheap (k / 2)%nat ltac:(lia) k z y); (lia || assumption).
Qed.

Lemma heapify_heap l (a : list A) n :
  incl a U -> (l <= n <= length a)%nat ->
  (forall k, (l < k <= n)%nat -> node_ok lt a n k) ->
  forall k, (1 <= k <= n)%nat -> node_ok lt (heapify lt l a n) n k.
Proof.
  revert a. induction l as [|l IH]; intros a Ha Hn Hheap; cbn [heapify].
  - intros k Hk. apply Hheap. lia.
  - destruct (get1_is_Some a (S l)) as [tmp Ht]; [lia|]. rewrite Ht.
    pose proof (get1_incl _ _ _ Ha Ht) as Utmp.
    apply IH.
    + eapply Permutation_incl; [|exact Ha].
      rewrite sift_perm by lia. unfold set1, get1 in *.
      now rewrite list_insert_id.
    + rewrite sift_length. lia.
    + intros k Hk. apply (sift_heap n a n tmp (S l) (S l)); auto; try lia.
      intros j Hj Hne. apply Hheap. lia.
Qed.

Lemma sorted_around_pivot (L Rr : list A) vp :
  incl L U -> incl Rr U -> In vp U ->
  StronglySorted (fun x y => lt y x = false) L ->
  StronglySorted (fun x y => lt y x = false) Rr ->
  Forall (fun x => lt vp x = false) L ->
  Forall (fun x => lt x vp = false) Rr ->
  StronglySorted (fun x y => lt y x = false) (L ++ [vp] ++ Rr).
Proof.
  intros HL HR Hvp HsL HsR HfL HfR.
  apply StronglySorted_app. split; [|split; [assumption|]].
  - intros x y Hx Hy. rewrite List.Forall_forall in HfL, HfR.
    apply list_elem_of_In in Hx. apply list_elem_of_In in Hy.
    destruct Hy as [<-|Hy]; [now apply HfL|].
    apply (ge_trans y vp x); auto.
  - cbn. constructor; assumption.
Qed.

Lemma extract_sorted n (a : list A) :
  extract_inv lt U a n ->
  StronglySorted (fun x y => lt y x = false) (extract lt n a).
Proof.
  revert a. induction n as [|n IH]; intros a (Ha & Hn & Hheap & Hs & Hcross).
  - exact Hs.
  - cbn [extract]. destruct n as [|n'].
    + destruct a as [|x r]; [constructor|].
      cbn in Hs, Hcross. rewrite drop_0 in Hs, Hcross.
      constructor; [assumption|].
      apply List.Forall_forall. intros y Hy. apply Hcross; simpl; auto.
    + destruct (get1_is_Some a (S (S n'))) as [tmp Ht]; [lia|].
      destruct (get1_is_Some a 1) as [top Htop]; [lia|].
      rewrite Ht, Htop.
      pose proof (get1_incl _ _ _ Ha Ht) as Utmp.
      pose proof (get1_incl _ _ _ Ha Htop) as Utop.
      set (a1 := set1 a (S (S n')) top).
      set (a2 := sift lt (S n') a1 (S n') tmp 1 2).
      assert (Hlen1 : length a1 = length a) by apply set1_length.
      assert (Hp2 : Permutation a2 (set1 a1 1 tmp)).
      { apply sift_perm; lia. }
      assert (Hdrop1 : drop (S n') a1 = top :: drop (S (S n')) a).
      { unfold a1, set1. cbn [Nat.sub]. rewrite ?Nat.sub_0_r.
        rewrite (drop_S _ top) by (apply list_lookup_insert_eq; lia).
        f_equal. apply drop_insert_lt. lia. }
      assert (Hdrop2 : drop (S n') a2 = drop (S n') a1).
      { apply list_eq. intros m. rewrite !lookup_drop.
        apply sift_frame; lia. }
      assert (Htake : forall x, In x (take (S n') a2) ->
                        In x (take (S (S n')) a)).
      { intros x Hx.
        assert (Hpt : Permutation (take (S n') a2)
                        (take (S n') (set1 a1 1 tmp))).
        { apply (Permutation_app_inv_r (drop (S n') a2)).
          rewrite take_drop. rewrite Hdrop2 at 1.
          replace (drop (S n') a1) with (drop (S n') (set1 a1 1 tmp))
            by (apply drop_insert_lt; lia).
          now rewrite take_drop. }
        apply (Permutation_in _ Hpt) in Hx.
        apply list_elem_of_In, list_elem_of_lookup in Hx as [m Hm].
        apply lookup_take_Some in Hm as [Hm Hlt].
        unfold set1, a1, set1 in Hm. cbn [Nat.sub] in Hm.
        rewrite ?Nat.sub_0_r in Hm.
        apply list_elem_of_In, list_elem_of_lookup.
        apply list_lookup_insert_Some in Hm as [(_ & <- & _)|[Hne Hm]].
        - exists (S n'). apply lookup_take_Some. split; [|lia].
          unfold get1 in Ht. cbn [Nat.sub] in Ht.
          now rewrite ?Nat.sub_0_r in Ht.
        - exists m. apply lookup_take_Some. split; [|lia].
          now rewrite list_lookup_insert_ne in Hm by lia. }
      apply IH. split; [|split; [|split; [|split]]].
      * eapply Permutation_incl; [exact Hp2|].
        eapply Permutation_incl; [|exact Ha].
        apply extract_step_perm; (lia || assumption).
      * unfold a2. rewrite sift_length. lia.
      * intros k Hk. apply (sift_heap (S n') a1 (S n') tmp 1 1); auto; try lia.
        -- now apply set1_incl.
        -- intros j Hj Hne c x y Hc Hcn. unfold a1.
           rewrite !get1_set1 by lia.
           destruct (decide (j = S (S n'))); [lia|].
           destruct (decide (c = S (S n'))); [lia|].
           apply (Hheap j); lia.
      * rewrite Hdrop2, Hdrop1. constructor; [assumption|].
        apply List.Forall_forall. intros y Hy. apply Hcross; [|assumption].
        apply list_elem_of_In, list_elem_of_lookup. exists 0%nat.
        apply lookup_take_Some. split; [exact Htop|lia].
      * intros x y Hx Hy. apply Htake in Hx.
        rewrite Hdrop2, Hdrop1 in Hy. destruct Hy as [<-|Hy].
        -- apply list_elem_of_In, list_elem_of_lookup in Hx as [m Hm].
           apply lookup_take_Some in Hm as [Hm Hlt].
           apply (heap_root_max a (S (S n')) Ha Hn Hheap (S m));
             [lia|assumption|].
           unfold get1. cbn [Nat.sub]. now rewrite ?Nat.sub_0_r.
        -- now apply Hcross.
Qed.

Lemma aheapsort_sorted (a : list A) :
  incl a U -> StronglySorted (fun x y => lt y x = false) (aheapsort lt a).
Proof.
  intros Ha. unfold aheapsort. apply extract_sorted.
  pose proof (Nat.div_mod_eq (length a) 2) as Hdiv.
  pose proof (Nat.mod_upper_bound (length a) 2 ltac:(lia)) as Hmod.
  split; [|split; [|split; [|split]]].
  - eapply Permutation_incl; [apply heapify_perm|exact Ha].
  - now rewrite heapify_length.
  - apply heapify_heap; [assumption|lia|].
    intros k Hk c x y Hc Hcn. lia.
  - rewrite drop_ge by (rewrite heapify_length; lia). constructor.
  - intros x y _. rewrite drop_ge by (rewrite heapify_length; lia).
    intros [].
Qed.

(** *** The whole sort, for a strict weak order *)

Lemma aquicksort_range_sorted fuel popped cdepth (a : list A) :
  incl a U -> (length a < fuel)%nat ->
  StronglySorted (fun x y => lt y x = false)
    (aquicksort_range lt fuel popped cdepth a).
Proof.
  revert popped cdepth a.
  induction fuel as [|f IH]; intros popped cdepth a Ha Hf; [lia|].
  cbn [aquicksort_range].
  destruct (popped && (cdepth <? 0)); [now apply aheapsort_sorted|].
  destruct (SMALL_QUICKSORT <? length a - 1)%nat eqn:E.
  - apply Nat.ltb_lt in E. unfold SMALL_QUICKSORT in E.
    destruct (partition_spec a Ha ltac:(lia))
      as (a' & p & vp & -> & Hp & Hvp & Hleft & Hright).
    pose proof (Permutation_length Hp) as Hlen.
    pose proof (lookup_lt_Some _ _ _ Hvp) as Hplen.
    assert (Ha' : incl a' U) by (eapply Permutation_incl; eauto).
    assert (HL : incl (take p a') U).
    { intros x Hx. apply Ha'. rewrite <- (take_drop p a').
      apply in_or_app. now left. }
    assert (HR : incl (drop (S p) a') U).
    { intros x Hx. apply Ha'. rewrite <- (take_drop (S p) a').
      apply in_or_app. now right. }
    assert (Hpivot : take 1 (drop p a') = [vp]).
    { rewrite (drop_S _ vp) by assumption. reflexivity. }
    rewrite Hpivot.
    destruct (_ <? _)%nat.
    + apply sorted_around_pivot; auto.
      * eapply Permutation_incl; [apply aquicksort_range_perm|exact HL].
      * eapply Permutation_incl; [apply aquicksort_range_perm|exact HR].
      * exact (lookup_incl _ _ _ _ Ha' Hvp).
      * apply IH; [assumption|]. rewrite length_take. lia.
      * apply IH; [assumption|]. rewrite length_drop. lia.
      * eapply Permutation_Forall; [symmetry; apply aquicksort_range_perm|].
        assumption.
      * eapply Permutation_Forall; [symmetry; apply aquicksort_range_perm|].
        assumption.
    + apply sorted_around_pivot; auto.
      * eapply Permutation_incl; [apply aquicksort_range_perm|exact HL].
      * eapply Permutation_incl; [apply aquicksort_range_perm|exact HR].
      * exact (lookup_incl _ _ _ _ Ha' Hvp).
      * apply IH; [assumption|]. rewrite length_take. lia.
      * apply IH; [assumption|]. rewrite length_drop. lia.
      * eapply Permutation_Forall; [symmetry; apply aquicksort_range_perm|].
        assumption.
      * eapply Permutation_Forall; [symmetry; apply aquicksort_range_perm|].
        assumption.
  - apply insertion_sort_sorted.
    eapply strict_weak_on_incl; [exact Ha|exact Hswo].
Qed.

End Ordered.

Lemma npy_aquicksort_sorted (a : list A) :
  strict_weak_on lt a ->
  StronglySorted (fun x y => lt y x = false) (npy_aquicksort lt a).
Proof.
  intros Hswo. apply (aquicksort_range_sorted a Hswo); [|lia].
  intros x Hx. exact Hx.
Qed.

End GenericQuicksort.

(** The generic quicksort of NumPy sorts. *)
Lemma generic_quicksort_spec : Numpy.QuicksortSpec Numpy.generic_quicksort.
Proof.
  split.
  - intros A lt l. apply npy_aquicksort_perm.
  - intros A lt l. apply npy_aquicksort_sorted.
Qed.

(** ** Frames: sorting and selection *)

Section FrameLemmas.
Import Pandas.
Context {Q : Numpy.Quicksort} {QS : Numpy.QuicksortSpec Q}.

Lemma filter_split_perm {R} (f : R -> bool) (l : list R) :
  Permutation (List.filter (fun r => negb (f r)) l ++ List.filter f l) l.
Proof.
  induction l as [|x l IH]; simpl; [reflexivity|].
  destruct (f x); simpl.
  - rewrite <- Permutation_middle. now constructor.
  - now constructor.
Qed.

Lemma sort_values_desc_perm {R K} (lt : K -> K -> bool) (isna : K -> bool)
    (key : R -> K) (rs : list R) :
  Permutation (sort_values_desc lt isna key rs) rs.
Proof.
  unfold sort_values_desc.
  rewrite <- Permutation_rev, Numpy.argsort_perm, <- Permutation_rev.
  apply filter_split_perm.
Qed.

Lemma In_take {R} (n : nat) (l : list R) x : In x (take n l) -> In x l.
Proof.
  revert n. induction l as [|y l IH]; intros [|n]; simpl; try tauto.
  intros [->|H]; eauto.
Qed.

Lemma nlargest_incl {R} (n : Z) (key : R -> PyFloat.float) (rs : list R) x :
  In x (nlargest n key rs) -> In x rs.
Proof.
  unfold nlargest. destruct (n <=? 0); [intros []|].
  destruct (Z.of_nat (length rs) <=? n); intros H; apply In_take in H.
  - now apply (Permutation_in _ (sort_values_desc_perm _ _ _ _)) in H.
  - apply in_app_or in H as [H|H].
    + apply (Permutation_in _ (insertion_sort_perm _ _)) in H.
      now apply filter_In in H.
    + now apply filter_In in H.
Qed.

Lemma filter_all {R} (f : R -> bool) (l : list R) :
  (forall x, In x l -> f x = true) -> List.filter f l = l.
Proof.
  induction l as [|x l IH]; simpl; intros H; [reflexivity|].
  rewrite (H x) by auto. f_equal. apply IH. auto.
Qed.

Lemma filter_none {R} (f : R -> bool) (l : list R) :
  (forall x, In x l -> f x = false) -> List.filter f l = [].
Proof.
  induction l as [|x l IH]; simpl; intros H; [reflexivity|].
  rewrite (H x) by auto. apply IH. auto.
Qed.

(** On keys without NaN, [<] of the negated keys is a strict weak order. *)
Lemma by_negated_strict_weak {R} (key : R -> PyFloat.float) (l : list R) :
  (forall r, In r l -> PyFloat.is_nan (key r) = false) ->
  Numpy.strict_weak_on
    (fun a b => PyFloat.lt (PyFloat.neg (key a)) (PyFloat.neg (key b))) l.
Proof.
  intros Hnan.
  assert (Hlt : forall a b, In a l -> In b l ->
            (PyFloat.lt (PyFloat.neg (key a)) (PyFloat.neg (key b)) = true
             <-> lex3_lt (float_code (key b)) (float_code (key a)))).
  { intros a b Ha Hb.
    rewrite float_lt_iff by (rewrite is_nan_neg; auto).
    rewrite !float_code_neg.
    destruct (float_code (key a)) as [[a1 a2] a3],
             (float_code (key b)) as [[b1 b2] b3]. simpl. lia. }
  assert (Hnlt : forall a b, In a l -> In b l ->
            (PyFloat.lt (PyFloat.neg (key a)) (PyFloat.neg (key b)) = false
             <-> ~ lex3_lt (float_code (key b)) (float_code (key a)))).
  { intros a b Ha Hb. rewrite <- Hlt by assumption.
    destruct (PyFloat.lt _ _); split; congruence. }
  split.
  - intros x Hx. apply Hnlt; [assumption..|].
    destruct (float_code (key x)) as [[a1 a2] a3]. simpl. lia.
  - intros x y z Hx Hy Hz. rewrite !Hlt by assumption.
    destruct (float_code (key x)) as [[a1 a2] a3],
             (float_code (key y)) as [[b1 b2] b3],
             (float_code (key z)) as [[c1 c2] c3]. simpl. lia.
  - intros x y z Hx Hy Hz. rewrite !Hnlt by assumption.
    destruct (float_code (key x)) as [[a1 a2] a3],
             (float_code (key y)) as [[b1 b2] b3],
             (float_code (key z)) as [[c1 c2] c3]. simpl. lia.
Qed.

(** [nlargest(1, key)] on rows whose keys are not NaN: a row of the list
    whose key no other row exceeds. *)
Lemma nlargest_1_max {R} (key : R -> PyFloat.float) (rs : list R) x :
  (forall r, In r rs -> PyFloat.is_nan (key r) = false) ->
  In x (nlargest 1 key rs) ->
  In x rs /\ forall y, In y rs -> PyFloat.le (key y) (key x) = true.
Proof.
  intros Hnan Hx. split; [now apply nlargest_incl in Hx|].
  unfold nlargest in Hx. change (1 <=? 0) with false in Hx. cbv iota in Hx.
  destruct (Z.of_nat (length rs) <=? 1) eqn:Hlen.
  - apply Z.leb_le in Hlen.
    apply In_take in Hx.
    apply (Permutation_in _ (sort_values_desc_perm _ _ _ _)) in Hx.
    destruct rs as [|r [|r' rs]]; simpl in *; try lia; try tauto.
    destruct Hx as [->|[]]. intros y [->|[]].
    apply float_le_iff; auto.
  - rewrite (filter_all _ rs) in Hx
      by (intros r Hr; now rewrite (Hnan r Hr)).
    rewrite (filter_none _ rs) in Hx
      by (intros r Hr; now rewrite (Hnan r Hr)).
    rewrite app_nil_r in Hx.
    pose proof (insertion_sort_sorted _ rs (by_negated_strict_weak key rs Hnan))
      as Hs.
    pose proof (insertion_sort_perm
                  (fun a b => PyFloat.lt (PyFloat.neg (key a))
                                         (PyFloat.neg (key b))) rs) as Hp.
    destruct (Numpy.insertion_sort _ rs) as [|h t]; [destruct Hx|].
    simpl in Hx. destruct Hx as [->|[]].
    intros y Hy. apply (Permutation_in _ (Permutation_sym Hp)) in Hy.
    assert (Hxin : In x rs) by (apply (Permutation_in _ Hp); now left).
    destruct Hy as [->|Hy].
    { apply float_le_iff; auto. }
    apply StronglySorted_inv in Hs as [_ Hall].
    rewrite Forall_forall in Hall.
    assert (Hyin : In y rs) by (apply (Permutation_in _ Hp); now right).
    specialize (Hall y (proj2 (list_elem_of_In _ _) Hy)). simpl in Hall.
    assert (Hn : ~ lex3_lt (float_code (PyFloat.neg (key y)))
                           (float_code (PyFloat.neg (key x)))).
    { rewrite <- float_lt_iff by (rewrite is_nan_neg; auto).
      now rewrite Hall. }
    apply float_le_iff; auto.
    rewrite !float_code_neg in Hn.
    destruct (float_code (key x)) as [[a1 a2] a3],
             (float_code (key y)) as [[b1 b2] b3]. simpl in *.
    assert (b1 < a1 \/ (b1 = a1 /\ (b2 < a2 \/ (b2 = a2 /\ b3 < a3)))
            \/ (b1 = a1 /\ b2 = a2 /\ b3 = a3)) as Hc by lia.
    destruct Hc as [?|[?|(-> & -> & ->)]]; auto.
Qed.

Lemma nlargest_1_length {R} (key : R -> PyFloat.float) (rs : list R) :
  (length (nlargest 1 key rs) <= 1)%nat.
Proof.
  unfold nlargest. change (1 <=? 0) with false. cbv iota.
  destruct (_ <=? _); rewrite length_take; change (Z.to_nat 1) with 1%nat; lia.
Qed.

Lemma nlargest_1_nonempty {R} (key : R -> PyFloat.float) (rs : list R) :
  rs <> [] -> nlargest 1 key rs <> [].
Proof.
  intros Hne. unfold nlargest. change (1 <=? 0) with false. cbv iota.
  assert (Hlen : forall l : list R, (0 < length l)%nat -> take 1 l <> []).
  { intros [|a l]; simpl; [lia|congruence]. }
  destruct (_ <=? _); apply Hlen.
  - rewrite (Permutation_length (sort_values_desc_perm _ _ _ _)).
    destruct rs; simpl; [congruence|lia].
  - rewrite length_app.
    rewrite (Permutation_length (insertion_sort_perm _ _)).
    rewrite <- length_app.
    rewrite (Permutation_length (filter_split_perm _ _)).
    destruct rs; simpl; [congruence|lia].
Qed.

End FrameLemmas.

(** A frame of at most seventeen rows is insertion sorted by the generic
    quicksort, so that rows that are pairwise not below one another keep
    their order. *)
Lemma sort_values_desc_stable {R K} (lt : K -> K -> bool) (key : R -> K)
    (P : R -> bool) (rs : list R) :
  (length rs <= 17)%nat ->
  (forall x y, In x rs -> In y rs -> P x = true -> P y = true ->
     lt (key x) (key y) = false) ->
  List.filter P
    (Pandas.sort_values_desc (Q := Numpy.generic_quicksort) lt
       (fun _ => false) key rs)
  = List.filter P rs.
Proof.
  intros Hlen H. unfold Pandas.sort_values_desc.
  rewrite filter_true, filter_false, app_nil_r.
  unfold Numpy.argsort_quicksort, Numpy.generic_quicksort.
  rewrite npy_aquicksort_short by (rewrite length_rev; lia).
  rewrite filter_rev, insertion_sort_stable, filter_rev, rev_involutive;
    [reflexivity|].
  intros x y Hx Hy. apply H; now apply in_rev.
Qed.

(** ** The ranking engine *)

Section ResultMonad.

Lemma mapM_Ok_Forall2 {A B} (f : A -> result B) (l : list A) (ys : list B) :
  mapM f l = Ok ys -> Forall2 (fun x y => f x = Ok y) l ys.
Proof.
  revert ys. induction l as [|x l IH]; simpl; intros ys H.
  - injection H as <-. constructor.
  - destruct (f x) as [y|e] eqn:Hfx; [|discriminate]. simpl in H.
    destruct (mapM f l) as [k|e] eqn:Hk; [|discriminate]. simpl in H.
    injection H as <-. constructor; auto.
Qed.

Lemma mapM_Ok_map {A B} (f : A -> result B) (g : A -> B) (l : list A) :
  (forall x, In x l -> f x = Ok (g x)) -> mapM f l = Ok (map g l).
Proof.
  induction l as [|x l IH]; simpl; intros H; [reflexivity|].
  rewrite (H x) by auto. simpl. rewrite IH by auto. reflexivity.
Qed.

End ResultMonad.

Section FrameBasics.
Import Pandas.

Lemma unique_from_In seen l x :
  In x (unique_from seen l) <-> In x l /\ ~ In x seen.
Proof.
  revert seen. induction l as [|y l IH]; intros seen; simpl; [tauto|].
  destruct (existsb (String.eqb y) seen) eqn:E.
  - rewrite IH. apply existsb_exists in E as (z & Hz & Hyz).
    apply String.eqb_eq in Hyz as ->. split; [tauto|].
    intros [[->|H] Hn]; [contradiction|tauto].
  - simpl. rewrite IH. simpl.
    assert (Hy : ~ In y seen).
    { intros Hin. apply not_true_iff_false in E. apply E.
      apply existsb_exists. exists y. split; [assumption|apply String.eqb_refl]. }
    split.
    + intros [<-|(H1 & H2)]; [tauto|]. split; [tauto|]. intros H; apply H2. tauto.
    + intros [[<-|H] Hn]; [tauto|].
      destruct (string_dec y x) as [->|Hne]; [tauto|]. right. split; [assumption|].
      intros [?|?]; tauto.
Qed.

Lemma unique_In l x : In x (unique l) <-> In x l.
Proof. unfold unique. rewrite unique_from_In. simpl. tauto. Qed.

Lemma unique_from_NoDup seen l : NoDup (unique_from seen l).
Proof.
  revert seen. induction l as [|y l IH]; intros seen; simpl; [constructor|].
  destruct (existsb _ _); [apply IH|].
  constructor; [|apply IH].
  rewrite list_elem_of_In, unique_from_In. simpl. tauto.
Qed.

Lemma unique_NoDup l : NoDup (unique l).
Proof. apply unique_from_NoDup. Qed.

Lemma cumcount_from_length seen l : length (cumcount_from seen l) = length l.
Proof.
  revert seen. induction l as [|g l IH]; intros seen; simpl; [reflexivity|].
  now rewrite IH.
Qed.

Lemma cumcount_length l : length (cumcount l) = length l.
Proof. apply cumcount_from_length. Qed.

Lemma concat_In {A} (x : A) (ls : list (list A)) :
  In x (concat ls) <-> exists l, In l ls /\ In x l.
Proof.
  induction ls as [|l ls IH]; simpl.
  - split; [tauto|]. intros (? & [] & _).
  - rewrite in_app_iff, IH. split.
    + intros [H|(l' & H1 & H2)]; eauto.
    + intros (l' & [->|H1] & H2); eauto.
Qed.

Lemma concat_filter_nonempty {A} (ls : list (list A)) :
  concat (List.filter (fun f => negb (bool_decide (f = []))) ls) = concat ls.
Proof.
  induction ls as [|l ls IH]; simpl; [reflexivity|].
  destruct l as [|a l]; simpl; [assumption|]. now rewrite IH.
Qed.

End FrameBasics.

Section RankingEngineEmpty.
Import Pandas CommodityDataManager.
Context {Q : Numpy.Quicksort}.

(** C1 fails on the code: a manager built from no record holds a frame
    without columns, and every ranking operation raises [KeyError] on its
    first column access, before it reaches its empty result. *)
Theorem C1_empty_records_raise_KeyError (period : string) (n : Z) :
  get_top_performers period n (_create_dataframe []) = Raise (KeyError period)
  /\ get_top_by_category period n (_create_dataframe [])
     = Raise (KeyError "Asset")
  /\ get_strong_leads (_create_dataframe []) = Raise (KeyError "Asset")
  /\ get_investment_opportunities (_create_dataframe [])
     = Raise (KeyError "Asset").
Proof. repeat split; reflexivity. Qed.

End RankingEngineEmpty.

Section InvestmentOpportunities.
Import Pandas CommodityDataManager.
Context {Q : Numpy.Quicksort} {QS : Numpy.QuicksortSpec Q}.

Lemma nlargest_nil {R} n (key : R -> PyFloat.float) : nlargest n key [] = [].
Proof.
  unfold nlargest. destruct (n <=? 0); [reflexivity|].
  destruct (_ <=? n); simpl.
  - unfold sort_values_desc. simpl.
    pose proof (Numpy.argsort_perm _ (fun a b : R => PyFloat.lt (key a) (key b)) [])
      as Hp.
    apply Permutation_sym, Permutation_nil in Hp. rewrite Hp.
    now destruct (Z.to_nat n).
  - now destruct (Z.to_nat n).
Qed.

Lemma candidates_nil first second key : candidates first second key [] = [].
Proof. unfold candidates. simpl. apply nlargest_nil. Qed.

Lemma has_column_created r rs label :
  In label commodity_columns ->
  has_column (_create_dataframe (r :: rs)) label = true.
Proof.
  intros H. unfold has_column. apply existsb_exists.
  exists label. split; [exact H|apply String.eqb_refl].
Qed.

Lemma require_all_created r rs (f : Commodity -> bool) labels :
  incl labels commodity_columns ->
  require_all labels (where_ f (_create_dataframe (r :: rs))) = Ok ().
Proof.
  intros H. unfold require_all.
  rewrite filter_none; [reflexivity|].
  intros l Hl. apply negb_false_iff.
  apply (has_column_created r rs). now apply H.
Qed.

Lemma category_opportunities_created r rs category :
  category_opportunities
    (where_ (fun x => String.eqb (asset x) category) (_create_dataframe (r :: rs)))
  = Ok (candidates daily_pct weekly_pct daily_pct (of_category category (r :: rs)),
        candidates weekly_pct monthly_pct weekly_pct (of_category category (r :: rs)),
        candidates yearly_pct monthly_pct yearly_pct (of_category category (r :: rs))).
Proof.
  unfold category_opportunities.
  change (rows (where_ _ _)) with (of_category category (r :: rs)).
  destruct (of_category category (r :: rs)) as [|x xs] eqn:E.
  - simpl. now rewrite !candidates_nil.
  - cbn [length Nat.eqb]. rewrite require_all_created.
    + reflexivity.
    + intros l Hl. simpl in Hl. simpl.
      repeat (destruct Hl as [<-|Hl]; [tauto|]). destruct Hl.
Qed.

Lemma number_opportunities_candidates timeframe combined :
  map candidate (number_opportunities timeframe combined) = combined.
Proof.
  unfold number_opportunities.
  set (ranks := seq 1 (length combined)).
  set (ras := map S (cumcount (map asset combined))).
  assert (Hl : length (zip ranks ras) = length combined).
  { rewrite length_zip_with. unfold ranks, ras.
    rewrite length_seq, length_map, cumcount_length, length_map. lia. }
  revert Hl. generalize (zip ranks ras). clear ranks ras.
  induction combined as [|c cs IH]; intros [|[rk ra] ps] Hl;
    simpl in *; try discriminate; try reflexivity.
  f_equal. apply IH. lia.
Qed.

Lemma combine_opportunities_candidates timeframe labels frames :
  map candidate (rows (combine_opportunities timeframe labels frames))
  = concat frames.
Proof.
  unfold combine_opportunities.
  rewrite <- (concat_filter_nonempty frames).
  destruct (List.filter _ frames) as [|f fs]; [reflexivity|].
  cbn [rows]. apply number_opportunities_candidates.
Qed.

(** The short term candidates of a built frame, category by category. *)
Lemma short_term_candidates r rs res :
  get_investment_opportunities (_create_dataframe (r :: rs)) = Ok res ->
  map candidate (rows (short_term res))
  = concat (map (fun category =>
                   candidates daily_pct weekly_pct daily_pct
                     (of_category category (r :: rs)))
              (unique (map asset (r :: rs)))).
Proof.
  unfold get_investment_opportunities, column.
  rewrite has_column_created by (simpl; tauto).
  cbn [mbind result_bind rows _create_dataframe].
  rewrite (mapM_Ok_map _ (fun category =>
    (candidates daily_pct weekly_pct daily_pct (of_category category (r :: rs)),
     candidates weekly_pct monthly_pct weekly_pct (of_category category (r :: rs)),
     candidates yearly_pct monthly_pct yearly_pct (of_category category (r :: rs)))))
    by (intros; apply category_opportunities_created).
  cbn [mbind result_bind]. intros H. injection H as <-. cbn [short_term].
  rewrite combine_opportunities_candidates, map_map. reflexivity.
Qed.

Lemma get_investment_opportunities_total r rs :
  exists res, get_investment_opportunities (_create_dataframe (r :: rs)) = Ok res.
Proof.
  unfold get_investment_opportunities, column.
  rewrite has_column_created by (simpl; tauto).
  cbn [mbind result_bind rows _create_dataframe].
  rewrite (mapM_Ok_map _ (fun category =>
    (candidates daily_pct weekly_pct daily_pct (of_category category (r :: rs)),
     candidates weekly_pct monthly_pct weekly_pct (of_category category (r :: rs)),
     candidates yearly_pct monthly_pct yearly_pct (of_category category (r :: rs)))))
    by (intros; apply category_opportunities_created).
  cbn [mbind result_bind]. eauto.
Qed.

Lemma of_category_In category records x :
  In x (of_category category records) <-> In x records /\ asset x = category.
Proof.
  unfold of_category. rewrite filter_In, String.eqb_eq. tauto.
Qed.

(** What [candidates] selects for the short term in a category. *)
Lemma short_term_candidate_spec category records x :
  In x (candidates daily_pct weekly_pct daily_pct (of_category category records)) ->
  In x records /\ asset x = category /\ short_term_qualifies x = true
  /\ forall y, In y records -> asset y = category ->
       short_term_qualifies y = true ->
       PyFloat.le (daily_pct y) (daily_pct x) = true.
Proof.
  unfold candidates. intros H.
  apply nlargest_1_max in H as [Hin Hmax].
  - apply filter_In in Hin as [Hin Hq]. apply of_category_In in Hin as [Hin Ha].
    repeat split; try assumption.
    intros y Hy Hay Hqy. apply Hmax. apply filter_In. split; [|exact Hqy].
    now apply of_category_In.
  - intros y Hy. apply filter_In in Hy as [_ Hq].
    apply andb_true_iff in Hq as [Hd _]. now apply gt_zero_not_nan.
Qed.

Lemma concat_singletons_NoDup (categories : list string)
    (pick : string -> list Commodity) :
  NoDup categories ->
  (forall c x, In x (pick c) -> asset x = c) ->
  (forall c, (length (pick c) <= 1)%nat) ->
  NoDup (map asset (concat (map pick categories))).
Proof.
  intros Hnd Hasset Hlen. induction Hnd as [|c cs Hc Hcs IH]; simpl; [constructor|].
  rewrite map_app. apply NoDup_app. split; [|split; [|exact IH]].
  - specialize (Hlen c). destruct (pick c) as [|x [|y l]]; simpl in *;
      [constructor|repeat constructor; apply not_elem_of_nil|lia].
  - intros a Ha Ha'. apply list_elem_of_In in Ha, Ha'.
    apply in_map_iff in Ha as (x & <- & Hx).
    apply in_map_iff in Ha' as (y & Hxy & Hy).
    apply concat_In in Hy as (l & Hl & Hy).
    apply in_map_iff in Hl as (c' & <- & Hc').
    apply Hasset in Hx, Hy. subst.
    apply Hc. apply list_elem_of_In. congruence.
Qed.

(** C4: every short term candidate is a record of its category with
    daily and weekly percentage above zero whose daily percentage no other
    such record of the category exceeds; a record whose daily percentage
    is not above zero is never selected; a category without a record with
    both above zero has no short term candidate, a category with one has
    exactly one; an error arises for the empty record sequence only. *)
Theorem C4_short_term_candidates (records : list Commodity) :
  match get_investment_opportunities (_create_dataframe records) with
  | Raise _ => records = []
  | Ok res =>
      let chosen := map candidate (rows (short_term res)) in
      (forall x, In x chosen ->
         In x records
         /\ PyFloat.gt (daily_pct x) PyFloat.zero = true
         /\ PyFloat.gt (weekly_pct x) PyFloat.zero = true
         /\ forall y, In y records -> asset y = asset x ->
              PyFloat.gt (daily_pct y) PyFloat.zero = true ->
              PyFloat.gt (weekly_pct y) PyFloat.zero = true ->
              PyFloat.le (daily_pct y) (daily_pct x) = true)
      /\ (forall category,
            (forall y, In y records -> asset y = category ->
               short_term_qualifies y = false) ->
            forall x, In x chosen -> asset x <> category)
      /\ (forall y, In y records -> short_term_qualifies y = true ->
            exists x, In x chosen /\ asset x = asset y)
      /\ NoDup (map asset chosen)
  end.
Proof.
  destruct records as [|r rs]; [reflexivity|].
  destruct (get_investment_opportunities_total r rs) as [res Hres].
  rewrite Hres. cbv zeta.
  rewrite (short_term_candidates r rs res Hres).
  assert (Hspec : forall x,
    In x (concat (map (fun category =>
            candidates daily_pct weekly_pct daily_pct
              (of_category category (r :: rs)))
          (unique (map asset (r :: rs))))) ->
    In x (r :: rs) /\ short_term_qualifies x = true
    /\ forall y, In y (r :: rs) -> asset y = asset x ->
         short_term_qualifies y = true ->
         PyFloat.le (daily_pct y) (daily_pct x) = true).
  { intros x Hx. apply concat_In in Hx as (l & Hl & Hx).
    apply in_map_iff in Hl as (c & <- & _).
    apply short_term_candidate_spec in Hx as (H1 & <- & H3 & H4). auto. }
  split; [|split; [|split]].
  - intros x Hx. destruct (Hspec x Hx) as (H1 & H2 & H3).
    apply andb_true_iff in H2 as [Hd Hw].
    repeat split; try assumption.
    intros y Hy Ha Hdy Hwy. apply H3; try assumption.
    unfold short_term_qualifies. now rewrite Hdy, Hwy.
  - intros category Hnone x Hx Ha.
    destruct (Hspec x Hx) as (H1 & H2 & _).
    rewrite (Hnone x H1 Ha) in H2. discriminate.
  - intros y Hy Hq.
    remember (List.filter short_term_qualifies (of_category (asset y) (r :: rs)))
      as fs eqn:Hfs.
    assert (Hne : fs <> []).
    { intros E. assert (Hin : In y fs).
      { rewrite Hfs. apply filter_In. split; [|exact Hq]. now apply of_category_In. }
      rewrite E in Hin. destruct Hin. }
    apply (nlargest_1_nonempty daily_pct) in Hne.
    remember (nlargest 1 daily_pct fs) as cand eqn:E. symmetry in E.
    destruct cand as [|x l]; [congruence|].
    assert (Hx : In x (candidates daily_pct weekly_pct daily_pct
                         (of_category (asset y) (r :: rs)))).
    { unfold candidates. change (fun r0 : Commodity =>
        PyFloat.gt (daily_pct r0) PyFloat.zero
        && PyFloat.gt (weekly_pct r0) PyFloat.zero) with short_term_qualifies.
      rewrite <- Hfs, E. now left. }
    exists x. split.
    + apply concat_In.
      exists (candidates daily_pct weekly_pct daily_pct
                (of_category (asset y) (r :: rs))).
      split; [|exact Hx].
      apply in_map_iff. exists (asset y). split; [reflexivity|].
      apply unique_In, in_map. exact Hy.
    + now apply short_term_candidate_spec in Hx as (_ & Ha & _).
  - apply concat_singletons_NoDup.
    + apply unique_NoDup.
    + intros c x Hx. now apply short_term_candidate_spec in Hx as (_ & Ha & _).
    + intros c. apply nlargest_1_length.
Qed.

(** The candidates of the other two buckets, category by category. *)
Lemma mid_long_term_candidates r rs res :
  get_investment_opportunities (_create_dataframe (r :: rs)) = Ok res ->
  map candidate (rows (mid_term res))
  = concat (map (fun category =>
                   candidates weekly_pct monthly_pct weekly_pct
                     (of_category category (r :: rs)))
              (unique (map asset (r :: rs))))
  /\ map candidate (rows (long_term res))
     = concat (map (fun category =>
                      candidates yearly_pct monthly_pct yearly_pct
                        (of_category category (r :: rs)))
                 (unique (map asset (r :: rs)))).
Proof.
  unfold get_investment_opportunities, column.
  rewrite has_column_created by (simpl; tauto).
  cbn [mbind result_bind rows _create_dataframe].
  rewrite (mapM_Ok_map _ (fun category =>
    (candidates daily_pct weekly_pct daily_pct (of_category category (r :: rs)),
     candidates weekly_pct monthly_pct weekly_pct (of_category category (r :: rs)),
     candidates yearly_pct monthly_pct yearly_pct (of_category category (r :: rs)))))
    by (intros; apply category_opportunities_created).
  cbn [mbind result_bind]. intros H. injection H as <-.
  cbn [mid_term long_term].
  rewrite !combine_opportunities_candidates, !map_map. split; reflexivity.
Qed.

(** What [candidates] selects in a category, when the rows are ranked by
    the first of the two percentages that have to be positive. *)
Lemma candidates_spec (first second : Commodity -> PyFloat.float)
    category records x :
  In x (candidates first second first (of_category category records)) ->
  In x records /\ asset x = category
  /\ PyFloat.gt (first x) PyFloat.zero = true
  /\ PyFloat.gt (second x) PyFloat.zero = true
  /\ forall y, In y records -> asset y = category ->
       PyFloat.gt (first y) PyFloat.zero = true ->
       PyFloat.gt (second y) PyFloat.zero = true ->
       PyFloat.le (first y) (first x) = true.
Proof.
  unfold candidates. intros H.
  apply nlargest_1_max in H as [Hin Hmax].
  - apply filter_In in Hin as [Hin Hq]. apply of_category_In in Hin as [Hin Ha].
    apply andb_true_iff in Hq as [Hf Hs].
    repeat split; try assumption.
    intros y Hy Hay Hfy Hsy. apply Hmax. apply filter_In.
    split; [now apply of_category_In|]. now rewrite Hfy, Hsy.
  - intros y Hy. apply filter_In in Hy as [_ Hq].
    apply andb_true_iff in Hq as [Hd _]. now apply gt_zero_not_nan.
Qed.

(** The mid term candidate of a category is chosen among its records
    with weekly and monthly percentage above zero, as one whose weekly
    percentage none of them exceeds; the long term candidate among its
    records with yearly and monthly percentage above zero, as one whose
    yearly percentage none of them exceeds; each row carries the name of
    its bucket. *)
Theorem mid_and_long_term_candidates (records : list Commodity) :
  match get_investment_opportunities (_create_dataframe records) with
  | Raise _ => records = []
  | Ok res =>
      (forall x, In x (map candidate (rows (mid_term res))) ->
         In x records
         /\ PyFloat.gt (weekly_pct x) PyFloat.zero = true
         /\ PyFloat.gt (monthly_pct x) PyFloat.zero = true
         /\ forall y, In y records -> asset y = asset x ->
              PyFloat.gt (weekly_pct y) PyFloat.zero = true ->
              PyFloat.gt (monthly_pct y) PyFloat.zero = true ->
              PyFloat.le (weekly_pct y) (weekly_pct x) = true)
      /\ (forall x, In x (map candidate (rows (long_term res))) ->
            In x records
            /\ PyFloat.gt (yearly_pct x) PyFloat.zero = true
            /\ PyFloat.gt (monthly_pct x) PyFloat.zero = true
            /\ forall y, In y records -> asset y = asset x ->
                 PyFloat.gt (yearly_pct y) PyFloat.zero = true ->
                 PyFloat.gt (monthly_pct y) PyFloat.zero = true ->
                 PyFloat.le (yearly_pct y) (yearly_pct x) = true)
  end.
Proof.
  destruct records as [|r rs]; [reflexivity|].
  destruct (get_investment_opportunities_total r rs) as [res Hres].
  rewrite Hres.
  destruct (mid_long_term_candidates r rs res Hres) as [-> ->].
  split; intros x Hx; apply concat_In in Hx as (l & Hl & Hx);
    apply in_map_iff in Hl as (c & <- & _);
    apply candidates_spec in Hx as (H1 & <- & H3 & H4 & H5); auto.
Qed.

End InvestmentOpportunities.

Section StrongLeads.
Import Pandas CommodityDataManager.
Context {Q : Numpy.Quicksort} {QS : Numpy.QuicksortSpec Q}.

Lemma bool_decide_top3 key category_rows n :
  bool_decide (n ∈ top3 key category_rows) = in_top3 key category_rows n.
Proof.
  unfold top3, in_top3. apply eq_true_iff_eq.
  rewrite bool_decide_eq_true, elem_of_list_to_set, list_elem_of_In.
  rewrite existsb_exists. split.
  - intros H. exists n. split; [exact H|apply String.eqb_refl].
  - intros (x & Hx & E). apply String.eqb_eq in E. now subst.
Qed.

Lemma count_top3_appearances_text category_rows row :
  count_top3_appearances (top3 daily_pct category_rows)
    (top3 weekly_pct category_rows) (top3 monthly_pct category_rows)
    (top3 yearly_pct category_rows) row
  = match_text (matched_periods category_rows (name row)).
Proof.
  unfold count_top3_appearances, matched_periods.
  rewrite !bool_decide_top3.
  destruct (in_top3 daily_pct _ _), (in_top3 weekly_pct _ _),
    (in_top3 monthly_pct _ _), (in_top3 yearly_pct _ _); reflexivity.
Qed.

Lemma match_count_text d w m y :
  match_count (match_text (period_labels d w m y))
  = Ok (Z.of_nat (length (period_labels d w m y))).
Proof. destruct d, w, m, y; reflexivity. Qed.

Lemma union_elem key1 key2 key3 key4 category_rows n :
  bool_decide (n ∈ top3 key1 category_rows ∪ top3 key2 category_rows
                 ∪ top3 key3 category_rows ∪ top3 key4 category_rows)
  = in_top3 key1 category_rows n || in_top3 key2 category_rows n
    || in_top3 key3 category_rows n || in_top3 key4 category_rows n.
Proof.
  rewrite <- !bool_decide_top3. apply eq_true_iff_eq.
  rewrite !orb_true_iff, !bool_decide_eq_true. set_solver.
Qed.

Lemma in_top3_row key category_rows n :
  in_top3 key category_rows n = true ->
  exists r, In r category_rows /\ name r = n.
Proof.
  unfold in_top3. intros H. apply existsb_exists in H as (x & Hx & E).
  apply String.eqb_eq in E as <-. apply in_map_iff in Hx as (r & Hr & Hin).
  exists r. split; [|exact Hr]. now apply nlargest_incl in Hin.
Qed.

(** The set of strong leads is empty exactly when no row passes the
    filter. *)
Lemma union_empty_iff category_rows :
  bool_decide (top3 daily_pct category_rows ∪ top3 weekly_pct category_rows
               ∪ top3 monthly_pct category_rows ∪ top3 yearly_pct category_rows
               = ∅)
  = match List.filter
            (fun r => in_top3 daily_pct category_rows (name r)
                      || in_top3 weekly_pct category_rows (name r)
                      || in_top3 monthly_pct category_rows (name r)
                      || in_top3 yearly_pct category_rows (name r))
            category_rows with
    | [] => true
    | _ :: _ => false
    end.
Proof.
  set (U := _ ∪ _). set (f := fun r : Commodity => _).
  assert (HU : forall n, n ∈ U <-> in_top3 daily_pct category_rows n
                 || in_top3 weekly_pct category_rows n
                 || in_top3 monthly_pct category_rows n
                 || in_top3 yearly_pct category_rows n = true).
  { intros n. unfold U. rewrite <- union_elem. now rewrite bool_decide_eq_true. }
  destruct (List.filter f category_rows) as [|x l] eqn:E.
  - apply bool_decide_eq_true. apply set_eq. intros n.
    split; [|intros Hn; now apply not_elem_of_empty in Hn].
    intros Hn. exfalso. apply HU in Hn.
    assert (exists r, In r category_rows /\ name r = n) as (r & Hr & <-).
    { rewrite !orb_true_iff in Hn.
      destruct Hn as [[[H|H]|H]|H]; eapply in_top3_row; exact H. }
    assert (Hin : In r (List.filter f category_rows))
      by (apply filter_In; split; assumption).
    rewrite E in Hin. destruct Hin.
  - apply bool_decide_eq_false. intros HE.
    assert (Hx : In x (List.filter f category_rows)) by (rewrite E; now left).
    apply filter_In in Hx as [_ Hx]. apply HU in Hx. rewrite HE in Hx.
    now apply not_elem_of_empty in Hx.
Qed.

Lemma category_leads_created r rs category :
  category_leads
    (where_ (fun x => String.eqb (asset x) category) (_create_dataframe (r :: rs)))
  = Ok (leads_frame (of_category category (r :: rs))).
Proof.
  unfold category_leads.
  change (rows (where_ _ _)) with (of_category category (r :: rs)).
  destruct (of_category category (r :: rs)) as [|x xs] eqn:E; [reflexivity|].
  cbn [length Nat.eqb]. rewrite require_all_created.
  2:{ intros l Hl. simpl in Hl. simpl.
      repeat (destruct Hl as [<-|Hl]; [tauto|]). destruct Hl. }
  cbn [mbind result_bind]. rewrite union_empty_iff.
  unfold leads_frame.
  erewrite (filter_ext (fun r0 => bool_decide (name r0 ∈ _))).
  2:{ intros a. apply union_elem. }
  destruct (List.filter _ (x :: xs)) as [|l ls]; [reflexivity|].
  f_equal. f_equal. apply map_ext. intros a.
  now rewrite count_top3_appearances_text.
Qed.

Lemma lead_frames_created r rs :
  lead_frames (_create_dataframe (r :: rs))
  = Ok (omap id (map (fun category => leads_frame (of_category category (r :: rs)))
                   (unique (map asset (r :: rs))))).
Proof.
  unfold lead_frames, column.
  rewrite has_column_created by (simpl; tauto).
  cbn [mbind result_bind rows _create_dataframe].
  rewrite (mapM_Ok_map _ (fun category =>
             leads_frame (of_category category (r :: rs))))
    by (intros; apply category_leads_created).
  reflexivity.
Qed.

Lemma leads_frame_In category_rows r m :
  (exists f, leads_frame category_rows = Some f /\ In (r, m) f)
  <-> In r category_rows /\ qualifies category_rows r = true
      /\ m = match_text (matched_periods category_rows (name r)).
Proof.
  unfold leads_frame. fold (qualifies category_rows).
  destruct category_rows as [|x xs] eqn:E.
  { split; [intros (f & Hf & _); discriminate|intros ([] & _)]. }
  rewrite <- E in *. clear E.
  destruct (List.filter (qualifies category_rows) category_rows) as [|l ls] eqn:Hf.
  - split; [intros (f & H & _); discriminate|].
    intros (Hin & Hq & _).
    assert (H : In r (List.filter (qualifies category_rows) category_rows))
      by (apply filter_In; auto).
    rewrite Hf in H. destruct H.
  - rewrite <- Hf. split.
    + intros (f & Hsome & Hin). injection Hsome as <-.
      apply in_map_iff in Hin as (r' & Heq & Hin). injection Heq as -> <-.
      apply filter_In in Hin as [? ?]. auto.
    + intros (Hin & Hq & ->). eexists. split; [reflexivity|].
      apply in_map_iff. exists r. split; [reflexivity|].
      apply filter_In. auto.
Qed.

Lemma omap_id_In {A} (x : list A) (l : list (option (list A))) :
  In x (omap id l) <-> In (Some x) l.
Proof.
  rewrite <- !list_elem_of_In, list_elem_of_omap. split.
  - intros (o & Ho & E). destruct o; simpl in E; [|discriminate].
    now injection E as <-.
  - intros H. exists (Some x). auto.
Qed.

Lemma combined_leads_In records r m :
  In (r, m) (combined_leads records)
  <-> In r records
      /\ qualifies (of_category (asset r) records) r = true
      /\ m = match_text (matched_periods (of_category (asset r) records) (name r)).
Proof.
  unfold combined_leads. rewrite concat_In. split.
  - intros (f & Hf & Hin). apply omap_id_In in Hf.
    apply in_map_iff in Hf as (c & Hc & _).
    assert (H : exists f, leads_frame (of_category c records) = Some f
                          /\ In (r, m) f) by eauto.
    apply leads_frame_In in H as (Hr & Hq & Hm).
    apply of_category_In in Hr as [Hr <-]. auto.
  - intros (Hr & Hq & Hm).
    destruct (proj2 (leads_frame_In (of_category (asset r) records) r m))
      as (f & Hf & Hin).
    { split; [now apply of_category_In|auto]. }
    exists f. split; [|exact Hin]. apply omap_id_In.
    apply in_map_iff. exists (asset r). split; [exact Hf|].
    apply unique_In, in_map, Hr.
Qed.

Lemma match_count_combined records rm :
  In rm (combined_leads records) ->
  match_count (snd rm) = Ok (lead_count records rm).
Proof.
  destruct rm as [r m]. intros H. apply combined_leads_In in H as (_ & _ & ->).
  apply match_count_text.
Qed.

Lemma keyed_leads_combined records :
  keyed_leads (combined_leads records)
  = Ok (map (with_key records) (combined_leads records)).
Proof.
  unfold keyed_leads. apply mapM_Ok_map. intros rm Hrm.
  now rewrite (match_count_combined records rm Hrm).
Qed.

Lemma sort_values_desc_nil {R K} (lt : K -> K -> bool) isna (key : R -> K) :
  sort_values_desc lt isna key [] = [].
Proof.
  apply Permutation_nil. symmetry. apply sort_values_desc_perm.
Qed.

Lemma get_strong_leads_created r rs :
  exists res,
    get_strong_leads (_create_dataframe (r :: rs)) = Ok res
    /\ rows res = strong_leads_rows (r :: rs).
Proof.
  unfold get_strong_leads. rewrite lead_frames_created.
  cbn [mbind result_bind]. unfold strong_leads_rows.
  pose proof (keyed_leads_combined (r :: rs)) as Hk.
  unfold combined_leads in *.
  destruct (omap id _) as [|f fs].
  - eexists. split; [reflexivity|]. simpl.
    now rewrite sort_values_desc_nil.
  - unfold concat_rows. rewrite Hk. cbn [mbind result_bind].
    eexists. split; reflexivity.
Qed.

Lemma number_leads_spec (sorted : list (Commodity * string)) :
  map (fun l => (lead l, Match l)) (number_leads sorted) = sorted
  /\ map Rank (number_leads sorted) = seq 1 (length sorted)
  /\ map Rank_Asset (number_leads sorted)
     = map S (cumcount (map (fun rm => asset (fst rm)) sorted)).
Proof.
  unfold number_leads.
  assert (H1 : length (seq 1 (length sorted)) = length sorted)
    by apply length_seq.
  assert (H2 : length (map S (cumcount (map (fun rm => asset (fst rm)) sorted)))
               = length sorted)
    by (now rewrite length_map, cumcount_length, length_map).
  revert H1 H2.
  generalize (seq 1 (length sorted)) as ranks.
  generalize (map S (cumcount (map (fun rm => asset (fst rm)) sorted))) as ras.
  induction sorted as [|[r m] s IH]; intros [|ra ras] [|rk ranks] H1 H2;
    simpl in *; try discriminate; auto.
  destruct (IH ras ranks) as (E1 & E2 & E3); [lia..|].
  rewrite E1, E2, E3. auto.
Qed.

Lemma cumcount_from_lookup seen gs i k :
  cumcount_from seen gs !! i = Some k ->
  exists g, gs !! i = Some g
    /\ k = (length (List.filter (String.eqb g) (take i gs))
            + length (List.filter (String.eqb g) seen))%nat.
Proof.
  revert seen i. induction gs as [|g gs IH]; intros seen i H; simpl in *.
  - now rewrite lookup_nil in H.
  - destruct i as [|i]; simpl in *.
    + injection H as <-. exists g. split; [reflexivity|]. reflexivity.
    + apply IH in H as (g' & Hg' & ->). exists g'. split; [exact Hg'|].
      simpl. destruct (String.eqb g' g); simpl; lia.
Qed.

Lemma cumcount_lookup gs i k :
  cumcount gs !! i = Some k ->
  exists g, gs !! i = Some g
    /\ k = length (List.filter (String.eqb g) (take i gs)).
Proof.
  intros H. apply cumcount_from_lookup in H as (g & Hg & ->).
  exists g. split; [exact Hg|]. simpl. lia.
Qed.

Lemma tuple_lt_iff (a b : sort_tuple) :
  tuple_not_nan a -> tuple_not_nan b ->
  tuple_lt a b = true
  <-> lex7_lt (fst (fst a)) (float_code (snd (fst a))) (float_code (snd a))
        (fst (fst b)) (float_code (snd (fst b))) (float_code (snd b)).
Proof.
  destruct a as [[c1 x1] y1], b as [[c2 x2] y2].
  intros [Hx1 Hy1] [Hx2 Hy2]. simpl in *.
  unfold tuple_lt, PyFloat.ne.
  pose proof (float_lt_iff x1 x2 Hx1 Hx2) as Hxlt.
  pose proof (float_eq_iff x1 x2 Hx1 Hx2) as Hxeq.
  pose proof (float_lt_iff y1 y2 Hy1 Hy2) as Hylt.
  pose proof (float_eq_iff y1 y2 Hy1 Hy2) as Hyeq.
  destruct (float_code x1) as [[a1 a2] a3], (float_code x2) as [[a1' a2'] a3'],
    (float_code y1) as [[b1 b2] b3], (float_code y2) as [[b1' b2'] b3'].
  unfold lex7_lt, lex3_lt, PyFloat.eq in *.
  rewrite !pair_equal_spec in Hxeq, Hyeq.
  destruct (Z.eqb_spec c1 c2) as [->|Hc]; simpl.
  - destruct (SFeqb x1 x2).
    + simpl. destruct (SFeqb y1 y2); simpl.
      * split; [intros Hf; discriminate Hf|].
        destruct Hxeq as [Hxeq _], Hyeq as [Hyeq _].
        specialize (Hxeq eq_refl). specialize (Hyeq eq_refl). lia.
      * rewrite Hylt. destruct Hxeq as [Hxeq _]. specialize (Hxeq eq_refl). lia.
    + simpl. rewrite Hxlt.
      assert (~ (a1 = a1' /\ a2 = a2' /\ a3 = a3')).
      { intros (-> & -> & ->). destruct Hxeq as [_ Hxeq].
        discriminate (Hxeq (conj (conj eq_refl eq_refl) eq_refl)). }
      lia.
  - rewrite Z.ltb_lt. lia.
Qed.

Lemma tuple_lt_strict_weak {R} (key : R -> sort_tuple) (l : list R) :
  (forall r, In r l -> tuple_not_nan (key r)) ->
  Numpy.strict_weak_on (fun a b => tuple_lt (key a) (key b)) l.
Proof.
  intros Hnan.
  assert (Hnlt : forall a b, In a l -> In b l ->
    (tuple_lt (key a) (key b) = false
     <-> ~ lex7_lt (fst (fst (key a))) (float_code (snd (fst (key a))))
             (float_code (snd (key a)))
             (fst (fst (key b))) (float_code (snd (fst (key b))))
             (float_code (snd (key b))))).
  { intros a b Ha Hb. rewrite <- tuple_lt_iff by auto.
    destruct (tuple_lt _ _); split; congruence. }
  split.
  - intros x Hx. apply Hnlt; [assumption..|].
    destruct (float_code (snd (fst (key x)))) as [[a1 a2] a3],
      (float_code (snd (key x))) as [[b1 b2] b3].
    unfold lex7_lt. lia.
  - intros x y z Hx Hy Hz. rewrite !tuple_lt_iff by auto.
    generalize (fst (fst (key x))), (fst (fst (key y))), (fst (fst (key z))).
    destruct (float_code (snd (fst (key x)))) as [[a1 a2] a3],
      (float_code (snd (key x))) as [[b1 b2] b3],
      (float_code (snd (fst (key y)))) as [[a1' a2'] a3'],
      (float_code (snd (key y))) as [[b1' b2'] b3'],
      (float_code (snd (fst (key z)))) as [[a1'' a2''] a3''],
      (float_code (snd (key z))) as [[b1'' b2''] b3''].
    unfold lex7_lt. intros c c' c''. lia.
  - intros x y z Hx Hy Hz. rewrite !Hnlt by auto.
    generalize (fst (fst (key x))), (fst (fst (key y))), (fst (fst (key z))).
    destruct (float_code (snd (fst (key x)))) as [[a1 a2] a3],
      (float_code (snd (key x))) as [[b1 b2] b3],
      (float_code (snd (fst (key y)))) as [[a1' a2'] a3'],
      (float_code (snd (key y))) as [[b1' b2'] b3'],
      (float_code (snd (fst (key z)))) as [[a1'' a2''] a3''],
      (float_code (snd (key z))) as [[b1'' b2''] b3''].
    unfold lex7_lt. intros c c' c''. lia.
Qed.

Lemma strong_leads_rows_pairs records :
  Permutation (map (fun l => (lead l, Match l)) (strong_leads_rows records))
    (combined_leads records).
Proof.
  unfold strong_leads_rows.
  destruct (number_leads_spec
              (map fst (sort_values_desc tuple_lt (fun _ => false) snd
                          (map (with_key records) (combined_leads records)))))
    as (-> & _).
  rewrite sort_values_desc_perm, map_map. simpl. now rewrite map_id.
Qed.

Lemma strong_leads_rows_In records l :
  In l (strong_leads_rows records) ->
  In (lead l, Match l) (combined_leads records).
Proof.
  intros H. apply (Permutation_in _ (strong_leads_rows_pairs records)).
  now apply (in_map (fun l => (lead l, Match l))).
Qed.

Lemma combined_leads_row records r m :
  In (r, m) (combined_leads records) ->
  exists l, In l (strong_leads_rows records) /\ lead l = r /\ Match l = m.
Proof.
  intros H.
  apply (Permutation_in _ (Permutation_sym (strong_leads_rows_pairs records)))
    in H.
  apply in_map_iff in H as (l & E & Hl). injection E as <- <-. eauto.
Qed.

Lemma in_top3_In key category_rows n :
  in_top3 key category_rows n = true
  <-> In n (map name (nlargest 3 key category_rows)).
Proof.
  unfold in_top3. rewrite existsb_exists. split.
  - intros (x & Hx & E). apply String.eqb_eq in E. now subst.
  - intros H. exists n. split; [exact H|apply String.eqb_refl].
Qed.

Lemma qualifies_periods category_rows r :
  qualifies category_rows r = true ->
  (1 <= length (matched_periods category_rows (name r)) <= 4)%nat.
Proof.
  unfold qualifies, matched_periods.
  destruct (in_top3 daily_pct _ _), (in_top3 weekly_pct _ _),
    (in_top3 monthly_pct _ _), (in_top3 yearly_pct _ _); simpl;
    intros H; try discriminate; lia.
Qed.

(** C2: for every record sequence and category, the names that
    [get_strong_leads] selects in the category are exactly the names in
    the top three of the category for the daily, weekly, monthly or yearly
    percentage; for every selected row, the [Match] text counts and lists
    the periods in which its name is in the top three of its category, one
    to four of them; an error arises for the empty record sequence only. *)
Theorem C2_strong_leads_union (records : list Commodity) :
  match get_strong_leads (_create_dataframe records) with
  | Raise _ => records = []
  | Ok res =>
      (forall category n,
          let category_rows := of_category category records in
          (exists l, In l (rows res)
                     /\ asset (lead l) = category /\ name (lead l) = n)
          <-> In n (map name (nlargest 3 daily_pct category_rows))
              \/ In n (map name (nlargest 3 weekly_pct category_rows))
              \/ In n (map name (nlargest 3 monthly_pct category_rows))
              \/ In n (map name (nlargest 3 yearly_pct category_rows)))
      /\ (forall l, In l (rows res) ->
            let periods :=
              matched_periods (of_category (asset (lead l)) records)
                (name (lead l)) in
            Match l = match_text periods
            /\ match_count (Match l) = Ok (Z.of_nat (length periods))
            /\ (1 <= length periods <= 4)%nat)
  end.
Proof.
  destruct records as [|r rs]; [reflexivity|].
  destruct (get_strong_leads_created r rs) as (res & -> & Hrows).
  rewrite Hrows. split.
  - intros category n category_rows. unfold category_rows.
    rewrite <- !in_top3_In. split.
    + intros (l & Hl & <- & <-).
      apply strong_leads_rows_In, combined_leads_In in Hl as (_ & Hq & _).
      unfold qualifies in Hq. rewrite !orb_true_iff in Hq. tauto.
    + intros H.
      assert (exists x, In x (of_category category (r :: rs)) /\ name x = n)
        as (x & Hx & <-).
      { destruct H as [H|[H|[H|H]]]; eapply in_top3_row; exact H. }
      apply of_category_In in Hx as [Hx <-].
      destruct (combined_leads_row (r :: rs) x
                  (match_text (matched_periods (of_category (asset x) (r :: rs))
                                 (name x)))) as (l & Hl & <- & _).
      { apply combined_leads_In. repeat split; [assumption|].
        unfold qualifies. rewrite !orb_true_iff. tauto. }
      eauto.
  - intros l Hl periods. unfold periods.
    apply strong_leads_rows_In in Hl as Hc.
    pose proof (match_count_combined _ _ Hc) as Hm.
    apply combined_leads_In in Hc as (_ & Hq & Htext).
    simpl in *. repeat split; try assumption.
    + apply (qualifies_periods _ _ Hq).
    + apply (qualifies_periods _ _ Hq).
Qed.

Lemma StronglySorted_map_inv {A B} (f : A -> B) (R : B -> B -> Prop) l :
  StronglySorted R (map f l) -> StronglySorted (fun a b => R (f a) (f b)) l.
Proof.
  induction l as [|x l IH]; simpl; intros H; [constructor|].
  apply StronglySorted_inv in H as [Hs Hall]. constructor; [auto|].
  rewrite Forall_forall in Hall. rewrite Forall_forall. intros y Hy. apply Hall.
  apply list_elem_of_In, in_map, list_elem_of_In, Hy.
Qed.

Lemma StronglySorted_map {A B} (f : A -> B) (R : B -> B -> Prop) l :
  StronglySorted (fun a b => R (f a) (f b)) l -> StronglySorted R (map f l).
Proof.
  induction 1 as [|x l Hs IH Hall]; simpl; constructor; [assumption|].
  rewrite Forall_forall in Hall. rewrite Forall_forall. intros y Hy.
  apply list_elem_of_In, in_map_iff in Hy as (z & <- & Hz).
  apply Hall, list_elem_of_In, Hz.
Qed.

Lemma StronglySorted_In_impl {A} (R R' : A -> A -> Prop) l :
  (forall x y, In x l -> In y l -> R x y -> R' x y) ->
  StronglySorted R l -> StronglySorted R' l.
Proof.
  intros Himp Hs. induction Hs as [|x l Hs IH Hall]; constructor.
  - apply IH. intros a b Ha Hb. apply Himp; now right.
  - rewrite Forall_forall in Hall |- *. intros y Hy.
    apply Himp; [now left|right; now apply list_elem_of_In|auto].
Qed.

Lemma filter_map_length {A B} (h : A -> B) (p : B -> bool) (l : list A) :
  length (List.filter p (map h l)) = length (List.filter (fun a => p (h a)) l).
Proof.
  induction l as [|a l IH]; simpl; [reflexivity|].
  destruct (p (h a)); simpl; now rewrite IH.
Qed.

Lemma lead_key_combined records l :
  In l (strong_leads_rows records) ->
  match_count_of l = lead_count records (lead l, Match l)
  /\ lead_key l = snd (with_key records (lead l, Match l)).
Proof.
  intros Hl. apply strong_leads_rows_In in Hl.
  pose proof (match_count_combined _ _ Hl) as Hm. simpl in Hm.
  assert (E : match_count_of l = lead_count records (lead l, Match l)).
  { unfold match_count_of. now rewrite Hm. }
  split; [exact E|].
  unfold lead_key, with_key, sort_key. rewrite E. reflexivity.
Qed.

Lemma strong_leads_rows_sorted records :
  Forall (fun l => key_fields_not_nan (lead l)) (strong_leads_rows records) ->
  StronglySorted (fun a b => tuple_lt (lead_key a) (lead_key b) = false)
    (strong_leads_rows records).
Proof.
  intros Hnan.
  set (keyed := map (with_key records) (combined_leads records)).
  set (sorted := sort_values_desc tuple_lt (fun _ => false) snd keyed).
  assert (HE : map (fun l => (lead l, Match l)) (strong_leads_rows records)
               = map fst sorted).
  { unfold strong_leads_rows. fold keyed. fold sorted.
    now destruct (number_leads_spec (map fst sorted)) as (-> & _). }
  assert (Hperm : Permutation sorted keyed) by apply sort_values_desc_perm.
  assert (Hkey : forall k, In k sorted -> k = with_key records (fst k)).
  { intros k Hk. apply (Permutation_in _ Hperm) in Hk.
    apply in_map_iff in Hk as (rm & <- & _). reflexivity. }
  assert (Hk_nan : forall k, In k keyed -> tuple_not_nan (snd k)).
  { intros k Hk. apply (Permutation_in _ (Permutation_sym Hperm)) in Hk.
    pose proof (Hkey k Hk) as Ek.
    assert (Hin : In (fst k) (map (fun l => (lead l, Match l))
                                (strong_leads_rows records))).
    { rewrite HE. now apply in_map. }
    apply in_map_iff in Hin as (l & El & Hl).
    rewrite Forall_forall in Hnan.
    destruct (Hnan l (proj2 (list_elem_of_In _ _) Hl)) as (Hd & Hw & Hm).
    rewrite Ek, <- El. unfold with_key, sort_key, tuple_not_nan. simpl.
    destruct (_ =? 1); simpl; auto. }
  assert (Hsorted : StronglySorted
            (fun a b => tuple_lt (snd a) (snd b) = false) sorted).
  { unfold sorted, sort_values_desc.
    rewrite (filter_all _ keyed) by reflexivity.
    rewrite (filter_none _ keyed) by reflexivity.
    rewrite app_nil_r.
    apply (StronglySorted_rev
             (fun x y => tuple_lt (snd y) (snd x) = false)).
    apply (Numpy.argsort_sorted _ (fun a b => tuple_lt (snd a) (snd b))).
    apply (tuple_lt_strict_weak snd). intros k Hk. apply Hk_nan.
    now apply in_rev. }
  apply (StronglySorted_In_impl
           (fun a b => tuple_lt (snd (with_key records (lead a, Match a)))
                                (snd (with_key records (lead b, Match b)))
                       = false)).
  { intros a b Ha Hb.
    destruct (lead_key_combined records a Ha) as [_ ->].
    destruct (lead_key_combined records b Hb) as [_ ->]. auto. }
  apply (StronglySorted_map_inv (fun l => (lead l, Match l))
           (fun p q => tuple_lt (snd (with_key records p))
                                (snd (with_key records q)) = false)).
  rewrite HE.
  apply (StronglySorted_map fst
           (fun p q => tuple_lt (snd (with_key records p))
                                (snd (with_key records q)) = false)).
  eapply StronglySorted_In_impl; [|exact Hsorted].
  intros x y Hx Hy Hxy.
  rewrite (Hkey x Hx), (Hkey y Hy) in Hxy. exact Hxy.
Qed.

Lemma strong_leads_rows_rank_asset records i l :
  strong_leads_rows records !! i = Some l ->
  Rank_Asset l
  = S (length (List.filter
                 (fun e => String.eqb (asset (lead l)) (asset (lead e)))
                 (take i (strong_leads_rows records)))).
Proof.
  intros Hl.
  set (E := strong_leads_rows records) in *.
  assert (Hras : map Rank_Asset E
                 = map S (cumcount (map (fun e => asset (lead e)) E))).
  { unfold E, strong_leads_rows.
    match goal with |- context [number_leads ?s] =>
      destruct (number_leads_spec s) as (H1 & _ & H3); rewrite H3;
      do 2 f_equal; rewrite <- H1 at 1 end.
    now rewrite map_map. }
  assert (H : map Rank_Asset E !! i = Some (Rank_Asset l)).
  { change (map Rank_Asset E) with (Rank_Asset <$> E).
    now rewrite list_lookup_fmap, Hl. }
  rewrite Hras in H.
  change (map S ?x) with (S <$> x) in H. rewrite list_lookup_fmap in H.
  destruct (cumcount _ !! i) as [k|] eqn:Hk; [|discriminate].
  injection H as <-.
  apply cumcount_lookup in Hk as (g & Hg & ->).
  change (map ?f E) with (f <$> E) in Hg. rewrite list_lookup_fmap, Hl in Hg.
  injection Hg as <-.
  change ((fun e => asset (lead e)) <$> E) with (map (fun e => asset (lead e)) E).
  rewrite (firstn_map (fun e => asset (lead e))).
  now rewrite filter_map_length.
Qed.

(** With keys that hold no NaN, no row comes before a row with a greater
    key; [Rank] is the position in this order, from one; [Rank_Asset]
    counts the rows of the same category up to and including the row. *)
Lemma strong_leads_order (records : list Commodity) :
  match get_strong_leads (_create_dataframe records) with
  | Raise _ => records = []
  | Ok res =>
      let entries := rows res in
      (Forall (fun l => key_fields_not_nan (lead l)) entries ->
       StronglySorted (fun a b => tuple_lt (lead_key a) (lead_key b) = false)
         entries)
      /\ (forall l, In l entries ->
            match_count_of l
            = Z.of_nat (length (matched_periods
                                  (of_category (asset (lead l)) records)
                                  (name (lead l)))))
      /\ map Rank entries = seq 1 (length entries)
      /\ (forall i l, entries !! i = Some l ->
            Rank_Asset l
            = S (length (List.filter
                           (fun e => String.eqb (asset (lead l)) (asset (lead e)))
                           (take i entries))))
  end.
Proof.
  destruct records as [|r rs]; [reflexivity|].
  destruct (get_strong_leads_created r rs) as (res & -> & Hrows).
  cbv zeta. rewrite Hrows.
  split; [apply strong_leads_rows_sorted|].
  split; [intros l Hl; now destruct (lead_key_combined _ l Hl) as [-> _]|].
  split; [|apply strong_leads_rows_rank_asset].
  unfold strong_leads_rows.
  match goal with |- context [number_leads ?s] =>
    destruct (number_leads_spec s) as (H1 & H2 & _) end.
  rewrite H2. f_equal.
  rewrite <- H1 at 1. now rewrite length_map.
Qed.

End StrongLeads.

Section OpportunityBuckets.
Import Pandas CommodityDataManager.
Context {Q : Numpy.Quicksort} {QS : Numpy.QuicksortSpec Q}.

Lemma number_opportunities_spec timeframe combined :
  map candidate (number_opportunities timeframe combined) = combined
  /\ map opp_Rank (number_opportunities timeframe combined)
     = seq 1 (length combined)
  /\ map opp_Rank_Asset (number_opportunities timeframe combined)
     = map S (cumcount (map asset combined))
  /\ Forall (fun o => Timeframe o = timeframe)
       (number_opportunities timeframe combined).
Proof.
  unfold number_opportunities.
  assert (H1 : length (seq 1 (length combined)) = length combined)
    by apply length_seq.
  assert (H2 : length (map S (cumcount (map asset combined)))
               = length combined)
    by (now rewrite length_map, cumcount_length, length_map).
  revert H1 H2.
  generalize (seq 1 (length combined)) as ranks.
  generalize (map S (cumcount (map asset combined))) as ras.
  induction combined as [|c cs IH]; intros [|ra ras] [|rk ranks] H1 H2;
    simpl in *; try discriminate; auto.
  destruct (IH ras ranks) as (E1 & E2 & E3 & E4); [lia..|].
  rewrite E1, E2, E3. auto.
Qed.

Lemma cumcount_NoDup gs : NoDup gs -> Forall (fun k => k = O) (cumcount gs).
Proof.
  intros Hnd. apply Forall_lookup. intros i k Hk.
  apply cumcount_lookup in Hk as (g & Hg & ->).
  rewrite filter_none; [reflexivity|].
  intros x Hx. apply String.eqb_neq. intros <-.
  apply list_elem_of_In, list_elem_of_lookup in Hx as [j Hj].
  apply lookup_take_Some in Hj as [Hj Hlt].
  pose proof (NoDup_lookup _ _ _ _ Hnd Hg Hj). lia.
Qed.

Lemma combine_opportunities_rows timeframe labels frames :
  rows (combine_opportunities timeframe labels frames)
  = number_opportunities timeframe (concat frames).
Proof.
  unfold combine_opportunities.
  rewrite <- (concat_filter_nonempty frames).
  now destruct (List.filter _ frames).
Qed.

Lemma concat_picks_sublist (categories : list string)
    (pick : string -> list Commodity) :
  (forall c x, In x (pick c) -> asset x = c) ->
  (forall c, (length (pick c) <= 1)%nat) ->
  sublist (map asset (concat (map pick categories))) categories.
Proof.
  intros Hasset Hlen. induction categories as [|c cs IH]; simpl; [constructor|].
  specialize (Hlen c). specialize (Hasset c).
  destruct (pick c) as [|x [|y l]]; simpl in *; [|  |lia].
  - now apply sublist_cons.
  - rewrite (Hasset x) by auto. now apply sublist_skip.
Qed.

Lemma bucket_spec timeframe labels
    (first second : Commodity -> PyFloat.float) records :
  bucket_ok records timeframe
    (combine_opportunities timeframe labels
       (map (fun category =>
               candidates first second first (of_category category records))
          (unique (map asset records)))).
Proof.
  unfold bucket_ok. rewrite combine_opportunities_rows.
  set (pick := fun category =>
         candidates first second first (of_category category records)).
  destruct (number_opportunities_spec timeframe
              (concat (map pick (unique (map asset records)))))
    as (E1 & E2 & E3 & E4).
  assert (Hasset : forall c x, In x (pick c) -> asset x = c).
  { intros c x Hx. now apply candidates_spec in Hx as (_ & Ha & _). }
  assert (Hlen : forall c, (length (pick c) <= 1)%nat).
  { intros c. apply nlargest_1_length. }
  split; [|split].
  - rewrite E2. f_equal. rewrite <- E1 at 1. now rewrite length_map.
  - apply Forall_lookup. intros i o Ho. split.
    + assert (Hra : map opp_Rank_Asset
                      (number_opportunities timeframe
                         (concat (map pick (unique (map asset records))))) !! i
                    = Some (opp_Rank_Asset o))
        by (now rewrite list_lookup_fmap, Ho).
      rewrite E3 in Hra. rewrite list_lookup_fmap in Hra.
      destruct (cumcount _ !! i) as [k|] eqn:Hk; [|discriminate].
      injection Hra as <-.
      pose proof (cumcount_NoDup _
                    (concat_singletons_NoDup (unique (map asset records)) pick
                       (unique_NoDup (map asset records)) Hasset Hlen)) as Hz.
      rewrite Forall_lookup in Hz. now rewrite (Hz i k Hk).
    + rewrite Forall_lookup in E4. exact (E4 i o Ho).
  - rewrite <- (map_map candidate asset), E1.
    now apply concat_picks_sublist.
Qed.

(** In each of the three buckets the rows are ranked from one in their
    order, each is the only row of its category, so that its rank within
    the category is one, each carries the name of the bucket, and the
    categories come in the order in which the records first show them. *)
Theorem opportunity_buckets_ranked (records : list Commodity) :
  match get_investment_opportunities (_create_dataframe records) with
  | Raise _ => records = []
  | Ok res =>
      bucket_ok records "Short-term" (short_term res)
      /\ bucket_ok records "Mid-term" (mid_term res)
      /\ bucket_ok records "Long-term" (long_term res)
  end.
Proof.
  destruct records as [|r rs]; [reflexivity|].
  unfold get_investment_opportunities, column.
  rewrite has_column_created by (simpl; tauto).
  cbn [mbind result_bind rows _create_dataframe].
  rewrite (mapM_Ok_map _ (fun category =>
    (candidates daily_pct weekly_pct daily_pct (of_category category (r :: rs)),
     candidates weekly_pct monthly_pct weekly_pct (of_category category (r :: rs)),
     candidates yearly_pct monthly_pct yearly_pct (of_category category (r :: rs)))))
    by (intros; apply category_opportunities_created).
  cbn [mbind result_bind short_term mid_term long_term].
  rewrite !map_map. cbn [fst snd].
  split; [|split]; apply bucket_spec.
Qed.

End OpportunityBuckets.

Section StrongLeadsTies.
Import Pandas CommodityDataManager.

Lemma lt_refl_false x : PyFloat.lt x x = false.
Proof.
  unfold PyFloat.lt, SFltb. destruct x as [[|]|[|]| |[|] m e]; try reflexivity;
    cbn [SFcompare]; rewrite Z.compare_refl, ?Pos.compare_cont_refl;
    reflexivity.
Qed.

Lemma tuple_lt_irrefl (k : sort_tuple) : tuple_lt k k = false.
Proof.
  destruct k as [[c x] y]. unfold tuple_lt.
  rewrite Z.eqb_refl. cbn [negb].
  rewrite !lt_refl_false. now destruct (PyFloat.ne x x), (PyFloat.ne y y).
Qed.

Lemma lead_key_pair_key (l : StrongLead) :
  lead_key l = pair_key (lead l, Match l).
Proof.
  unfold lead_key, pair_key, match_count_of, sort_key. cbn [fst snd].
  now destruct (match_count (Match l)).
Qed.

Lemma lex3_lt_total a b : lex3_lt a b \/ a = b \/ lex3_lt b a.
Proof.
  destruct a as [[a1 a2] a3], b as [[b1 b2] b3]. simpl.
  destruct (Z.lt_total a1 b1) as [H|[H|H]]; [lia| |lia].
  destruct (Z.lt_total a2 b2) as [H2|[H2|H2]]; [lia| |lia].
  destruct (Z.lt_total a3 b3) as [H3|[H3|H3]]; [lia| |lia].
  right. left. congruence.
Qed.

Lemma lex3_lt_asym a b : lex3_lt a b -> ~ lex3_lt b a.
Proof. destruct a as [[a1 a2] a3], b as [[b1 b2] b3]. simpl. lia. Qed.

Lemma float_eq_not_nan x v :
  PyFloat.eq x v = true -> PyFloat.is_nan x = false /\ PyFloat.is_nan v = false.
Proof. destruct x, v; try discriminate; now split. Qed.

Lemma float_lt_not_nan x y :
  PyFloat.lt x y = true -> PyFloat.is_nan x = false /\ PyFloat.is_nan y = false.
Proof. destruct x, y; try discriminate; now split. Qed.

Lemma float_trichotomy x y :
  PyFloat.is_nan x = false -> PyFloat.is_nan y = false ->
  PyFloat.lt x y = true \/ PyFloat.eq x y = true \/ PyFloat.lt y x = true.
Proof.
  intros Hx Hy.
  destruct (lex3_lt_total (float_code x) (float_code y)) as [L|[E|L]].
  - left. now apply float_lt_iff.
  - right. left. now apply float_eq_iff.
  - right. right. now apply float_lt_iff.
Qed.

Lemma float_eq_lt_false x y : PyFloat.eq x y = true -> PyFloat.lt x y = false.
Proof.
  intros H. destruct (float_eq_not_nan _ _ H) as [Nx Ny].
  apply float_eq_iff in H; try assumption.
  destruct (PyFloat.lt x y) eqn:E; [|reflexivity].
  apply float_lt_iff in E; try assumption. rewrite H in E.
  exfalso. exact (lex3_lt_asym _ _ E E).
Qed.

Lemma float_eq_eq x y k :
  PyFloat.eq x k = true -> PyFloat.eq y k = true -> PyFloat.eq x y = true.
Proof.
  intros Hx Hy.
  destruct (float_eq_not_nan _ _ Hx) as [Nx Nk].
  destruct (float_eq_not_nan _ _ Hy) as [Ny _].
  apply float_eq_iff in Hx, Hy; try assumption.
  apply float_eq_iff; congruence.
Qed.

(** One position of two tied tuples, against a float that is not NaN:
    a float of the other tuple that is not NaN equals it. *)
Lemma tied_position x k (rest1 rest2 : bool) :
  PyFloat.is_nan x = false -> PyFloat.is_nan k = false ->
  (if PyFloat.ne x k then PyFloat.lt x k else rest1) = false ->
  (if PyFloat.ne k x then PyFloat.lt k x else rest2) = false ->
  PyFloat.eq x k = true /\ PyFloat.eq k x = true
  /\ rest1 = false /\ rest2 = false.
Proof.
  intros Nx Nk. unfold PyFloat.ne.
  fold (PyFloat.eq x k). fold (PyFloat.eq k x).
  destruct (float_trichotomy x k Nx Nk) as [L|[E|L]].
  - destruct (PyFloat.eq x k) eqn:E.
    + rewrite (float_eq_lt_false _ _ E) in L. discriminate.
    + cbv [negb]. intros H. rewrite L in H. discriminate.
  - assert (E' : PyFloat.eq k x = true).
    { apply float_eq_iff; try assumption. symmetry.
      now apply float_eq_iff in E. }
    rewrite E, E'. cbv [negb]. tauto.
  - destruct (PyFloat.eq k x) eqn:E.
    + rewrite (float_eq_lt_false _ _ E) in L. discriminate.
    + cbv [negb]. intros _ H. rewrite L in H. discriminate.
Qed.

(** Tuples that tie with one and the same tuple without NaN tie with one
    another. *)
Lemma tied_class (x y k : sort_tuple) :
  tuple_not_nan k -> tied x k = true -> tied y k = true ->
  tuple_lt x y = false.
Proof.
  destruct x as [[cx x1] x2], y as [[cy y1] y2], k as [[c k1] k2].
  unfold tuple_not_nan, tied, tuple_lt. cbn [fst snd].
  intros [Nk1 Nk2] Hx Hy.
  apply andb_true_iff in Hx as [Hx1 Hx2], Hy as [Hy1 Hy2].
  apply negb_true_iff in Hx1, Hx2, Hy1, Hy2.
  destruct (Z.eqb_spec cx c) as [->|Hcx];
    [|cbn [negb] in Hx1, Hx2;
      destruct (Z.eqb_spec c cx); [congruence|]; cbn [negb] in Hx2;
      apply Z.ltb_ge in Hx1, Hx2; lia].
  destruct (Z.eqb_spec cy c) as [->|Hcy];
    [|cbn [negb] in Hy1, Hy2;
      destruct (Z.eqb_spec c cy); [congruence|]; cbn [negb] in Hy2;
      apply Z.ltb_ge in Hy1, Hy2; lia].
  rewrite Z.eqb_refl in *. cbn [negb] in *.
  destruct (PyFloat.ne x1 y1) eqn:E1.
  - destruct (PyFloat.lt x1 y1) eqn:L1; [|reflexivity].
    destruct (float_lt_not_nan _ _ L1) as [Nx1 Ny1].
    destruct (tied_position x1 k1 _ _ Nx1 Nk1 Hx1 Hx2) as (Ex & _).
    destruct (tied_position y1 k1 _ _ Ny1 Nk1 Hy1 Hy2) as (Ey & _).
    pose proof (float_eq_eq _ _ _ Ex Ey) as E.
    unfold PyFloat.ne in E1. fold (PyFloat.eq x1 y1) in E1.
    rewrite E in E1. discriminate.
  - unfold PyFloat.ne in E1. fold (PyFloat.eq x1 y1) in E1.
    apply negb_false_iff in E1.
    destruct (float_eq_not_nan _ _ E1) as [Nx1 Ny1].
    destruct (tied_position x1 k1 _ _ Nx1 Nk1 Hx1 Hx2) as (_ & _ & Hx1' & Hx2').
    destruct (tied_position y1 k1 _ _ Ny1 Nk1 Hy1 Hy2) as (_ & _ & Hy1' & Hy2').
    destruct (PyFloat.ne x2 y2) eqn:E2; [|reflexivity].
    destruct (PyFloat.lt x2 y2) eqn:L2; [|reflexivity].
    destruct (float_lt_not_nan _ _ L2) as [Nx2 Ny2].
    destruct (tied_position x2 k2 false false Nx2 Nk2) as (Ex & _).
    { destruct (PyFloat.ne x2 k2); assumption. }
    { destruct (PyFloat.ne k2 x2); assumption. }
    destruct (tied_position y2 k2 false false Ny2 Nk2) as (Ey & _).
    { destruct (PyFloat.ne y2 k2); assumption. }
    { destruct (PyFloat.ne k2 y2); assumption. }
    pose proof (float_eq_eq _ _ _ Ex Ey) as E.
    unfold PyFloat.ne in E2. fold (PyFloat.eq x2 y2) in E2.
    rewrite E in E2. discriminate.
Qed.

(** With at most seventeen strong leads, the generic quicksort leaves
    rows whose keys tie with one another in the order of the combined
    frame. *)
Lemma strong_leads_rows_ties records (P : sort_tuple -> bool) :
  (length (combined_leads (Q := Numpy.generic_quicksort) records) <= 17)%nat ->
  (forall a b,
      In a (combined_leads (Q := Numpy.generic_quicksort) records) ->
      In b (combined_leads (Q := Numpy.generic_quicksort) records) ->
      P (pair_key a) = true -> P (pair_key b) = true ->
      tuple_lt (pair_key a) (pair_key b) = false) ->
  map (fun l => (lead l, Match l))
    (List.filter (fun l => P (lead_key l))
       (strong_leads_rows (Q := Numpy.generic_quicksort) records))
  = List.filter (fun rm => P (pair_key rm))
      (combined_leads (Q := Numpy.generic_quicksort) records).
Proof.
  intros Hlen Hties.
  rewrite (filter_ext _ (fun l => P (pair_key (lead l, Match l))))
    by (intros l; now rewrite lead_key_pair_key).
  rewrite <- (filter_map_swap (fun rm => P (pair_key rm))
                (fun l => (lead l, Match l))).
  unfold strong_leads_rows.
  match goal with |- context [number_leads ?s] =>
    destruct (number_leads_spec s) as (-> & _) end.
  rewrite filter_map_swap.
  rewrite sort_values_desc_stable.
  - rewrite filter_map_swap, map_map. cbn [with_key fst].
    now rewrite map_id.
  - now rewrite length_map.
  - intros x y Hx Hy Px Py.
    apply in_map_iff in Hx as (rx & <- & Hrx).
    apply in_map_iff in Hy as (ry & <- & Hry).
    cbn [with_key fst snd] in *.
    specialize (Hties rx ry Hrx Hry). unfold pair_key in Hties, Px, Py.
    rewrite (match_count_combined records rx Hrx) in Hties, Px.
    rewrite (match_count_combined records ry Hry) in Hties, Py.
    now apply Hties.
Qed.

(** C3, amended (the order is descending when the keys hold no NaN, and
    entries whose keys tie keep their prior order when there are at most
    seventeen entries; with more, the default sort of pandas may reorder
    them): for every sort that NumPy may supply, [get_strong_leads] orders
    the combined result by the key (count, daily, weekly) when the count
    is one and (count, weekly, monthly) otherwise, so that no row comes
    before a row with a greater key; [Rank] is the position in this
    order, from one; [Rank_Asset] counts the rows of the same category up
    to and including the row, in this order.  Under the generic
    quicksort, which sorts the tuples, and with at most seventeen rows in
    the combined frame, rows whose keys tie, neither key being below the
    other in the order of tuples, stay in the order of the combined
    frame: so do the rows of every selection of keys that tie with one
    another, and so do the rows whose key ties with a given key without
    NaN, among them the rows whose keys differ from it in the sign of a
    zero. *)
Theorem C3_strong_leads_order (records : list Commodity) :
  (forall Q : Numpy.Quicksort, Numpy.QuicksortSpec Q ->
     match get_strong_leads (Q := Q) (_create_dataframe records) with
     | Raise _ => records = []
     | Ok res =>
         let entries := rows res in
         (Forall (fun l => key_fields_not_nan (lead l)) entries ->
          StronglySorted
            (fun a b => tuple_lt (lead_key a) (lead_key b) = false) entries)
         /\ (forall l, In l entries ->
               match_count_of l
               = Z.of_nat (length (matched_periods (Q := Q)
                                     (of_category (asset (lead l)) records)
                                     (name (lead l)))))
         /\ map Rank entries = seq 1 (length entries)
         /\ (forall i l, entries !! i = Some l ->
               Rank_Asset l
               = S (length (List.filter
                              (fun e => String.eqb (asset (lead l))
                                          (asset (lead e)))
                              (take i entries))))
     end)
  /\ match lead_frames (Q := Numpy.generic_quicksort)
             (_create_dataframe records),
           get_strong_leads (Q := Numpy.generic_quicksort)
             (_create_dataframe records) with
     | Ok frames, Ok res =>
         (length (concat frames) <= 17)%nat ->
         (forall P : sort_tuple -> bool,
             (forall a b, In a (concat frames) -> In b (concat frames) ->
                P (pair_key a) = true -> P (pair_key b) = true ->
                tuple_lt (pair_key a) (pair_key b) = false) ->
             map (fun l => (lead l, Match l))
               (List.filter (fun l => P (lead_key l)) (rows res))
             = List.filter (fun rm => P (pair_key rm)) (concat frames))
         /\ (forall k : sort_tuple,
               tuple_not_nan k ->
               map (fun l => (lead l, Match l))
                 (List.filter (fun l => tied (lead_key l) k) (rows res))
               = List.filter (fun rm => tied (pair_key rm) k)
                   (concat frames))
     | _, _ => records = []
     end.
Proof.
  split.
  - intros Q QS. apply strong_leads_order.
  - destruct records as [|r rs]; [reflexivity|].
    rewrite (lead_frames_created (QS := generic_quicksort_spec)).
    destruct (get_strong_leads_created (QS := generic_quicksort_spec) r rs)
      as (res & -> & ->).
    intros Hlen. split.
    + intros P HP. now apply strong_leads_rows_ties.
    + intros k Hk.
      apply (strong_leads_rows_ties (r :: rs) (fun t => tied t k) Hlen).
      intros a b _ _ Ha Hb. exact (tied_class _ _ k Hk Ha Hb).
Qed.

End StrongLeadsTies.

(** ** Alert evaluation *)

Section Alerts.
Import Pandas AlertService.
Context {Date : Type}.
Variable previous_day : string -> string -> Date -> option PyFloat.float.
Variable send : NotificationChannel -> PriceAlert -> string -> bool.

Lemma percent_change_of_spec current previous :
  percent_change_of (PyFloat.sub current previous) previous
  = spec_percent_change current previous.
Proof.
  unfold percent_change_of, spec_percent_change, PyFloat.ne, PyFloat.eq.
  now destruct (SFeqb previous PyFloat.zero).
Qed.

Lemma require_all_where (f : Commodity -> bool) labels data :
  Forall (fun l => has_column data l = true) labels ->
  require_all labels (where_ f data) = Ok ().
Proof.
  intros H. unfold require_all. rewrite filter_none; [reflexivity|].
  intros l Hl. rewrite Forall_forall in H.
  apply negb_false_iff. apply (H l). now apply list_elem_of_In.
Qed.

Lemma subscription_alert_unfold subscription data current_date :
  has_column data "Name" = true ->
  subscription_alert previous_day subscription data current_date
  = match matching_rows subscription data with
    | [] => Ok None
    | current_row :: _ =>
        _ ← require_all ["Asset"] data;
        match previous_day (sub_commodity_name subscription)
                (asset current_row) current_date with
        | None => Ok None
        | Some previous =>
            _ ← require_all ["Price"] data;
            match evaluate subscription current_row previous with
            | Some alert =>
                _ ← require_all ["Daily %"; "Weekly %"; "Date"] data;
                Ok (Some alert)
            | None => Ok None
            end
        end
    end.
Proof.
  intros Hname. unfold subscription_alert, current_commodity, column.
  rewrite Hname. reflexivity.
Qed.

(** C9: the percent change is the price change over the previous price
    times one hundred, and zero when the previous price equals zero; an
    alert is made if and only if the absolute percent change is at least
    the threshold of the subscription, and it carries these values; when
    no previous price is found, the round makes no alert and counts no
    notification. *)
Theorem C9_alert_threshold (subscription : Subscription)
    (current_row : Commodity) (previous : PyFloat.float) :
  let pct := spec_percent_change (price current_row) previous in
  (is_Some (evaluate subscription current_row previous)
   <-> PyFloat.ge (PyFloat.abs pct) (min_percent_change subscription) = true)
  /\ (forall alert,
        evaluate subscription current_row previous = Some alert ->
        percent_change alert = pct
        /\ price_change alert = PyFloat.sub (price current_row) previous
        /\ current_price alert = price current_row
        /\ previous_price alert = previous
        /\ commodity_name alert = name current_row
        /\ asset_type alert = asset current_row)
  /\ (forall data current_date rest,
        Forall (fun l => has_column data l = true) alert_columns ->
        matching_rows subscription data = current_row :: rest ->
        previous_day (sub_commodity_name subscription) (asset current_row)
          current_date = Some previous ->
        subscription_alert previous_day subscription data current_date
        = Ok (evaluate subscription current_row previous))
  /\ (forall data current_date,
        (forall a, previous_day (sub_commodity_name subscription) a
                     current_date = None) ->
        (forall alert,
            subscription_alert previous_day subscription data current_date
            <> Ok (Some alert))
        /\ forall channels sent,
             check_and_send_alerts previous_day send [subscription] channels
               data current_date = Ok sent ->
             sent = O).
Proof.
  cbv zeta. rewrite <- percent_change_of_spec.
  split; [|split; [|split]].
  - unfold evaluate. destruct (PyFloat.ge _ _); split; intros H;
      try reflexivity; try discriminate; eauto.
    destruct H as [x Hx]. discriminate.
  - intros alert H. unfold evaluate in H.
    destruct (PyFloat.ge _ _); [|discriminate]. injection H as <-. simpl.
    repeat split.
  - intros data current_date rest Hcols Hrows Hprev.
    rewrite Forall_forall in Hcols.
    assert (Hc : forall l, In l alert_columns -> has_column data l = true)
      by (intros l Hl; apply Hcols; now apply list_elem_of_In).
    rewrite subscription_alert_unfold by (apply Hc; simpl; auto).
    rewrite Hrows, Hprev.
    unfold require_all.
    rewrite !filter_none;
      try (intros l Hl; apply negb_false_iff, Hc; simpl in *; tauto).
    cbn [mbind result_bind].
    now destruct (evaluate _ _ _).
  - intros data current_date Hnone.
    assert (Hno : forall alert,
               subscription_alert previous_day subscription data current_date
               <> Ok (Some alert)).
    { intros alert. unfold subscription_alert.
      destruct (current_commodity subscription data) as [m|e];
        cbn [mbind result_bind]; [|discriminate].
      destruct (rows m) as [|row rest]; [discriminate|].
      destruct (require_all ["Asset"] m); cbn [mbind result_bind];
        [|discriminate].
      rewrite Hnone. discriminate. }
    split; [exact Hno|].
    intros channels sent. cbn [check_and_send_alerts].
    destruct (subscription_alert _ _ _ _) as [[alert|]|e] eqn:E;
      cbn [mbind result_bind]; try discriminate.
    + now destruct (Hno alert).
    + intros H. now injection H as <-.
Qed.

(** C10: the rows used for a subscription are those whose name equals the
    subscribed name once both are put in lower case; when there is none,
    the round ends without alert and counts no notification; when there
    are several, the alert is computed from the first of them alone. *)
Theorem C10_subscription_matching (subscription : Subscription)
    (data : DataFrame Commodity) (current_date : Date) :
  Forall (fun l => has_column data l = true) alert_columns ->
  current_commodity subscription data
  = Ok {| columns := columns data; rows := matching_rows subscription data |}
  /\ (forall r, In r (matching_rows subscription data)
                <-> In r (rows data)
                    /\ PyStr.lower (name r)
                       = PyStr.lower (sub_commodity_name subscription))
  /\ (matching_rows subscription data = [] ->
      subscription_alert previous_day subscription data current_date = Ok None
      /\ forall channels,
           check_and_send_alerts previous_day send [subscription] channels
             data current_date = Ok O)
  /\ (forall first rest,
        matching_rows subscription data = first :: rest ->
        subscription_alert previous_day subscription data current_date
        = match previous_day (sub_commodity_name subscription) (asset first)
                  current_date with
          | Some previous => Ok (evaluate subscription first previous)
          | None => Ok None
          end).
Proof.
  intros Hcols. rewrite Forall_forall in Hcols.
  assert (Hc : forall l, In l alert_columns -> has_column data l = true)
    by (intros l Hl; apply Hcols; now apply list_elem_of_In).
  assert (Hname : has_column data "Name" = true) by (apply Hc; simpl; auto).
  split; [|split; [|split]].
  - unfold current_commodity, column. now rewrite Hname.
  - intros r. unfold matching_rows. now rewrite filter_In, String.eqb_eq.
  - intros Hnone.
    assert (E : subscription_alert previous_day subscription data current_date
                = Ok None)
      by (rewrite subscription_alert_unfold by exact Hname; now rewrite Hnone).
    split; [exact E|]. intros channels. cbn [check_and_send_alerts].
    now rewrite E.
  - intros first rest Hrows.
    rewrite subscription_alert_unfold by exact Hname. rewrite Hrows.
    unfold require_all.
    rewrite !filter_none;
      try (intros l Hl; apply negb_false_iff, Hc; simpl in *; tauto).
    cbn [mbind result_bind].
    destruct (previous_day _ _ _) as [previous|]; [|reflexivity].
    now destruct (evaluate _ _ _).
Qed.

End Alerts.

(** * Further properties of the code *)

(** ** Strings *)

Section Strings.

Lemma str_chars s : PyStr.str (PyStr.chars s) = s.
Proof. apply string_of_list_ascii_of_string. Qed.

Lemma chars_str cs : PyStr.chars (PyStr.str cs) = cs.
Proof. apply list_ascii_of_string_of_list_ascii. Qed.

Lemma str_app a b : PyStr.str (a ++ b) = PyStr.str a +:+ PyStr.str b.
Proof.
  rewrite <- (str_chars (PyStr.str a +:+ PyStr.str b)).
  now rewrite chars_app, !chars_str.
Qed.

Lemma break_at_Some sep cs a b :
  PyStr.break_at sep cs = Some (a, b) -> cs = a ++ sep :: b /\ ~ In sep a.
Proof.
  revert a. induction cs as [|c cs IH]; intros a; simpl; [discriminate|].
  destruct (Ascii.eqb c sep) eqn:E.
  - apply Ascii.eqb_eq in E as ->. intros [= <- <-]. simpl. tauto.
  - destruct (PyStr.break_at sep cs) as [[a' b']|]; [|discriminate].
    intros [= <- <-]. destruct (IH a' eq_refl) as [-> Hn].
    split; [reflexivity|]. intros [->|H]; [|tauto].
    now rewrite Ascii.eqb_refl in E.
Qed.

Lemma break_at_None sep cs : PyStr.break_at sep cs = None <-> ~ In sep cs.
Proof.
  induction cs as [|c cs IH]; simpl; [tauto|].
  destruct (Ascii.eqb c sep) eqn:E.
  - apply Ascii.eqb_eq in E as ->. split; [discriminate|tauto].
  - apply Ascii.eqb_neq in E.
    destruct (PyStr.break_at sep cs) as [[a b]|].
    + split; [discriminate|]. intros H. exfalso. apply H. right.
      destruct IH as [_ IH]. destruct (in_dec ascii_dec sep cs); [assumption|].
      now specialize (IH n).
    + split; [|reflexivity]. intros _ [H|H]; [congruence|].
      now apply IH in H.
Qed.

(** [rsplit] at the last separator: the two parts put the text together
    again, and the second holds no separator. *)
Lemma rsplit1_spec sep s :
  (In sep (PyStr.chars s) ->
   exists a b, PyStr.rsplit1 sep s = [a; b]
               /\ s = a +:+ String sep "" +:+ b
               /\ ~ In sep (PyStr.chars b))
  /\ (~ In sep (PyStr.chars s) -> PyStr.rsplit1 sep s = [s]).
Proof.
  unfold PyStr.rsplit1.
  destruct (PyStr.break_at sep (rev (PyStr.chars s))) as [[a b]|] eqn:E.
  - apply break_at_Some in E as [E Hn]. split.
    + intros _. exists (PyStr.str (rev b)), (PyStr.str (rev a)).
      split; [reflexivity|]. split.
      * rewrite <- (str_chars s) at 1.
        rewrite <- (rev_involutive (PyStr.chars s)), E.
        rewrite rev_app_distr. cbn [rev]. rewrite <- app_assoc. cbn [app].
        rewrite str_app.
        change (sep :: rev a) with ([sep] ++ rev a). now rewrite str_app.
      * rewrite chars_str. intros H. apply Hn. now apply in_rev.
    + intros H. exfalso. apply H. apply in_rev. rewrite E.
      apply in_or_app. right. now left.
  - apply break_at_None in E. split; [|reflexivity].
    intros H. exfalso. apply E. now apply in_rev in H.
Qed.

Lemma lstrip_head cs c r :
  PyStr.lstrip cs = c :: r -> PyStr.is_space c = false.
Proof.
  induction cs as [|x cs IH]; simpl; [discriminate|].
  destruct (PyStr.is_space x) eqn:E; [assumption|].
  now intros [= <- <-].
Qed.

(** A stripped text that is not empty does not end with white space. *)
Lemma strip_chars_last cs c r :
  PyStr.strip_chars cs = r ++ [c] -> PyStr.is_space c = false.
Proof.
  unfold PyStr.strip_chars, PyStr.rstrip. intros H.
  apply (f_equal (@rev ascii)) in H.
  rewrite rev_involutive, rev_app_distr in H. simpl in H.
  exact (lstrip_head _ _ _ H).
Qed.

End Strings.

(** ** Names and units *)

Section NameUnit.
Import Soup TableParser.

Lemma _split_name_unit_spec (text : string) :
  ~ In " "%char (PyStr.chars (snd (_split_name_unit text)))
  /\ (In " "%char (PyStr.chars text) ->
      text = fst (_split_name_unit text) +:+ " " +:+ snd (_split_name_unit text))
  /\ (~ In " "%char (PyStr.chars text) -> _split_name_unit text = (text, "")).
Proof.
  unfold _split_name_unit.
  destruct (rsplit1_spec " " text) as [Hyes Hno].
  destruct (in_dec ascii_dec " "%char (PyStr.chars text)) as [Hin|Hout].
  - destruct (Hyes Hin) as (a & b & -> & Htext & Hb). cbn [fst snd].
    split; [assumption|]. split; [intros _; exact Htext|tauto].
  - rewrite (Hno Hout). cbn [fst snd]. split; [simpl; tauto|].
    split; [tauto|reflexivity].
Qed.

(** [_split_name_unit] splits at the last space: the unit holds no
    space, name, space and unit put the text together again, and a text
    without a space is the name, with an empty unit. *)
Theorem split_name_unit_joins_back (text : string) :
  let r := _split_name_unit text in
  ~ In " "%char (PyStr.chars (snd r))
  /\ (In " "%char (PyStr.chars text) -> text = fst r +:+ " " +:+ snd r)
  /\ (~ In " "%char (PyStr.chars text) -> r = (text, "")).
Proof. exact (_split_name_unit_spec text). Qed.

(** The name and the unit of a cell: with two text pieces or more, the
    first two; with one, the piece split at its last space, where the
    unit is not empty; with none, two empty texts. *)
Theorem split_name_unit_from_cell_policy (cell : PageElement) :
  let r := _split_name_unit_from_cell cell in
  match stripped_strings cell with
  | [] => r = ("", "")
  | [t] =>
      ~ In " "%char (PyStr.chars (snd r))
      /\ (In " "%char (PyStr.chars t) ->
          t = fst r +:+ " " +:+ snd r /\ snd r <> "")
      /\ (~ In " "%char (PyStr.chars t) -> r = (t, ""))
  | n :: u :: _ => r = (n, u)
  end.
Proof.
  cbv zeta. unfold _split_name_unit_from_cell.
  change (List.filter (fun t => negb (String.eqb t ""))
            (map PyStr.strip (find_all_text cell)))
    with (stripped_strings cell).
  destruct (stripped_strings cell) as [|t [|u l]] eqn:E; [reflexivity| |reflexivity].
  change (match PyStr.rsplit1 " " t with
          | [a; b] => (a, b)
          | _ => (t, "")
          end) with (_split_name_unit t).
  destruct (_split_name_unit_spec t) as (H1 & H2 & H3).
  split; [assumption|]. split; [|assumption].
  intros Hin. split; [now apply H2|].
  intros Hempty.
  assert (Ht : In t (stripped_strings cell)) by (rewrite E; now left).
  apply filter_In in Ht as [Ht _]. apply in_map_iff in Ht as (t0 & <- & _).
  specialize (H2 Hin). rewrite Hempty in H2.
  apply (f_equal PyStr.chars) in H2. unfold PyStr.strip in H2.
  rewrite !chars_app, chars_str in H2.
  change (PyStr.chars " " ++ PyStr.chars "") with [" "%char] in H2.
  apply strip_chars_last in H2. discriminate.
Qed.

End NameUnit.

(** ** Records and categories of a document *)

Section Categories.
Import Soup TableParser.

Lemma is_column_label_true t : is_column_label t = true -> In t column_labels.
Proof.
  unfold is_column_label. rewrite existsb_exists.
  intros (x & Hx & E). apply String.eqb_eq in E. now subst.
Qed.

Lemma classify_DataRow row cols :
  classify row = DataRow cols -> (8 <= length cols)%nat.
Proof.
  unfold classify. destruct (find "th" row); [discriminate|].
  destruct (8 <=? length (find_all "td" row))%nat eqn:E; [|discriminate].
  intros [= <-]. now apply Nat.leb_le.
Qed.

(** What one round of the loop does, by the kind of the row. *)
Lemma step_cases st row :
  (is_data_row row = true
   /\ exists c, step st row
                = {| commodities := commodities st ++ [c];
                     current_asset_category := current_asset_category st |}
                /\ asset c = current_asset_category st)
  \/ (is_data_row row = false
      /\ commodities (step st row) = commodities st
      /\ current_asset_category (step st row)
         = match category_header row with
           | Some t => t
           | None => current_asset_category st
           end).
Proof.
  unfold is_data_row, category_header, step.
  destruct (classify row) as [header|cols|] eqn:E.
  - right. split; [reflexivity|].
    destruct (negb (String.eqb (get_text_strip header) "")
              && negb (is_column_label (get_text_strip header)));
      split; reflexivity.
  - left. split; [reflexivity|].
    destruct (_parse_row_Some cols (current_asset_category st)
                (classify_DataRow _ _ E)) as (c & -> & Hc).
    now exists c.
  - right. repeat split.
Qed.

Lemma category_header_ok row t :
  category_header row = Some t -> t <> "" /\ ~ In t column_labels.
Proof.
  unfold category_header. destruct (classify row) as [header| |]; try discriminate.
  destruct (String.eqb (get_text_strip header) "") eqn:E1; [discriminate|].
  destruct (is_column_label (get_text_strip header)) eqn:E2; [discriminate|].
  cbn. intros [= <-]. split.
  - intros H. rewrite H in E1. discriminate.
  - intros H. apply is_column_label_In in H. congruence.
Qed.

(** The records that the loop adds: one for each data row, each with
    the category in force at the start or one set by a row. *)
Lemma parse_rows_records rows st :
  exists new,
    commodities (parse_rows st rows) = commodities st ++ new
    /\ length new = length (List.filter is_data_row rows)
    /\ Forall (fun c =>
                 asset c = current_asset_category st
                 \/ exists row, In row rows
                                /\ category_header row = Some (asset c))
              new.
Proof.
  revert st. induction rows as [|row rows IH]; intros st.
  - exists []. cbn. rewrite app_nil_r. repeat split. constructor.
  - change (parse_rows st (row :: rows)) with (parse_rows (step st row) rows).
    destruct (IH (step st row)) as (new & Hnew & Hlen & Hall).
    destruct (step_cases st row) as [(Hd & c & Hs & Hc)|(Hd & Hs & Hcat)].
    + exists (c :: new). rewrite Hnew, Hs. cbn [commodities].
      rewrite <- app_assoc. split; [reflexivity|].
      cbn [List.filter]. rewrite Hd. split; [cbn; now rewrite Hlen|].
      constructor; [now left|].
      rewrite Hs in Hall. cbn in Hall.
      eapply Forall_impl; [exact Hall|]. cbn.
      intros x [Hx|(r & Hr & Hx)]; [now left|].
      right. exists r. split; [now right|assumption].
    + exists new. rewrite Hnew, Hs. split; [reflexivity|].
      cbn [List.filter]. rewrite Hd. split; [assumption|].
      eapply Forall_impl; [exact Hall|]. cbn.
      intros x [Hx|(r & Hr & Hx)].
      * rewrite Hcat in Hx.
        destruct (category_header row) as [t|] eqn:Et; [|now left].
        right. exists row. split; [now left|]. now rewrite Hx.
      * right. exists r. split; [now right|assumption].
Qed.

(** The document gives one record for each row without a label cell
    and with eight data cells or more; the category of a record is
    [Unknown] or the text of a header row of the document, and it is
    never empty and never a column label. *)
Theorem parse_tables_records (soup : PageElement) :
  length (parse_tables soup)
  = length (List.filter is_data_row (find_all "tr" soup))
  /\ Forall (fun c =>
               (asset c = "Unknown"
                \/ exists row, In row (find_all "tr" soup)
                               /\ category_header row = Some (asset c))
               /\ asset c <> "" /\ ~ In (asset c) column_labels)
            (parse_tables soup).
Proof.
  unfold parse_tables.
  destruct (parse_rows_records (find_all "tr" soup) init)
    as (new & -> & Hlen & Hall).
  cbn [commodities init app]. split; [assumption|].
  eapply Forall_impl; [exact Hall|]. cbn.
  intros c H. split; [exact H|].
  destruct H as [H|(row & _ & H)].
  - rewrite H. split; [discriminate|].
    cbv [column_labels In]. intros Hin.
    repeat (destruct Hin as [Hin|Hin]; [discriminate|]). exact Hin.
  - exact (category_header_ok _ _ H).
Qed.

Lemma parse_rows_block st block :
  Forall (fun r => is_header_row r = false) block ->
  exists new,
    parse_rows st block
    = {| commodities := commodities st ++ new;
         current_asset_category := current_asset_category st |}
    /\ length new = length (List.filter is_data_row block)
    /\ Forall (fun c => asset c = current_asset_category st) new.
Proof.
  intros Hb. revert st. induction Hb as [|row block Hrow _ IH]; intros st.
  - exists []. cbn. rewrite app_nil_r. destruct st. repeat split. constructor.
  - change (parse_rows st (row :: block)) with (parse_rows (step st row) block).
    destruct (IH (step st row)) as (new & Hnew & Hlen & Hall).
    assert (Hnone : category_header row = None).
    { unfold category_header. unfold is_header_row in Hrow.
      now destruct (classify row). }
    destruct (step_cases st row) as [(Hd & c & Hs & Hc)|(Hd & Hs & Hcat)].
    + exists (c :: new). rewrite Hnew, Hs. cbn [commodities current_asset_category].
      rewrite <- app_assoc. split; [reflexivity|].
      cbn [List.filter]. rewrite Hd. split; [cbn; now rewrite Hlen|].
      constructor; [assumption|]. now rewrite Hs in Hall.
    + rewrite Hnone in Hcat.
      exists new. rewrite Hnew, Hs, Hcat. split; [reflexivity|].
      cbn [List.filter]. rewrite Hd. split; [assumption|].
      now rewrite Hcat in Hall.
Qed.

(** The records of the data rows between a category header and the next
    header row all carry the category of the header; they follow the
    records of the rows before the header and precede those of the rows
    after the block. *)
Theorem category_block (soup header : PageElement)
    (before block after : list PageElement) (category : string) :
  find_all "tr" soup = before ++ header :: block ++ after ->
  category_header header = Some category ->
  Forall (fun r => is_header_row r = false) block ->
  exists recs_before recs_block recs_after,
    parse_tables soup = recs_before ++ recs_block ++ recs_after
    /\ length recs_before = length (List.filter is_data_row before)
    /\ length recs_block = length (List.filter is_data_row block)
    /\ length recs_after = length (List.filter is_data_row after)
    /\ Forall (fun c => asset c = category) recs_block.
Proof.
  intros Hrows Hcat Hblock. unfold parse_tables. rewrite Hrows.
  rewrite parse_rows_app.
  change (parse_rows ?s (header :: ?l)) with (parse_rows (step s header) l).
  rewrite parse_rows_app.
  destruct (parse_rows_records before init) as (r1 & H1 & L1 & _).
  cbn [commodities init app] in H1.
  set (st1 := parse_rows init before) in *.
  destruct (step_cases st1 header) as [(Hd & _)|(Hd & Hs & Hc)].
  { unfold is_data_row in Hd. unfold category_header in Hcat.
    destruct (classify header); discriminate. }
  rewrite Hcat in Hc.
  destruct (parse_rows_block (step st1 header) block Hblock)
    as (r2 & H2 & L2 & A2).
  rewrite Hc in A2.
  destruct (parse_rows_records after (parse_rows (step st1 header) block))
    as (r3 & H3 & L3 & _).
  exists r1, r2, r3. rewrite H3, H2. cbn [commodities].
  rewrite Hs, H1, <- app_assoc. repeat split; assumption.
Qed.

End Categories.

(** ** Dates of the calendar *)

Section Dates.
Import TableParser PyDatetime.

Lemma lower_char_cases c :
  c = PyStr.lower_char c
  \/ c = ascii_of_N (PyStr.code (PyStr.lower_char c) - 32).
Proof.
  destruct c as [[] [] [] [] [] [] [] []];
    first [left; reflexivity | right; reflexivity].
Qed.

Lemma spellings_complete cs l :
  map PyStr.lower_char l = cs -> In l (spellings cs).
Proof.
  revert cs. induction l as [|c l IH]; intros cs <-; [now left|].
  cbn [map spellings]. apply in_flat_map.
  exists c. split.
  - destruct (lower_char_cases c) as [H|H]; [left|right; left]; now rewrite <- H.
  - apply in_map. now apply IH.
Qed.

Lemma index_of_combine w l i k :
  index_of w l i = Some k ->
  In (w, k) (combine l (map N.of_nat (seq (N.to_nat i) (length l)))).
Proof.
  revert i. induction l as [|x l IH]; intros i; cbn; [discriminate|].
  destruct (String.eqb x w) eqn:E.
  - apply String.eqb_eq in E as ->. intros [= <-]. left.
    now rewrite N2Nat.id.
  - intros H. right. apply IH in H.
    replace (N.to_nat (i + 1)) with (S (N.to_nat i)) in H by lia.
    exact H.
Qed.

Lemma month_spellings_complete mon m :
  index_of (PyStr.lower mon) a_month 1 = Some m ->
  In (mon, m) month_spellings.
Proof.
  intros H. apply index_of_combine in H.
  unfold month_spellings. apply in_flat_map.
  exists (PyStr.lower mon, m). split; [exact H|].
  cbn [fst snd]. apply in_map_iff. exists (PyStr.chars mon).
  split; [now rewrite str_chars|].
  apply spellings_complete. unfold PyStr.lower.
  now rewrite chars_str.
Qed.

Lemma month_days_complete d : (1 <= d <= 31)%N -> In d month_days.
Proof.
  intros H. unfold month_days. apply in_map_iff.
  exists (N.to_nat d). split; [apply N2Nat.id|].
  apply in_seq. lia.
Qed.

Lemma calendar_table :
  forallb (fun wm : string * N =>
             forallb (calendar_ok (fst wm) (snd wm)) month_days)
    month_spellings = true.
Proof. vm_compute. reflexivity. Qed.

(** A month abbreviation in any letter case and a day number from 1 to
    31, with or without a leading zero: the date of 2025 in the form
    [yyyy/mm/dd] when the month has such a day, and the text as it is
    when it has not. *)
Theorem parse_date_calendar (mon day : string) (m d : N) :
  index_of (PyStr.lower mon) a_month 1 = Some m ->
  (1 <= d <= 31)%N ->
  day = decimal d \/ day = pad2 d ->
  _parse_date (mon +:+ "/" +:+ day)
  = if (d <=? days_in_month 2025 m)%N
    then "2025/" +:+ pad2 m +:+ "/" +:+ pad2 d
    else mon +:+ "/" +:+ day.
Proof.
  intros Hm Hd Hday.
  pose proof calendar_table as T.
  rewrite forallb_forall in T.
  specialize (T _ (month_spellings_complete _ _ Hm)). cbn [fst snd] in T.
  rewrite forallb_forall in T.
  specialize (T _ (month_days_complete _ Hd)).
  unfold calendar_ok in T. rewrite forallb_forall in T.
  apply String.eqb_eq. apply T.
  destruct Hday as [->| ->]; [now left|right; now left].
Qed.

End Dates.

Section DateNormalForm.
Import TableParser PyDatetime.

Lemma index_of_range w l i k :
  index_of w l i = Some k -> (i <= k < i + N.of_nat (length l))%N.
Proof.
  revert i. induction l as [|x l IH]; intros i; cbn [index_of length];
    [discriminate|].
  destruct (String.eqb x w).
  - intros [= <-]. lia.
  - intros H. apply IH in H. lia.
Qed.

Lemma lstrip_suffix cs : exists p, cs = p ++ PyStr.lstrip cs.
Proof.
  induction cs as [|c cs [p IH]]; [now exists []|]. cbn.
  destruct (PyStr.is_space c); [|now exists []].
  exists (c :: p). cbn. now rewrite <- IH.
Qed.

Lemma match_b_suffix cs m r :
  match_b cs = Some (m, r) -> (1 <= m <= 12)%N /\ exists p, cs = p ++ r.
Proof.
  destruct cs as [|a [|b [|c rest]]]; try discriminate.
  unfold match_b.
  destruct (index_of _ a_month 1) as [k|] eqn:E; [|discriminate].
  intros [= <- <-]. apply index_of_range in E. cbn in E.
  split; [lia|]. now exists [a; b; c].
Qed.

Lemma match_spaces_suffix cs r :
  match_spaces cs = Some r -> exists p, cs = p ++ r.
Proof.
  destruct cs as [|c cs]; [discriminate|]. unfold match_spaces.
  destruct (PyStr.is_space c); [|discriminate].
  intros [= <-]. apply lstrip_suffix.
Qed.

Lemma nonzero_digit a :
  PyStr.is_digit a && negb (Ascii.eqb a "0") = true ->
  (1 <= PyStr.digit_value a)%N.
Proof.
  destruct a as [[] [] [] [] [] [] [] []]; cbn; try discriminate;
    intros _; vm_compute; discriminate.
Qed.

Lemma match_d_suffix cs d r :
  match_d cs = Some (d, r) -> (1 <= d)%N /\ exists p, cs = p ++ r.
Proof.
  unfold match_d.
  assert (Hone : match cs with
                 | [] => None
                 | a :: rest =>
                     if PyStr.is_digit a && negb (Ascii.eqb a "0")
                     then Some (PyStr.digit_value a, rest) else None
                 end = Some (d, r) ->
                 (1 <= d)%N /\ exists p, cs = p ++ r).
  { destruct cs as [|a rest]; [discriminate|].
    destruct (PyStr.is_digit a && negb (Ascii.eqb a "0")) eqn:E;
      [|discriminate].
    intros [= <- <-]. split; [now apply nonzero_digit|]. now exists [a]. }
  destruct cs as [|a [|b rest]]; [discriminate|exact Hone|].
  destruct (PyStr.is_digit a && PyStr.is_digit b); [|exact Hone].
  destruct ((1 <=? PyStr.digit_value a * 10 + PyStr.digit_value b)
            && (PyStr.digit_value a * 10 + PyStr.digit_value b <=? 31))%N
    eqn:E; [|exact Hone].
  intros [= <- <-]. apply andb_true_iff in E as [E _].
  apply N.leb_le in E. split; [assumption|]. now exists [a; b].
Qed.

Lemma match_Y_end cs y :
  match_Y cs = Some (y, []) ->
  exists a b c d,
    cs = [a; b; c; d]
    /\ y = (((PyStr.digit_value a * 10 + PyStr.digit_value b) * 10
             + PyStr.digit_value c) * 10 + PyStr.digit_value d)%N.
Proof.
  destruct cs as [|a [|b [|c [|d rest]]]]; try discriminate.
  unfold match_Y.
  destruct (PyStr.is_digit a && PyStr.is_digit b && PyStr.is_digit c
            && PyStr.is_digit d); [|discriminate].
  intros [= <- <-]. now exists a, b, c, d.
Qed.

(** A text that ends with the year 2025 is read as a day of that
    year. *)
Lemma strptime_2025 t dt :
  strptime_b_d_Y (t +:+ " 2025") = Ok dt ->
  year dt = 2025%N
  /\ (1 <= month dt <= 12)%N
  /\ (1 <= day dt <= days_in_month 2025 (month dt))%N.
Proof.
  unfold strptime_b_d_Y.
  destruct (match_b (PyStr.chars (t +:+ " 2025"))) as [[m r1]|] eqn:Eb;
    [|discriminate].
  cbn [mbind option_bind].
  destruct (match_spaces r1) as [r2|] eqn:E1; [|discriminate].
  cbn [mbind option_bind].
  destruct (match_d r2) as [[d r3]|] eqn:Ed; [|discriminate].
  cbn [mbind option_bind].
  destruct (match_spaces r3) as [r4|] eqn:E2; [|discriminate].
  cbn [mbind option_bind].
  destruct (match_Y r4) as [[y r5]|] eqn:EY; [|discriminate].
  cbn [mbind option_bind].
  destruct r5 as [|x r5]; [|discriminate].
  cbn [year month day].
  destruct ((1 <=? y) && (d <=? days_in_month y m))%N eqn:Ec; [|discriminate].
  intros [= <-]. cbn [year month day].
  apply match_b_suffix in Eb as [Hm [p1 H1]].
  apply match_spaces_suffix in E1 as [p2 H2].
  apply match_d_suffix in Ed as [Hd [p3 H3]].
  apply match_spaces_suffix in E2 as [p4 H4].
  apply match_Y_end in EY as (a & b & c & e & HY & Hy).
  assert (Hend : [a; b; c; e] = PyStr.chars "2025").
  { rewrite chars_app in H1. subst r1 r2 r3 r4.
    change (PyStr.chars " 2025") with ([" "%char] ++ PyStr.chars "2025") in H1.
    rewrite !app_assoc in H1.
    apply app_inj_2 in H1; [|reflexivity]. symmetry. apply H1. }
  injection Hend as -> -> -> ->.
  assert (y = 2025%N) as -> by (rewrite Hy; reflexivity).
  apply andb_true_iff in Ec as [_ Ec]. apply N.leb_le in Ec.
  repeat split; assumption || lia.
Qed.

Lemma normal_date_table :
  forallb (fun m =>
             forallb (fun d =>
                        String.eqb (_parse_date (normal_date m d))
                          (normal_date m d))
               month_days)
    (map N.of_nat (seq 1 12)) = true.
Proof. vm_compute. reflexivity. Qed.

Lemma _parse_date_normal_date m d :
  (1 <= m <= 12)%N -> (1 <= d <= 31)%N ->
  _parse_date (normal_date m d) = normal_date m d.
Proof.
  intros Hm Hd. pose proof normal_date_table as T.
  rewrite forallb_forall in T.
  assert (Hin : In m (map N.of_nat (seq 1 12))).
  { apply in_map_iff. exists (N.to_nat m). split; [apply N2Nat.id|].
    apply in_seq. lia. }
  specialize (T _ Hin). rewrite forallb_forall in T.
  apply String.eqb_eq. apply T. now apply month_days_complete.
Qed.

Lemma days_in_month_le y m : (days_in_month y m <= 31)%N.
Proof.
  unfold days_in_month.
  destruct m as [|[[[[]|[]|]|[[]|[]|]|]|[[[]|[]|]|[[]|[]|]|]|]];
    try destruct (is_leap y); lia.
Qed.

Lemma _parse_date_cases s :
  _parse_date s = ""
  \/ _parse_date s = s
  \/ exists m d,
       (1 <= m <= 12)%N /\ (1 <= d <= days_in_month 2025 m)%N
       /\ _parse_date s = normal_date m d.
Proof.
  unfold _parse_date.
  destruct (String.eqb s "" || String.eqb (PyStr.strip s) ""); [now left|].
  unfold _parse_date_body.
  destruct (length (PyStr.split "/" (PyStr.strip s)) =? 2)%nat;
    [|right; now left].
  destruct (getitem (PyStr.split "/" (PyStr.strip s)) 0) as [month_str|];
    [|right; now left].
  cbn [mbind result_bind].
  destruct (getitem (PyStr.split "/" (PyStr.strip s)) 1) as [day_str|];
    [|right; now left].
  cbn [mbind result_bind].
  destruct (strptime_b_d_Y (month_str +:+ " " +:+ day_str +:+ " " +:+ "2025"))
    as [dt|] eqn:E; [|right; now left].
  cbn [mbind result_bind]. right. right.
  assert (E' : strptime_b_d_Y ((month_str +:+ " " +:+ day_str) +:+ " 2025")
               = Ok dt).
  { rewrite <- E. f_equal.
    rewrite <- (str_chars ((month_str +:+ " " +:+ day_str) +:+ " 2025")).
    rewrite <- (str_chars (month_str +:+ " " +:+ day_str +:+ " " +:+ "2025")).
    f_equal. rewrite !chars_app, <- !app_assoc. reflexivity. }
  apply strptime_2025 in E' as (Hy & Hm & Hd).
  exists (month dt), (day dt). repeat split; try lia.
  unfold strftime_Y_m_d, normal_date. now rewrite Hy.
Qed.

(** The result of [_parse_date] is the empty text, the text as it was
    given, or a day of the calendar of 2025 in the form [yyyy/mm/dd]. *)
Theorem parse_date_normal_form (s : string) :
  _parse_date s = ""
  \/ _parse_date s = s
  \/ exists m d,
       (1 <= m <= 12)%N /\ (1 <= d <= days_in_month 2025 m)%N
       /\ _parse_date s = "2025/" +:+ pad2 m +:+ "/" +:+ pad2 d.
Proof. exact (_parse_date_cases s). Qed.

(** A date that [_parse_date] has put in its normal form stays as it is
    when it is parsed again. *)
Theorem parse_date_idempotent (s : string) :
  _parse_date (_parse_date s) = _parse_date s.
Proof.
  destruct (_parse_date_cases s) as [H|[H|(m & d & Hm & Hd & H)]].
  - rewrite H. reflexivity.
  - now rewrite H.
  - rewrite H. apply _parse_date_normal_date; [assumption|].
    pose proof (days_in_month_le 2025 m). lia.
Qed.

End DateNormalForm.

(** ** Rankings by one column *)

Section Rankings.
Import Pandas CommodityDataManager.
Context {Q : Numpy.Quicksort} {QS : Numpy.QuicksortSpec Q}.

Lemma float_not_lt_le x y :
  PyFloat.is_nan x = false -> PyFloat.is_nan y = false ->
  PyFloat.lt x y = false -> PyFloat.le y x = true.
Proof.
  intros Hx Hy H. apply float_le_iff; [assumption..|].
  destruct (lex3_lt_total (float_code x) (float_code y)) as [L|[E|L]].
  - apply float_lt_iff in L; [congruence|assumption..].
  - now right.
  - now left.
Qed.

Lemma float_lt_neg x y :
  PyFloat.is_nan x = false -> PyFloat.is_nan y = false ->
  PyFloat.lt (PyFloat.neg x) (PyFloat.neg y) = PyFloat.lt y x.
Proof.
  intros Hx Hy. apply eq_true_iff_eq.
  rewrite !float_lt_iff by (rewrite ?is_nan_neg; assumption).
  rewrite !float_code_neg.
  destruct (float_code x) as [[a1 a2] a3], (float_code y) as [[b1 b2] b3].
  simpl. lia.
Qed.

Lemma by_key_strict_weak {R} (key : R -> PyFloat.float) (l : list R) :
  (forall r, In r l -> PyFloat.is_nan (key r) = false) ->
  Numpy.strict_weak_on (fun a b => PyFloat.lt (key a) (key b)) l.
Proof.
  intros Hnan.
  pose proof (by_negated_strict_weak key l Hnan) as [I T C].
  split.
  - intros x Hx. rewrite <- (float_lt_neg (key x) (key x)) by auto.
    now apply I.
  - intros x y z Hx Hy Hz.
    rewrite <- (float_lt_neg (key y) (key x)),
            <- (float_lt_neg (key z) (key y)),
            <- (float_lt_neg (key z) (key x)) by auto.
    intros H1 H2. exact (T z y x Hz Hy Hx H2 H1).
  - intros x y z Hx Hy Hz.
    rewrite <- (float_lt_neg (key y) (key x)),
            <- (float_lt_neg (key z) (key y)),
            <- (float_lt_neg (key z) (key x)) by auto.
    intros H1 H2. exact (C z y x Hz Hy Hx H2 H1).
Qed.

Lemma filter_In_not_nan {R} (key : R -> PyFloat.float) rs r :
  In r (List.filter (fun r => negb (PyFloat.is_nan (key r))) rs) ->
  PyFloat.is_nan (key r) = false.
Proof. intros H. apply filter_In in H as [_ H]. now apply negb_true_iff. Qed.

(** Rows in descending order, followed by the rows without a value. *)
Lemma ranked_with_nans {R} (key : R -> PyFloat.float) (sorted nans : list R) :
  (forall r, In r sorted -> PyFloat.is_nan (key r) = false) ->
  (forall r, In r nans -> PyFloat.is_nan (key r) = true) ->
  StronglySorted (fun a b => PyFloat.lt (key a) (key b) = false) sorted ->
  StronglySorted (ranks_before key) (sorted ++ nans).
Proof.
  intros Hs Hn Hsorted. apply StronglySorted_app_2.
  - intros a b _ Hb. left. apply Hn. now apply list_elem_of_In.
  - eapply StronglySorted_In_impl; [|exact Hsorted].
    intros a b Ha Hb H. right. split; [now apply Hs|].
    apply float_not_lt_le; auto.
  - clear Hs Hsorted. induction nans as [|x nans IH]; constructor.
    + apply IH. intros r Hr. apply Hn. now right.
    + apply List.Forall_forall. intros b Hb. left. apply Hn. now right.
Qed.

(** The full ranking that [sort_values] yields. *)
Lemma sort_values_desc_ranked {R} (key : R -> PyFloat.float) (rs : list R) :
  StronglySorted (ranks_before key)
    (sort_values_desc PyFloat.lt PyFloat.is_nan key rs).
Proof.
  unfold sort_values_desc.
  set (non_nans := List.filter (fun r => negb (PyFloat.is_nan (key r))) rs).
  assert (Hperm : forall r,
            In r (Numpy.argsort_quicksort
                    (fun a b => PyFloat.lt (key a) (key b)) (rev non_nans)) ->
            In r non_nans).
  { intros r Hr. apply in_rev.
    eapply Permutation_in; [apply Numpy.argsort_perm|exact Hr]. }
  apply ranked_with_nans.
  - intros r Hr. apply in_rev in Hr. apply Hperm in Hr.
    now apply filter_In_not_nan in Hr.
  - intros r Hr. now apply filter_In in Hr as [_ Hr].
  - apply (StronglySorted_rev (fun x y => PyFloat.lt (key y) (key x) = false)).
    apply Numpy.argsort_sorted. apply by_key_strict_weak.
    intros r Hr. apply in_rev in Hr. now apply filter_In_not_nan in Hr.
Qed.

(** The ranking behind the fast path of [nlargest]. *)
Lemma stable_ranked {R} (key : R -> PyFloat.float) (rs : list R) :
  StronglySorted (ranks_before key)
    (Numpy.insertion_sort
       (fun a b => PyFloat.lt (PyFloat.neg (key a)) (PyFloat.neg (key b)))
       (List.filter (fun r => negb (PyFloat.is_nan (key r))) rs)
     ++ List.filter (fun r => PyFloat.is_nan (key r)) rs).
Proof.
  set (non_nans := List.filter (fun r => negb (PyFloat.is_nan (key r))) rs).
  set (by_negated := fun a b =>
         PyFloat.lt (PyFloat.neg (key a)) (PyFloat.neg (key b))).
  assert (Hin : forall r, In r (Numpy.insertion_sort by_negated non_nans) ->
                          PyFloat.is_nan (key r) = false).
  { intros r Hr. eapply Permutation_in in Hr; [|apply insertion_sort_perm].
    now apply filter_In_not_nan in Hr. }
  apply ranked_with_nans.
  - exact Hin.
  - intros r Hr. now apply filter_In in Hr as [_ Hr].
  - eapply StronglySorted_In_impl;
      [|apply (insertion_sort_sorted by_negated), by_negated_strict_weak;
        intros r Hr; now apply filter_In_not_nan in Hr].
    cbn beta. intros a b Ha Hb H. unfold by_negated in H.
    rewrite float_lt_neg in H by auto. exact H.
Qed.

(** [nlargest]: the first [n] rows of a ranking of all the rows. *)
Lemma nlargest_ranked {R} (n : Z) (key : R -> PyFloat.float) (rs : list R) :
  exists ranked,
    Permutation ranked rs
    /\ StronglySorted (ranks_before key) ranked
    /\ nlargest n key rs = take (Z.to_nat n) ranked.
Proof.
  unfold nlargest.
  destruct (n <=? 0) eqn:E0.
  - apply Z.leb_le in E0.
    exists (sort_values_desc PyFloat.lt PyFloat.is_nan key rs).
    split; [apply sort_values_desc_perm|].
    split; [apply sort_values_desc_ranked|].
    replace (Z.to_nat n) with O by lia. reflexivity.
  - destruct (Z.of_nat (length rs) <=? n).
    + exists (sort_values_desc PyFloat.lt PyFloat.is_nan key rs).
      split; [apply sort_values_desc_perm|].
      split; [apply sort_values_desc_ranked|reflexivity].
    + eexists. split; [|split; [apply stable_ranked|reflexivity]].
      rewrite insertion_sort_perm. apply filter_split_perm.
Qed.

End Rankings.

Section TopPerformers.
Import Pandas CommodityDataManager.
Context {Q : Numpy.Quicksort} {QS : Numpy.QuicksortSpec Q}.

Lemma has_column_In {R} (df : DataFrame R) label :
  has_column df label = true <-> In label (columns df).
Proof.
  unfold has_column. rewrite existsb_exists. split.
  - intros (x & Hx & E). apply String.eqb_eq in E. now subst.
  - intros H. exists label. split; [assumption|apply String.eqb_refl].
Qed.

Lemma numeric_or_text label :
  In label commodity_columns ->
  (exists key, numeric_column label = Some key)
  \/ (numeric_column label = None /\ In label text_columns).
Proof.
  intros H. cbv [commodity_columns In] in H.
  repeat (destruct H as [<-|H]; [first [left; eexists; reflexivity
                                       | right; split; [reflexivity|cbv; tauto] ]|]).
  contradiction.
Qed.

Lemma select_Ok {R} labels (df : DataFrame R) :
  incl labels (columns df) ->
  select labels df = Ok {| columns := labels; rows := rows df |}.
Proof.
  intros H. unfold select. rewrite filter_none; [reflexivity|].
  intros l Hl. apply negb_false_iff, has_column_In. now apply H.
Qed.

(** [df.nlargest(n, period)] on a frame built from records. *)
Lemma df_nlargest_created r rs (f : Commodity -> bool) period n :
  df_nlargest n period (where_ f (_create_dataframe (r :: rs)))
  = if has_column (_create_dataframe (r :: rs)) period then
      match numeric_column period with
      | Some key =>
          Ok {| columns := commodity_columns;
                rows := nlargest n key (List.filter f (r :: rs)) |}
      | None => Raise TypeError
      end
    else Raise (KeyError period).
Proof. reflexivity. Qed.

Lemma get_top_performers_created r rs period n :
  get_top_performers period n (_create_dataframe (r :: rs))
  = if has_column (_create_dataframe (r :: rs)) period then
      match numeric_column period with
      | Some key =>
          Ok {| columns := ["Asset"; "Name"; "Price"; period];
                rows := nlargest n key (r :: rs) |}
      | None => Raise TypeError
      end
    else Raise (KeyError period).
Proof.
  unfold get_top_performers, df_nlargest.
  destruct (has_column (_create_dataframe (r :: rs)) period) eqn:E;
    [|reflexivity].
  destruct (numeric_column period) as [key|]; [|reflexivity].
  cbn [mbind result_bind]. rewrite select_Ok; [reflexivity|].
  apply has_column_In in E. cbn [columns _create_dataframe] in *.
  intros l [<-|[<-|[<-|[<-|[]]]]]; cbv; tauto.
Qed.

(** [get_top_performers] gives the first [n] rows of a ranking of all
    records by the column, from the highest value down and with the rows
    without a value last, in the columns Asset, Name, Price and the
    ranked one.  It raises [KeyError] for a label that is no column, as
    every label is when there is no record, and [TypeError] for a column
    of text. *)
Theorem top_performers_ranked (records : list Commodity) (period : string)
    (n : Z) :
  match get_top_performers period n (_create_dataframe records) with
  | Ok res =>
      columns res = ["Asset"; "Name"; "Price"; period]
      /\ exists key ranked,
           numeric_column period = Some key
           /\ Permutation ranked records
           /\ StronglySorted (ranks_before key) ranked
           /\ rows res = take (Z.to_nat n) ranked
  | Raise e =>
      (e = KeyError period
       /\ (records = [] \/ ~ In period commodity_columns))
      \/ (e = TypeError /\ In period text_columns)
  end.
Proof.
  destruct records as [|r rs].
  - left. split; [reflexivity|now left].
  - rewrite get_top_performers_created.
    destruct (has_column (_create_dataframe (r :: rs)) period) eqn:E.
    + apply has_column_In in E. cbn [columns _create_dataframe] in E.
      destruct (numeric_or_text period E) as [[key ->]|[-> Ht]].
      * split; [reflexivity|].
        destruct (nlargest_ranked n key (r :: rs)) as (ranked & P & S & T).
        now exists key, ranked.
      * right. now split.
    + left. split; [reflexivity|]. right. intros H.
      apply (has_column_In (_create_dataframe (r :: rs))) in H. congruence.
Qed.

Lemma filter_filter_impl {A} (P N : A -> bool) (l : list A) :
  (forall x, P x = true -> N x = true) ->
  List.filter P (List.filter N l) = List.filter P l.
Proof.
  intros H. induction l as [|x l IH]; [reflexivity|]. cbn.
  destruct (N x) eqn:En; cbn.
  - now rewrite IH.
  - destruct (P x) eqn:Ep; [|assumption].
    apply H in Ep. congruence.
Qed.

(** The fast path of [nlargest] keeps rows of equal value in row
    order. *)
Lemma nlargest_ties {R} (n : Z) (key : R -> PyFloat.float) (rs : list R) v :
  n < Z.of_nat (length rs) ->
  exists rest,
    List.filter (fun r => PyFloat.eq (key r) v) rs
    = List.filter (fun r => PyFloat.eq (key r) v) (nlargest n key rs) ++ rest.
Proof.
  intros Hn. unfold nlargest.
  destruct (n <=? 0); [now eexists|].
  destruct (Z.of_nat (length rs) <=? n) eqn:E; [apply Z.leb_le in E; lia|].
  set (P := fun r => PyFloat.eq (key r) v).
  set (L := Numpy.insertion_sort _ _ ++ _).
  exists (List.filter P (drop (Z.to_nat n) L)).
  rewrite <- List.filter_app, take_drop. unfold L.
  rewrite List.filter_app, insertion_sort_stable.
  - rewrite filter_filter_impl.
    + rewrite (filter_none P (List.filter _ rs)); [now rewrite app_nil_r|].
      intros x Hx. apply filter_In in Hx as [_ Hx]. unfold P.
      destruct (PyFloat.eq (key x) v) eqn:Ev; [|reflexivity].
      apply float_eq_not_nan in Ev as [Ev _]. congruence.
    + intros x Hx. apply float_eq_not_nan in Hx as [-> _]. reflexivity.
  - intros x y _ _ Hx Hy. unfold P in Hx, Hy.
    pose proof (float_eq_not_nan _ _ Hx) as [Nx Nv].
    pose proof (float_eq_not_nan _ _ Hy) as [Ny _].
    rewrite float_lt_neg by assumption.
    apply float_eq_iff in Hx, Hy; try assumption.
    destruct (PyFloat.lt (key y) (key x)) eqn:El; [|reflexivity].
    apply float_lt_iff in El; try assumption.
    rewrite Hx, Hy in El. exfalso. exact (lex3_lt_asym _ _ El El).
Qed.

(** When fewer rows are asked for than there are records, records of
    equal value are taken in the order of the records: those returned
    are the first of them, in that order. *)
Theorem top_performers_ties (records : list Commodity) (period : string)
    (n : Z) (key : Commodity -> PyFloat.float) (res : DataFrame Commodity)
    (v : PyFloat.float) :
  numeric_column period = Some key ->
  n < Z.of_nat (length records) ->
  get_top_performers period n (_create_dataframe records) = Ok res ->
  exists rest,
    List.filter (fun r => PyFloat.eq (key r) v) records
    = List.filter (fun r => PyFloat.eq (key r) v) (rows res) ++ rest.
Proof.
  intros Hkey Hn. destruct records as [|r rs]; [discriminate|].
  rewrite get_top_performers_created, Hkey.
  destruct (has_column _ period); [|discriminate].
  intros [= <-]. cbn [rows]. now apply nlargest_ties.
Qed.

End TopPerformers.

Section TopByCategory.
Import Pandas CommodityDataManager.
Context {Q : Numpy.Quicksort} {QS : Numpy.QuicksortSpec Q}.

Lemma of_category_nonempty category records :
  In category (map asset records) -> of_category category records <> [].
Proof.
  intros H. apply in_map_iff in H as (x & Hx & Hin).
  assert (Hc : In x (of_category category records))
    by (apply of_category_In; now split).
  intros E. now rewrite E in Hc.
Qed.

(** The rows of one category in a sequence of blocks, one for each
    category. *)
Lemma of_category_concat_other (f : string -> list Commodity) categories c :
  (forall c' x, In x (f c') -> asset x = c') ->
  ~ In c categories ->
  of_category c (concat (map f categories)) = [].
Proof.
  intros Hf Hc. apply filter_none. intros x Hx.
  apply concat_In in Hx as (l & Hl & Hx).
  apply in_map_iff in Hl as (c' & <- & Hc').
  apply String.eqb_neq. rewrite (Hf _ _ Hx). congruence.
Qed.

Lemma of_category_concat (f : string -> list Commodity) categories c :
  NoDup categories ->
  (forall c' x, In x (f c') -> asset x = c') ->
  In c categories ->
  of_category c (concat (map f categories)) = f c.
Proof.
  intros Hnd Hf. induction categories as [|c' cs IH]; [contradiction|].
  apply NoDup_cons in Hnd as [Hc' Hnd]. rewrite list_elem_of_In in Hc'.
  cbn [map concat]. unfold of_category. rewrite List.filter_app.
  fold (of_category c (f c')). fold (of_category c (concat (map f cs))).
  intros [->|Hc].
  - rewrite of_category_concat_other, app_nil_r by assumption.
    apply filter_all. intros x Hx. apply String.eqb_eq. now apply Hf.
  - rewrite (IH Hnd Hc).
    unfold of_category. rewrite filter_none; [reflexivity|].
    intros x Hx. apply String.eqb_neq. rewrite (Hf _ _ Hx). congruence.
Qed.

Lemma get_top_by_category_created r rs period n :
  get_top_by_category period n (_create_dataframe (r :: rs))
  = if has_column (_create_dataframe (r :: rs)) period then
      match numeric_column period with
      | Some key =>
          Ok {| columns := ["Asset"; "Name"; "Unit"; "Price"; "Change";
                            period; "Date"];
                rows := concat
                          (map (fun c => nlargest n key
                                           (of_category c (r :: rs)))
                             (unique (map asset (r :: rs)))) |}
      | None => Raise TypeError
      end
    else Raise (KeyError period).
Proof.
  unfold get_top_by_category.
  change (column (_create_dataframe (r :: rs)) "Asset" asset)
    with (Ok (A := list string) (map asset (r :: rs))).
  cbn [mbind result_bind].
  assert (Hne : unique (map asset (r :: rs)) <> []).
  { intros E. assert (H : In (asset r) (unique (map asset (r :: rs))))
      by (apply unique_In; now left).
    now rewrite E in H. }
  destruct (has_column (_create_dataframe (r :: rs)) period) eqn:Ecol.
  - destruct (numeric_column period) as [key|] eqn:Ekey.
    + rewrite (mapM_Ok_map _
        (fun c => {| columns := ["Asset"; "Name"; "Unit"; "Price"; "Change";
                                 period; "Date"];
                     rows := nlargest n key (of_category c (r :: rs)) |})).
      * cbn [mbind result_bind].
        destruct (unique (map asset (r :: rs))) as [|c cs]; [congruence|].
        cbn [map]. unfold concat_rows. now rewrite map_map.
      * intros c _. rewrite df_nlargest_created, Ecol, Ekey.
        cbn [mbind result_bind]. rewrite select_Ok; [reflexivity|].
        apply has_column_In in Ecol. cbn [columns _create_dataframe] in *.
        intros l [<-|[<-|[<-|[<-|[<-|[<-|[<-|[]]]]]]]]; cbv; tauto.
    + destruct (unique (map asset (r :: rs))) as [|c cs]; [congruence|].
      cbn [mapM]. rewrite df_nlargest_created, Ecol, Ekey. reflexivity.
  - destruct (unique (map asset (r :: rs))) as [|c cs]; [congruence|].
    cbn [mapM]. rewrite df_nlargest_created, Ecol. reflexivity.
Qed.

(** [get_top_by_category] on records: the rows of a category in the
    result are the rows that [get_top_performers] gives for the records
    of that category alone, the categories follow one another in the
    order in which the records first show them, and an error is the one
    that [get_top_performers] raises on the records. *)
Theorem top_by_category_blocks (records : list Commodity) (period : string)
    (n : Z) :
  records <> [] ->
  match get_top_by_category period n (_create_dataframe records) with
  | Ok res =>
      rows res
      = concat (map (fun c => of_category c (rows res))
                  (unique (map asset records)))
      /\ forall c, In c (map asset records) ->
           exists top,
             get_top_performers period n
               (_create_dataframe (of_category c records)) = Ok top
             /\ of_category c (rows res) = rows top
  | Raise e =>
      get_top_performers period n (_create_dataframe records) = Raise e
  end.
Proof.
  destruct records as [|r rs]; [congruence|]. intros _.
  rewrite get_top_by_category_created, get_top_performers_created.
  destruct (has_column (_create_dataframe (r :: rs)) period) eqn:Ecol;
    [|reflexivity].
  destruct (numeric_column period) as [key|] eqn:Ekey; [|reflexivity].
  cbn [rows].
  set (f := fun c => nlargest n key (of_category c (r :: rs))).
  assert (Hf : forall c x, In x (f c) -> asset x = c).
  { intros c x Hx. apply nlargest_incl in Hx.
    now apply of_category_In in Hx. }
  assert (Hblock : forall c, In c (unique (map asset (r :: rs))) ->
            of_category c (concat (map f (unique (map asset (r :: rs)))))
            = f c).
  { intros c Hc. apply of_category_concat; [apply unique_NoDup|exact Hf|exact Hc]. }
  split.
  - f_equal. apply map_ext_in. intros c Hc. symmetry. now apply Hblock.
  - intros c Hc.
    destruct (of_category c (r :: rs)) as [|x xs] eqn:Ec.
    { now apply of_category_nonempty in Hc. }
    rewrite get_top_performers_created.
    change (has_column (_create_dataframe (x :: xs)) period)
      with (has_column (_create_dataframe (r :: rs)) period).
    rewrite Ecol, Ekey. eexists. split; [reflexivity|]. cbn [rows].
    rewrite Hblock by now apply unique_In. unfold f. now rewrite Ec.
Qed.

End TopByCategory.

Section SmallCategories.
Import Pandas CommodityDataManager.
Context {Q : Numpy.Quicksort} {QS : Numpy.QuicksortSpec Q}.

(** With no more rows than asked for, [nlargest] returns all of them. *)
Lemma nlargest_all {R} (n : Z) (key : R -> PyFloat.float) (rs : list R) :
  0 < n -> Z.of_nat (length rs) <= n ->
  Permutation (nlargest n key rs) rs.
Proof.
  intros H0 Hn. unfold nlargest.
  destruct (n <=? 0) eqn:E0; [apply Z.leb_le in E0; lia|].
  destruct (Z.of_nat (length rs) <=? n) eqn:E; [|apply Z.leb_gt in E; lia].
  rewrite take_ge; [apply sort_values_desc_perm|].
  rewrite (Permutation_length (sort_values_desc_perm _ _ _ _)). lia.
Qed.

Lemma in_top3_small key category_rows r :
  (length category_rows <= 3)%nat -> In r category_rows ->
  in_top3 key category_rows (name r) = true.
Proof.
  intros Hlen Hr. apply in_top3_In. apply in_map.
  eapply Permutation_in; [symmetry; apply nlargest_all; lia|exact Hr].
Qed.

(** In a category of at most three records, every record is a strong
    lead, and it is marked as being in the top three of all four
    periods. *)
Theorem small_category_all_strong_leads (records : list Commodity)
    (category : string) (r : Commodity) :
  (length (of_category category records) <= 3)%nat ->
  In r (of_category category records) ->
  exists res l,
    get_strong_leads (_create_dataframe records) = Ok res
    /\ In l (rows res) /\ lead l = r /\ Match l = "4/4 (D,W,M,Y)".
Proof.
  intros Hlen Hr.
  pose proof Hr as Hrc. apply of_category_In in Hrc as [Hin Hcat].
  destruct records as [|r0 rs]; [contradiction|].
  destruct (get_strong_leads_created r0 rs) as (res & Hres & Hrows).
  assert (Hc : In (r, "4/4 (D,W,M,Y)"%string) (combined_leads (r0 :: rs))).
  { apply combined_leads_In. rewrite Hcat.
    split; [assumption|].
    unfold qualifies, matched_periods.
    rewrite !in_top3_small by assumption. split; reflexivity. }
  apply combined_leads_row in Hc as (l & Hl & Hlead & Hmatch).
  exists res, l. rewrite Hrows. now repeat split.
Qed.

End SmallCategories.

(** ** Whole numbers in cells *)

Section WholeNumbers.
Import TableParser.

Lemma take_digits_pos d p k :
  PyFloat.take_digits (Npos p) k (PyStr.chars (NilEmpty.string_of_uint d))
  = (Npos (Pos.of_uint_acc d p), (k + Decimal.nb_digits d)%nat, []).
Proof.
  revert p k. induction d; intros p k; cbn [NilEmpty.string_of_uint PyStr.chars
    list_ascii_of_string PyFloat.take_digits Pos.of_uint_acc Decimal.nb_digits];
    [now rewrite Nat.add_0_r|..];
    (change (PyStr.is_digit _) with true; cbv iota;
     match goal with
     | |- PyFloat.take_digits (_ + PyStr.digit_value ?c)%N _ _ = _ =>
         let v := eval vm_compute in (PyStr.digit_value c) in
         change (PyStr.digit_value c) with v
     end;
     match goal with
     | |- PyFloat.take_digits ?a _ _
          = (Npos (Pos.of_uint_acc _ ?q), _, _) =>
         replace a with (Npos q) by lia
     end;
     fold (PyStr.chars (NilEmpty.string_of_uint d));
     rewrite IHd; do 2 f_equal; lia).
Qed.

Lemma take_digits_uint d k :
  PyFloat.take_digits 0 k (PyStr.chars (NilEmpty.string_of_uint d))
  = (N.of_uint d, (k + Decimal.nb_digits d)%nat, []).
Proof.
  revert k. induction d; intros k; cbn [NilEmpty.string_of_uint PyStr.chars
    list_ascii_of_string PyFloat.take_digits Decimal.nb_digits];
    [now rewrite Nat.add_0_r|..];
    change (PyStr.is_digit _) with true; cbv iota;
    fold (PyStr.chars (NilEmpty.string_of_uint d));
    [ change (0 * 10 + PyStr.digit_value "0")%N with 0%N;
      rewrite IHd; cbn [N.of_uint Pos.of_uint]; do 2 f_equal; lia
    | match goal with
      | |- PyFloat.take_digits ?a _ _ = _ =>
          let v := eval vm_compute in a in change a with v
      end;
      rewrite take_digits_pos; cbn [N.of_uint Pos.of_uint];
      do 2 f_equal; lia .. ].
Qed.

Lemma uint_digits d :
  Forall (fun c => PyStr.is_digit c = true)
    (PyStr.chars (NilEmpty.string_of_uint d)).
Proof. induction d; cbn; constructor; try reflexivity; assumption. Qed.

(** The digits of a number: all of them are read back. *)
Lemma decimal_digits n :
  Forall (fun c => PyStr.is_digit c = true) (PyStr.chars (PyDatetime.decimal n))
  /\ exists k, PyFloat.take_digits 0 0 (PyStr.chars (PyDatetime.decimal n))
               = (n, S k, []).
Proof.
  unfold PyDatetime.decimal, NilZero.string_of_uint.
  destruct (N.to_uint n) eqn:E;
    try (rewrite <- E; split; [apply uint_digits|];
         rewrite take_digits_uint, DecimalN.Unsigned.of_to, E;
         cbn [Decimal.nb_digits Nat.add]; now eexists).
  split; [repeat constructor|].
  exists O. cbn. f_equal. f_equal.
  rewrite <- (DecimalN.Unsigned.of_to n), E. reflexivity.
Qed.

Lemma digit_not_space c : PyStr.is_digit c = true -> PyStr.is_space c = false.
Proof.
  destruct c as [[] [] [] [] [] [] [] []]; cbn; intros H;
    first [reflexivity | discriminate].
Qed.

Lemma digit_not_mark c :
  PyStr.is_digit c = true ->
  Ascii.eqb c "_" = false /\ PyFloat.is_sign c = false.
Proof.
  destruct c as [[] [] [] [] [] [] [] []]; cbn; intros H;
    first [split; reflexivity | discriminate].
Qed.

Lemma strip_chars_no_space cs :
  Forall (fun c => PyStr.is_space c = false) cs -> PyStr.strip_chars cs = cs.
Proof.
  intros H. unfold PyStr.strip_chars, PyStr.rstrip.
  assert (L : forall l, Forall (fun c => PyStr.is_space c = false) l ->
                        PyStr.lstrip l = l).
  { intros l Hl. destruct Hl as [|c l Hc _]; [reflexivity|].
    cbn. now rewrite Hc. }
  rewrite (L cs H), L, rev_involutive; [reflexivity|].
  apply List.Forall_rev in H. exact H.
Qed.

Lemma underscores_ok_digits prev cs :
  match prev with Some p => Ascii.eqb p "_" = false | None => True end ->
  Forall (fun c => PyStr.is_digit c = true) cs ->
  PyFloat.underscores_ok prev cs = true.
Proof.
  intros Hp H. revert prev Hp. induction H as [|c cs Hc _ IH]; intros prev Hp.
  - cbn. destruct prev; [now rewrite Hp|reflexivity].
  - cbn [PyFloat.underscores_ok].
    destruct (digit_not_mark c Hc) as [Hu _]. rewrite Hu, Hc, orb_true_r.
    cbn [andb]. now apply IH.
Qed.

(** [float] on the digits of a whole number, with or without a minus
    sign. *)
Lemma of_str_decimal (neg : bool) (n : N) :
  PyFloat.of_str ((if neg then "-" else "") +:+ PyDatetime.decimal n)
  = Ok (PyFloat.of_decimal neg n 0).
Proof.
  destruct (decimal_digits n) as [Hd [k Ht]].
  set (ds := PyStr.chars (PyDatetime.decimal n)) in *.
  assert (Hcs : PyStr.chars ((if neg then "-" else "") +:+ PyDatetime.decimal n)
                = (if neg then ["-"%char] else []) ++ ds).
  { rewrite chars_app. now destruct neg. }
  unfold PyFloat.of_str. rewrite Hcs.
  assert (Hsp : Forall (fun c => PyStr.is_space c = false)
                  ((if neg then ["-"%char] else []) ++ ds)).
  { apply Forall_app. split; [destruct neg; repeat constructor|].
    eapply Forall_impl; [exact Hd|]. apply digit_not_space. }
  rewrite (strip_chars_no_space _ Hsp).
  assert (Hus : PyFloat.underscores_ok None
                  ((if neg then ["-"%char] else []) ++ ds) = true).
  { destruct neg; cbn [app PyFloat.underscores_ok].
    - change (Ascii.eqb "-" "_") with false. cbn.
      now apply underscores_ok_digits.
    - now apply underscores_ok_digits. }
  rewrite Hus.
  assert (Hrm : PyStr.remove_char "_" ((if neg then ["-"%char] else []) ++ ds)
                = (if neg then ["-"%char] else []) ++ ds).
  { unfold PyStr.remove_char. apply filter_all. intros c Hc.
    apply in_app_or in Hc as [Hc|Hc].
    - destruct neg; [|contradiction]. destruct Hc as [<-|[]]. reflexivity.
    - rewrite List.Forall_forall in Hd.
      destruct (digit_not_mark c (Hd c Hc)) as [-> _]. reflexivity. }
  rewrite Hrm.
  assert (Hsign : PyFloat.take_sign ((if neg then ["-"%char] else []) ++ ds)
                  = (neg, ds)).
  { destruct neg; [reflexivity|]. cbn [app].
    destruct ds as [|c ds']; [discriminate Ht|].
    apply Forall_cons in Hd as [Hc _].
    destruct (digit_not_mark c Hc) as [_ Hs].
    cbn [PyFloat.take_sign]. now rewrite Hs. }
  rewrite Hsign. unfold PyFloat.parse_decimal. rewrite Ht.
  cbn [Nat.add PyFloat.parse_exponent Z.of_nat Z.sub Z.opp Z.add].
  reflexivity.
Qed.

Lemma of_decimal_whole (neg : bool) (n : N) :
  PyFloat.of_decimal neg n 0
  = if (n =? 0)%N then S754_zero neg
    else PyFloat.of_Z (if neg then - Z.of_N n else Z.of_N n).
Proof.
  destruct n as [|p]; [reflexivity|]. cbn [N.eqb PyFloat.of_decimal].
  change (0 <=? 0) with true. cbv iota.
  change (Z.to_pos (10 ^ 0)) with 1%positive. rewrite Pos.mul_1_r.
  now destruct neg.
Qed.

Lemma decimal_not_blank_or_dash (neg : bool) (n : N) :
  let s := (if neg then "-" else "") +:+ PyDatetime.decimal n in
  String.eqb s "" || String.eqb s "-" = false.
Proof.
  cbv zeta. destruct (decimal_digits n) as [Hd [k Ht]].
  destruct (PyDatetime.decimal n) as [|c s] eqn:E; [discriminate Ht|].
  apply Forall_cons in Hd as [Hc _].
  apply orb_false_iff. split; apply String.eqb_neq; destruct neg; cbn;
    try discriminate.
  intros [= -> _]. discriminate Hc.
Qed.

(** A cell whose text, once cleaned, is the digits of a whole number,
    with or without a minus sign, is read as that number: separators of
    thousands, spaces and the percent sign do not count. *)
Theorem parse_whole_number (text : string) (neg : bool) (n : N) :
  let literal := (if neg then "-" else "") +:+ PyDatetime.decimal n in
  let value :=
    if (n =? 0)%N then S754_zero neg
    else PyFloat.of_Z (if neg then - Z.of_N n else Z.of_N n) in
  (number_text text = literal -> _parse_number text = Ok value)
  /\ (percentage_text text = literal -> _parse_percentage text = Ok value).
Proof.
  cbv zeta. rewrite <- of_decimal_whole. split; intros H.
  - unfold _parse_number. cbv zeta. now rewrite H, of_str_decimal.
  - unfold _parse_percentage. cbv zeta.
    rewrite H, (decimal_not_blank_or_dash neg n), of_str_decimal.
    reflexivity.
Qed.

End WholeNumbers.

(** ** The alert service as a whole *)

Section AlertCounts.
Import Pandas CommodityDataManager AlertService.
Context {Date : Type}.
Variable previous_day : string -> string -> Date -> option PyFloat.float.
Variable send : NotificationChannel -> PriceAlert -> string -> bool.

Lemma channel_sends_le subscription alert channel :
  (channel_sends send subscription alert channel
   <= (if truthy (email subscription) && is_email_channel channel
       then 1 else 0)
      + (if truthy (sms_number subscription) && is_sms_channel channel
         then 1 else 0))%nat.
Proof.
  unfold channel_sends.
  destruct channel, (email subscription) as [e|],
    (sms_number subscription) as [s|];
    cbn [is_email_channel is_sms_channel truthy];
    rewrite ?andb_true_r, ?andb_false_r;
    repeat match goal with
           | |- context [String.eqb ?a ?b] => destruct (String.eqb a b)
           | |- context [send ?a ?b ?c] => destruct (send a b c)
           end; cbn; lia.
Qed.

Lemma sends_le_deliveries subscription alert channels :
  (list_sum (map (channel_sends send subscription alert) channels)
   <= deliveries subscription channels)%nat.
Proof.
  unfold deliveries. induction channels as [|c cs IH]; [cbn; lia|].
  cbn [map list_sum List.filter].
  pose proof (channel_sends_le subscription alert c) as H.
  destruct (truthy (email subscription)), (truthy (sms_number subscription)),
    c; cbn [is_email_channel is_sms_channel andb length] in *;
    match goal with
    | |- context [list_sum (?x :: ?l)] =>
        change (list_sum (x :: l)) with (x + list_sum l)%nat
    end; lia.
Qed.

Lemma subscription_alert_created r rs subscription current_date :
  exists fired,
    subscription_alert previous_day subscription
      (_create_dataframe (r :: rs)) current_date = Ok fired.
Proof.
  rewrite subscription_alert_unfold by reflexivity.
  destruct (matching_rows subscription _) as [|row rest]; [now eexists|].
  change (require_all ["Asset"] (_create_dataframe (r :: rs))) with (Ok ()).
  cbn [mbind result_bind].
  destruct (previous_day _ _ _) as [previous|]; [|now eexists].
  change (require_all ["Price"] (_create_dataframe (r :: rs))) with (Ok ()).
  cbn [mbind result_bind].
  destruct (evaluate subscription row previous); [|now eexists].
  change (require_all ["Daily %"; "Weekly %"; "Date"]
            (_create_dataframe (r :: rs))) with (Ok ()).
  now eexists.
Qed.

(** The count of a list of subscriptions is the sum of the counts of its
    parts. *)
Lemma check_and_send_alerts_app subs1 subs2 channels data current_date :
  check_and_send_alerts previous_day send (subs1 ++ subs2) channels data
    current_date
  = (n1 ← check_and_send_alerts previous_day send subs1 channels data
            current_date;
     n2 ← check_and_send_alerts previous_day send subs2 channels data
            current_date;
     Ok (n1 + n2)%nat).
Proof.
  induction subs1 as [|s subs1 IH]; cbn [app check_and_send_alerts].
  - cbn [mbind result_bind].
    now destruct (check_and_send_alerts _ _ subs2 _ _ _).
  - destruct (subscription_alert _ s data current_date) as [fired|];
      [|reflexivity].
    cbn [mbind result_bind]. rewrite IH.
    destruct (check_and_send_alerts _ _ subs1 _ _ _); [|reflexivity].
    cbn [mbind result_bind].
    destruct (check_and_send_alerts _ _ subs2 _ _ _); [|reflexivity].
    cbn [mbind result_bind]. f_equal. lia.
Qed.

(** [check_and_send_alerts] raises only when the current frame was built
    from no record and there is a subscription, and then [KeyError] for
    the column Name; otherwise it returns a count, which is at most the
    number of notifications that the subscriptions can lead to: for each
    of them one for each email channel if it has an email address and
    one for each SMS channel if it has a number. *)
Theorem alerts_sent_bounded (subscriptions : list Subscription)
    (channels : list NotificationChannel) (records : list Commodity)
    (current_date : Date) :
  match check_and_send_alerts previous_day send subscriptions channels
          (_create_dataframe records) current_date with
  | Ok sent =>
      (sent <= list_sum (map (fun s => deliveries s channels) subscriptions))%nat
      /\ (records = [] -> subscriptions = [])
  | Raise e => e = KeyError "Name" /\ records = [] /\ subscriptions <> []
  end.
Proof.
  destruct records as [|r rs].
  - destruct subscriptions as [|s subs]; [cbn; split; [lia|reflexivity]|].
    cbn. repeat split. discriminate.
  - induction subscriptions as [|s subs IH]; [cbn; split; [lia|discriminate]|].
    cbn [check_and_send_alerts].
    destruct (subscription_alert_created r rs s current_date) as [fired ->].
    cbn [mbind result_bind].
    destruct (check_and_send_alerts _ _ subs _ _ _) as [more|e];
      [|destruct IH as (_ & [=] & _)].
    cbn [mbind result_bind map]. split; [|discriminate].
    destruct IH as [IH _].
    match goal with
    | |- context [list_sum (?x :: ?l)] =>
        change (list_sum (x :: l)) with (x + list_sum l)%nat
    end.
    destruct fired as [alert|]; [|lia].
    pose proof (sends_le_deliveries s alert channels). lia.
Qed.

(** A subscription that is added is served after those that are there:
    its notifications are added to their count. *)
Theorem add_subscription_adds (self : state) (subscription : Subscription)
    (data : DataFrame Commodity) (current_date : Date) :
  notification_channels (add_subscription self subscription)
  = notification_channels self
  /\ check_and_send_alerts previous_day send
       (subscriptions (add_subscription self subscription))
       (notification_channels (add_subscription self subscription))
       data current_date
     = (before ← check_and_send_alerts previous_day send
                   (subscriptions self) (notification_channels self)
                   data current_date;
        added ← check_and_send_alerts previous_day send [subscription]
                  (notification_channels self) data current_date;
        Ok (before + added)%nat).
Proof.
  split; [reflexivity|]. cbn [add_subscription subscriptions notification_channels].
  apply check_and_send_alerts_app.
Qed.

Lemma float_le_not_nan x y :
  PyFloat.le x y = true -> PyFloat.is_nan x = false /\ PyFloat.is_nan y = false.
Proof. destruct x, y; try discriminate; now split. Qed.

Lemma float_le_trans x y z :
  PyFloat.le x y = true -> PyFloat.le y z = true -> PyFloat.le x z = true.
Proof.
  intros Hxy Hyz.
  destruct (float_le_not_nan _ _ Hxy) as [Nx Ny].
  destruct (float_le_not_nan _ _ Hyz) as [_ Nz].
  apply float_le_iff in Hxy, Hyz; try assumption.
  apply float_le_iff; try assumption.
  destruct (float_code x) as [[a1 a2] a3], (float_code y) as [[b1 b2] b3],
           (float_code z) as [[c1 c2] c3].
  simpl in *.
  destruct Hxy as [Hxy|[= -> -> ->]], Hyz as [Hyz|[= <- <- <-]];
    try (left; lia); try (left; assumption). now right.
Qed.

Lemma evaluate_is_Some subscription row previous :
  is_Some (evaluate subscription row previous)
  <-> PyFloat.ge
        (PyFloat.abs (percent_change_of (PyFloat.sub (price row) previous)
                        previous))
        (min_percent_change subscription) = true.
Proof.
  unfold evaluate. destruct (PyFloat.ge _ _); split; intros H;
    try reflexivity; try discriminate; try (now eexists).
  now destruct H.
Qed.

(** If a change of price leads to an alert under a threshold, it leads
    to the same alert under every lower threshold. *)
Theorem alert_threshold_monotone (subscription : Subscription)
    (lower : PyFloat.float) (row : Commodity) (previous : PyFloat.float)
    (alert : PriceAlert) :
  PyFloat.le lower (min_percent_change subscription) = true ->
  evaluate subscription row previous = Some alert ->
  evaluate (with_threshold subscription lower) row previous = Some alert.
Proof.
  intros Hle H. unfold evaluate in *.
  cbn [with_threshold min_percent_change].
  destruct (PyFloat.ge _ (min_percent_change subscription)) eqn:E;
    [|discriminate].
  unfold PyFloat.ge in *. fold (PyFloat.le (min_percent_change subscription)
    (PyFloat.abs (percent_change_of (PyFloat.sub (price row) previous) previous))) in E.
  fold (PyFloat.le lower
    (PyFloat.abs (percent_change_of (PyFloat.sub (price row) previous) previous))).
  now rewrite (float_le_trans _ _ _ Hle E).
Qed.

(** No alert is made when the threshold is NaN or the percent change is
    NaN.  The percent change is NaN when the stored price is NaN, and
    when the current price is NaN and the stored price is not zero.
    When the stored price is zero, the percent change is zero whatever
    the current price is, NaN included, and an alert is made exactly
    when the threshold is at most zero. *)
Theorem alert_never_on_nan (subscription : Subscription) (row : Commodity)
    (previous : PyFloat.float) :
  (PyFloat.is_nan (min_percent_change subscription) = true
   \/ PyFloat.is_nan (spec_percent_change (price row) previous) = true ->
   evaluate subscription row previous = None)
  /\ (PyFloat.ne previous PyFloat.zero = true ->
      PyFloat.is_nan (price row) = true \/ PyFloat.is_nan previous = true ->
      PyFloat.is_nan (spec_percent_change (price row) previous) = true
      /\ evaluate subscription row previous = None)
  /\ (PyFloat.eq previous PyFloat.zero = true ->
      spec_percent_change (price row) previous = PyFloat.zero
      /\ (is_Some (evaluate subscription row previous)
          <-> PyFloat.le (min_percent_change subscription) PyFloat.zero
              = true)).
Proof.
  assert (Hnone :
    PyFloat.is_nan (min_percent_change subscription) = true
    \/ PyFloat.is_nan (spec_percent_change (price row) previous) = true ->
    evaluate subscription row previous = None).
  { intros H. unfold evaluate. rewrite percent_change_of_spec.
    destruct (PyFloat.ge _ _) eqn:E; [|reflexivity].
    unfold PyFloat.ge in E.
    fold (PyFloat.le (min_percent_change subscription)
            (PyFloat.abs (spec_percent_change (price row) previous))) in E.
    apply float_le_not_nan in E as [E1 E2].
    destruct H as [H|H]; [congruence|].
    destruct (spec_percent_change (price row) previous); discriminate. }
  split; [exact Hnone|]. split.
  - intros Hne Hnan.
    assert (Hpct : PyFloat.is_nan (spec_percent_change (price row) previous)
                   = true).
    { unfold spec_percent_change. unfold PyFloat.ne in Hne.
      fold (PyFloat.eq previous PyFloat.zero) in Hne.
      apply negb_true_iff in Hne. rewrite Hne.
      destruct Hnan as [H|H].
      - destruct (price row); try discriminate H.
        destruct previous; reflexivity.
      - destruct previous; try discriminate H.
        destruct (price row); reflexivity. }
    split; [exact Hpct|]. apply Hnone. now right.
  - intros Heq. unfold spec_percent_change at 1. rewrite Heq.
    split; [reflexivity|].
    rewrite evaluate_is_Some, percent_change_of_spec.
    unfold spec_percent_change. rewrite Heq. reflexivity.
Qed.

End AlertCounts.

(** ** The application *)

Section App.
Import Soup TableParser Pandas CommodityDataManager.
Context {Q : Numpy.Quicksort} {QS : Numpy.QuicksortSpec Q}.

Lemma parse_tables_length soup :
  length (parse_tables soup)
  = length (List.filter is_data_row (find_all "tr" soup)).
Proof.
  unfold parse_tables.
  destruct (parse_rows_records (find_all "tr" soup) init)
    as (new & -> & Hlen & _).
  exact Hlen.
Qed.

(** [run] returns a data manager only for a page that was fetched, is
    not empty and has a data row; the manager then holds a record, so
    that on it the rankings by a column of numbers, the strong leads and
    the investment opportunities are computed without an error.  It
    returns nothing when the page was not fetched, is empty or has no
    data row. *)
Theorem run_returns_usable_manager (fetch_page : option string)
    (BeautifulSoup : string -> PageElement) :
  match CommoditiesApp.run fetch_page BeautifulSoup with
  | Some df =>
      (exists html r rs,
          fetch_page = Some html /\ html <> ""
          /\ parse_tables (BeautifulSoup html) = r :: rs
          /\ df = _create_dataframe (r :: rs))
      /\ (forall period n key,
            numeric_column period = Some key ->
            (exists res, get_top_performers period n df = Ok res)
            /\ (exists res, get_top_by_category period n df = Ok res))
      /\ (exists res, get_strong_leads df = Ok res)
      /\ (exists res, get_investment_opportunities df = Ok res)
  | None =>
      fetch_page = None
      \/ fetch_page = Some ""
      \/ exists html,
           fetch_page = Some html
           /\ List.filter is_data_row (find_all "tr" (BeautifulSoup html)) = []
  end.
Proof.
  unfold CommoditiesApp.run.
  destruct fetch_page as [html|]; [|now left].
  destruct (String.eqb html "") eqn:E.
  { apply String.eqb_eq in E as ->. right. now left. }
  apply String.eqb_neq in E.
  destruct (parse_tables (BeautifulSoup html)) as [|r rs] eqn:Ep.
  - right. right. exists html. split; [reflexivity|].
    apply length_zero_iff_nil. rewrite <- parse_tables_length, Ep. reflexivity.
  - split; [now exists html, r, rs|].
    split; [|split].
    + intros period n key Hkey.
      rewrite get_top_performers_created, get_top_by_category_created, Hkey.
      assert (Hcol : has_column (_create_dataframe (r :: rs)) period = true).
      { apply has_column_In. cbn [columns _create_dataframe].
        unfold numeric_column in Hkey.
        repeat match type of Hkey with
               | (if String.eqb ?a ?b then _ else _) = _ =>
                   destruct (String.eqb a b) eqn:?Eq;
                   [apply String.eqb_eq in Eq; subst; cbv; tauto|clear Eq]
               end.
        discriminate. }
      rewrite Hcol. split; eexists; reflexivity.
    + destruct (get_strong_leads_created r rs) as (res & Hres & _).
      now exists res.
    + apply get_investment_opportunities_total.
Qed.

End App.

(** ** The cells of a data row *)

Section RowCells.
Import Soup TableParser.

Lemma getitem_take {A} (l : list A) n i :
  (i < n)%nat -> getitem (take n l) i = getitem l i.
Proof. intros H. unfold getitem. now rewrite lookup_take_lt. Qed.

Lemma map_take {A B} (f : A -> B) n (l : list A) :
  map f (take n l) = take n (map f l).
Proof.
  revert n. induction l as [|x l IH]; intros [|n]; cbn; try reflexivity.
  now rewrite IH.
Qed.

Lemma _parse_row_body_take cols category :
  _parse_row_body (take 9 cols) category = _parse_row_body cols category.
Proof.
  unfold _parse_row_body. rewrite map_take.
  rewrite !getitem_take by lia.
  replace (8 <? length (take 9 (map get_text_strip cols)))%nat
    with (8 <? length (map get_text_strip cols))%nat; [reflexivity|].
  rewrite length_take.
  destruct (8 <? length (map get_text_strip cols))%nat eqn:E.
  - apply Nat.ltb_lt in E. symmetry. apply Nat.ltb_lt. lia.
  - apply Nat.ltb_ge in E. symmetry. apply Nat.ltb_ge. lia.
Qed.

Lemma _parse_row_body_eight cols category :
  length cols = 8%nat ->
  exists c, _parse_row_body cols category = Ok c /\ date c = "".
Proof.
  intros Hlen.
  destruct cols as [|c0 [|c1 [|c2 [|c3 [|c4 [|c5 [|c6 [|c7 [|c8 rest]]]]]]]]];
    try discriminate Hlen.
  unfold _parse_row_body.
  rewrite (getitem_lookup _ 0 c0) by reflexivity. rewrite bind_Ok.
  destruct (_split_name_unit_from_cell c0) as [nm un].
  rewrite (getitem_map _ _ 1 c1), (getitem_map _ _ 2 c2), (getitem_map _ _ 3 c3),
    (getitem_map _ _ 4 c4), (getitem_map _ _ 5 c5), (getitem_map _ _ 6 c6),
    (getitem_map _ _ 7 c7) by reflexivity.
  rewrite !bind_Ok.
  destruct (_parse_number_total (get_text_strip c1)) as [x1 ->]. rewrite bind_Ok.
  destruct (_parse_number_total (get_text_strip c2)) as [x2 ->]. rewrite bind_Ok.
  destruct (_parse_percentage_total (get_text_strip c3)) as [x3 ->]. rewrite bind_Ok.
  destruct (_parse_percentage_total (get_text_strip c4)) as [x4 ->]. rewrite bind_Ok.
  destruct (_parse_percentage_total (get_text_strip c5)) as [x5 ->]. rewrite bind_Ok.
  destruct (_parse_percentage_total (get_text_strip c6)) as [x6 ->]. rewrite bind_Ok.
  destruct (_parse_percentage_total (get_text_strip c7)) as [x7 ->]. rewrite bind_Ok.
  simpl. eauto.
Qed.

(** Only the first nine cells of a row count: the cells after them are
    ignored.  A row of eight cells gives a record with an empty date. *)
Theorem parse_row_first_nine_cells (cols : list PageElement)
    (category : string) :
  _parse_row (take 9 cols) category = _parse_row cols category
  /\ (length cols = 8%nat ->
      exists c, _parse_row cols category = Some c
                /\ asset c = category /\ date c = "").
Proof.
  unfold _parse_row. rewrite _parse_row_body_take. split; [reflexivity|].
  intros Hlen.
  destruct (_parse_row_body_eight cols category Hlen) as (c & Hc & Hd).
  destruct (_parse_row_body_ok cols category) as (c' & Hc' & Ha); [lia|].
  rewrite Hc in Hc'. injection Hc' as <-.
  exists c. rewrite Hc. now repeat split.
Qed.

End RowCells.

(** ** Results without a row *)

Section EmptyResults.
Import Pandas CommodityDataManager.
Context {Q : Numpy.Quicksort} {QS : Numpy.QuicksortSpec Q}.

Lemma candidates_nil_iff first second category_rows :
  candidates first second first category_rows = []
  <-> forall r, In r category_rows -> both_positive first second r = false.
Proof.
  unfold candidates.
  fold (both_positive first second).
  split.
  - intros H r Hr.
    destruct (both_positive first second r) eqn:E; [|reflexivity].
    exfalso. revert H. apply nlargest_1_nonempty.
    intros Hnil.
    assert (Hin : In r (List.filter (both_positive first second) category_rows))
      by (apply filter_In; now split).
    now rewrite Hnil in Hin.
  - intros H. rewrite filter_none by exact H. apply nlargest_nil.
Qed.

Lemma concat_nil_iff {A} (ls : list (list A)) :
  concat ls = [] <-> forall l, In l ls -> l = [].
Proof.
  induction ls as [|l ls IH]; cbn.
  - split; [intros _ l []|reflexivity].
  - split.
    + intros H. apply app_eq_nil in H as [-> H]. intros l' [<-|Hl]; [reflexivity|].
      now apply IH.
    + intros H. rewrite (H l) by now left. cbn. apply IH.
      intros l' Hl. apply H. now right.
Qed.

Lemma number_opportunities_length timeframe combined :
  length (number_opportunities timeframe combined) = length combined.
Proof.
  destruct (number_opportunities_spec timeframe combined) as (E & _).
  rewrite <- E at 2. now rewrite length_map.
Qed.

(** A bucket without a row is the frame without columns, and a bucket
    is without a row exactly when no record has both percentages above
    zero. *)
Lemma bucket_empty_iff timeframe labels
    (first second : Commodity -> PyFloat.float) records :
  let bucket :=
    combine_opportunities timeframe labels
      (map (fun category =>
              candidates first second first (of_category category records))
         (unique (map asset records))) in
  (is_empty bucket = true
   <-> forall r, In r records -> both_positive first second r = false)
  /\ (is_empty bucket = true -> bucket = empty_frame).
Proof.
  cbv zeta.
  set (frames := map _ (unique (map asset records))).
  assert (Hnil : concat frames = []
                 <-> forall r, In r records ->
                               both_positive first second r = false).
  { rewrite concat_nil_iff. unfold frames. split.
    - intros H r Hr.
      assert (Hc : candidates first second first
                     (of_category (asset r) records) = []).
      { apply H. apply in_map_iff. exists (asset r). split; [reflexivity|].
        apply unique_In. now apply in_map. }
      rewrite candidates_nil_iff in Hc. apply Hc.
      apply of_category_In. now split.
    - intros H l Hl. apply in_map_iff in Hl as (c & <- & _).
      apply candidates_nil_iff. intros r Hr.
      apply of_category_In in Hr as [Hr _]. now apply H. }
  assert (Hemp : is_empty (combine_opportunities timeframe labels frames) = true
                 <-> concat frames = []).
  { unfold is_empty. rewrite combine_opportunities_rows.
    pose proof (number_opportunities_length timeframe (concat frames)) as L.
    destruct (number_opportunities timeframe (concat frames)),
      (concat frames); cbn in L; try discriminate; split; congruence. }
  split; [now rewrite Hemp|].
  intros H. apply Hemp in H. unfold combine_opportunities.
  rewrite <- concat_filter_nonempty in H.
  destruct (List.filter _ frames) as [|f kept] eqn:E; [reflexivity|].
  exfalso.
  assert (Hf : In f (List.filter (fun f => negb (bool_decide (f = []))) frames))
    by (rewrite E; now left).
  apply filter_In in Hf as [_ Hf]. apply negb_true_iff in Hf.
  apply bool_decide_eq_false in Hf. cbn in H.
  apply app_eq_nil in H as [H _]. contradiction.
Qed.

Lemma get_investment_opportunities_created r rs :
  get_investment_opportunities (_create_dataframe (r :: rs))
  = Ok {| short_term :=
            combine_opportunities "Short-term"
              ["Asset"; "Name"; "Unit"; "Price"; "Daily %"; "Weekly %"; "Date"]
              (map (fun category =>
                      candidates daily_pct weekly_pct daily_pct
                        (of_category category (r :: rs)))
                 (unique (map asset (r :: rs))));
          mid_term :=
            combine_opportunities "Mid-term"
              ["Asset"; "Name"; "Unit"; "Price"; "Weekly %"; "Monthly %"; "Date"]
              (map (fun category =>
                      candidates weekly_pct monthly_pct weekly_pct
                        (of_category category (r :: rs)))
                 (unique (map asset (r :: rs))));
          long_term :=
            combine_opportunities "Long-term"
              ["Asset"; "Name"; "Unit"; "Price"; "Monthly %"; "Yearly %"; "Date"]
              (map (fun category =>
                      candidates yearly_pct monthly_pct yearly_pct
                        (of_category category (r :: rs)))
                 (unique (map asset (r :: rs)))) |}.
Proof.
  unfold get_investment_opportunities, column.
  rewrite has_column_created by (simpl; tauto).
  cbn [mbind result_bind rows _create_dataframe].
  rewrite (mapM_Ok_map _ (fun category =>
    (candidates daily_pct weekly_pct daily_pct (of_category category (r :: rs)),
     candidates weekly_pct monthly_pct weekly_pct (of_category category (r :: rs)),
     candidates yearly_pct monthly_pct yearly_pct (of_category category (r :: rs)))))
    by (intros; apply category_opportunities_created).
  cbn [mbind result_bind]. now rewrite !map_map.
Qed.

(** A bucket of investment opportunities has no row exactly when no
    record has both percentages of the bucket above zero: daily and
    weekly for the short term, weekly and monthly for the mid term,
    yearly and monthly for the long term; it is then the frame without
    columns. *)
Theorem opportunity_bucket_empty (records : list Commodity) :
  match get_investment_opportunities (_create_dataframe records) with
  | Raise _ => records = []
  | Ok res =>
      let empty_iff (bucket : DataFrame Opportunity)
                    (first second : Commodity -> PyFloat.float) :=
        (is_empty bucket = true
         <-> forall r, In r records -> both_positive first second r = false)
        /\ (is_empty bucket = true -> bucket = empty_frame) in
      empty_iff (short_term res) daily_pct weekly_pct
      /\ empty_iff (mid_term res) weekly_pct monthly_pct
      /\ empty_iff (long_term res) yearly_pct monthly_pct
  end.
Proof.
  destruct records as [|r rs]; [reflexivity|].
  rewrite get_investment_opportunities_created.
  cbv zeta. cbn [short_term mid_term long_term].
  repeat split; try apply bucket_empty_iff.
  all: apply (bucket_empty_iff _ _ _ _ (r :: rs)).
Qed.

(** [nlargest] of rows, for a positive number: not without a row. *)
Lemma nlargest_head {R} (n : Z) (key : R -> PyFloat.float) (rs : list R) :
  0 < n -> rs <> [] -> exists x, In x (nlargest n key rs) /\ In x rs.
Proof.
  intros Hn Hne.
  destruct (nlargest_ranked n key rs) as (ranked & Hperm & _ & ->).
  destruct ranked as [|x ranked].
  - apply Permutation_nil in Hperm. congruence.
  - exists x. replace (Z.to_nat n) with (S (Z.to_nat (n - 1))) by lia.
    split; [now left|].
    eapply Permutation_in; [exact Hperm|now left].
Qed.

(** Every category of the records has a strong lead, so that the result
    of [get_strong_leads] on records has a row. *)
Theorem strong_leads_cover_categories (records : list Commodity) :
  match get_strong_leads (_create_dataframe records) with
  | Raise _ => records = []
  | Ok res =>
      (forall r, In r records ->
         exists l, In l (rows res) /\ asset (lead l) = asset r)
      /\ (records <> [] -> is_empty res = false)
  end.
Proof.
  destruct records as [|r0 rs]; [reflexivity|].
  destruct (get_strong_leads_created r0 rs) as (res & -> & Hrows).
  assert (Hcover : forall r, In r (r0 :: rs) ->
            exists l, In l (rows res) /\ asset (lead l) = asset r).
  { intros r Hr. rewrite Hrows.
    set (category_rows := of_category (asset r) (r0 :: rs)).
    assert (Hne : category_rows <> []).
    { apply of_category_nonempty. now apply in_map. }
    destruct (nlargest_head 3 daily_pct category_rows) as (x & Hx & Hxc);
      [lia|assumption|].
    pose proof Hxc as Hxa. apply of_category_In in Hxa as [Hxr Hxa].
    assert (Hq : In (x, match_text (matched_periods category_rows (name x)))
                   (combined_leads (r0 :: rs))).
    { apply combined_leads_In. rewrite Hxa. fold category_rows.
      split; [assumption|]. split; [|reflexivity].
      unfold qualifies.
      assert (Hd : in_top3 daily_pct category_rows (name x) = true)
        by (apply in_top3_In; now apply in_map).
      now rewrite Hd. }
    apply combined_leads_row in Hq as (l & Hl & Hlead & _).
    exists l. split; [assumption|]. now rewrite Hlead. }
  split; [exact Hcover|].
  intros _. destruct (Hcover r0) as (l & Hl & _); [now left|].
  unfold is_empty. destruct (rows res); [contradiction|reflexivity].
Qed.

End EmptyResults.

(** ** The guard of the percentages *)

Section PercentageGuard.
Import TableParser.

(** The test of [_parse_percentage] for an empty text and for a lone
    minus sign does not change a result: without it [float] raises
    [ValueError] on both, which gives zero as well.  So a percentage is
    read as the number is whose cleaned text is the same. *)
Theorem percentage_guard_redundant (text number : string) :
  percentage_text text = number_text number ->
  _parse_percentage text = _parse_number number.
Proof.
  intros H. unfold _parse_percentage, _parse_number. cbv zeta.
  rewrite <- H.
  destruct (String.eqb (percentage_text text) "") eqn:E1.
  { apply String.eqb_eq in E1. rewrite E1. reflexivity. }
  destruct (String.eqb (percentage_text text) "-") eqn:E2.
  { apply String.eqb_eq in E2. rewrite E2. reflexivity. }
  reflexivity.
Qed.

End PercentageGuard.

(** ** The properties at the examples *)

Section Instances.
Import Soup TableParser Pandas CommodityDataManager AlertService.

(** C2 on seven records in two categories. *)
Lemma C2_strong_leads_union_witness :
  exists res,
    get_strong_leads (Q := Numpy.generic_quicksort)
      (_create_dataframe sample_records) = Ok res
    /\ map (fun l => (name (lead l), Match l)) (rows res)
       = [("B", "4/4 (D,W,M,Y)"); ("H", "4/4 (D,W,M,Y)");
          ("G", "4/4 (D,W,M,Y)"); ("A", "4/4 (D,W,M,Y)");
          ("C", "3/4 (D,W,M)"); ("D", "1/4 (Y)")]
    /\ forall l, In l (rows res) ->
         match_count (Match l)
         = Ok (Z.of_nat (length (matched_periods (Q := Numpy.generic_quicksort)
                                   (of_category (asset (lead l)) sample_records)
                                   (name (lead l))))).
Proof.
  pose proof (C2_strong_leads_union (QS := generic_quicksort_spec)
                sample_records) as H.
  destruct (get_strong_leads (_create_dataframe sample_records))
    as [res|e] eqn:E; [|discriminate H].
  exists res. split; [reflexivity|]. split.
  - vm_compute in E. injection E as <-. reflexivity.
  - intros l Hl. apply (proj2 H l Hl).
Defined.

(** C3 on the same records, on fifteen records with one and the same
    key, and on four records whose keys differ in the sign of a zero:
    both stay in the order of the combined frame. *)
Lemma C3_strong_leads_order_witness :
  (exists res,
     get_strong_leads (Q := Numpy.generic_quicksort)
       (_create_dataframe sample_records) = Ok res
     /\ StronglySorted
          (fun a b => tuple_lt (lead_key a) (lead_key b) = false) (rows res)
     /\ map Rank (rows res) = [1; 2; 3; 4; 5; 6]%nat
     /\ map Rank_Asset (rows res) = [1; 1; 2; 2; 3; 4]%nat)
  /\ (exists frames res,
        lead_frames (Q := Numpy.generic_quicksort)
          (_create_dataframe few_tied_records) = Ok frames
        /\ get_strong_leads (Q := Numpy.generic_quicksort)
             (_create_dataframe few_tied_records) = Ok res
        /\ length (rows res) = 15%nat
        /\ map (fun l => (lead l, Match l))
             (List.filter
                (fun l => tied (lead_key l) (4, PyFloat.zero, PyFloat.zero))
                (rows res))
           = concat frames)
  /\ (exists res,
        get_strong_leads (Q := Numpy.generic_quicksort)
          (_create_dataframe zero_sign_records) = Ok res
        /\ map (fun l => weekly_pct (lead l)) (rows res)
           = [PyFloat.zero; PyFloat.neg PyFloat.zero;
              PyFloat.neg PyFloat.zero; PyFloat.zero]
        /\ map (fun l => name (lead l))
             (List.filter
                (fun l => tied (lead_key l) (4, PyFloat.zero, PyFloat.zero))
                (rows res))
           = ["P"; "N"; "Q"; "R"]).
Proof.
  split; [|split].
  - pose proof (proj1 (C3_strong_leads_order sample_records)
                  Numpy.generic_quicksort generic_quicksort_spec) as H.
    destruct (get_strong_leads (_create_dataframe sample_records))
      as [res|e] eqn:E; [|discriminate H].
    exists res. split; [reflexivity|].
    destruct H as (Hsorted & _ & Hrank & _).
    vm_compute in E. injection E as <-.
    split; [|split; [exact Hrank|reflexivity]].
    apply Hsorted. repeat constructor.
  - pose proof (C3_strong_leads_order few_tied_records) as [_ H].
    destruct (lead_frames (_create_dataframe few_tied_records))
      as [frames|e] eqn:E1; [|discriminate H].
    destruct (get_strong_leads (_create_dataframe few_tied_records))
      as [res|e] eqn:E2; [|discriminate H].
    exists frames, res. split; [reflexivity|]. split; [reflexivity|].
    assert (Hlen : (length (concat frames) <= 17)%nat).
    { vm_compute in E1. injection E1 as <-. vm_compute. lia. }
    destruct (H Hlen) as [_ Hk].
    specialize (Hk (4, PyFloat.zero, PyFloat.zero)
                  (conj eq_refl eq_refl)).
    split.
    + vm_compute in E2. injection E2 as <-. reflexivity.
    + rewrite Hk. vm_compute in E1. injection E1 as <-. reflexivity.
  - pose proof (C3_strong_leads_order zero_sign_records) as [_ H].
    destruct (lead_frames (_create_dataframe zero_sign_records))
      as [frames|e] eqn:E1; [|discriminate H].
    destruct (get_strong_leads (_create_dataframe zero_sign_records))
      as [res|e] eqn:E2; [|discriminate H].
    exists res. split; [reflexivity|].
    assert (Hlen : (length (concat frames) <= 17)%nat).
    { vm_compute in E1. injection E1 as <-. vm_compute. lia. }
    destruct (H Hlen) as [_ Hk].
    specialize (Hk (4, PyFloat.zero, PyFloat.zero)
                  (conj eq_refl eq_refl)).
    split.
    + vm_compute in E2. injection E2 as <-. reflexivity.
    + change (fun l => name (lead l))
        with (fun l => name (fst ((fun l => (lead l, Match l)) l))).
      rewrite <- (map_map (fun l => (lead l, Match l))
                    (fun rm => name (fst rm))).
      rewrite Hk. vm_compute in E1. injection E1 as <-. reflexivity.
Defined.

(** C3 as the specification states it fails, in two ways, under the
    generic quicksort of NumPy.  With a NaN key, a row comes before a row
    with a greater key: X, key 3, is ranked first and Z, key 5, last.
    With eighteen equal keys, the rows leave their prior order A1, A2, A3,
    B1, ...: the sort is not stable. *)
Lemma C3_order_not_descending_nor_stable :
  (get_strong_leads (Q := Numpy.generic_quicksort)
     (_create_dataframe nan_records) = Ok nan_leads
   /\ map (fun l => name (lead l)) (rows nan_leads) = ["X"; "Y"; "Z"]
   /\ map (fun l => tuple_lt (lead_key l)
                      (4, PyFloat.of_Z 5, PyFloat.zero))
          (rows nan_leads) = [true; false; false])
  /\ (get_strong_leads (Q := Numpy.generic_quicksort)
        (_create_dataframe tied_records) = Ok tied_leads
      /\ (match lead_frames (Q := Numpy.generic_quicksort)
                  (_create_dataframe tied_records) with
          | Ok frames => map (fun rm => name (fst rm)) (concat frames)
          | Raise _ => []
          end
          = ["A1"; "A2"; "A3"; "B1"; "B2"; "B3"; "C1"; "C2"; "C3";
             "D1"; "D2"; "D3"; "E1"; "E2"; "E3"; "F1"; "F2"; "F3"])
      /\ map lead_key (rows tied_leads)
         = repeat (4, PyFloat.zero, PyFloat.zero) 18
      /\ map (fun l => name (lead l)) (rows tied_leads)
         = ["A1"; "A2"; "F2"; "F1"; "E3"; "E2"; "E1"; "D3"; "D2";
            "D1"; "C3"; "C2"; "C1"; "B3"; "B2"; "B1"; "A3"; "F3"]).
Proof. repeat split; vm_compute; reflexivity. Qed.

(** C4 on the same records: H has the best week of its category and a
    negative day, and G is chosen. *)
Lemma C4_short_term_candidates_witness :
  exists res,
    get_investment_opportunities (Q := Numpy.generic_quicksort)
      (_create_dataframe sample_records) = Ok res
    /\ map name (map candidate (rows (short_term res))) = ["A"; "G"]
    /\ NoDup (map asset (map candidate (rows (short_term res)))).
Proof.
  pose proof (C4_short_term_candidates (QS := generic_quicksort_spec)
                sample_records) as H.
  destruct (get_investment_opportunities (_create_dataframe sample_records))
    as [res|e] eqn:E; [|discriminate H].
  exists res. split; [reflexivity|]. split; [|apply H].
  vm_compute in E. injection E as <-. reflexivity.
Defined.

(** The other two buckets on the same records. *)
Lemma mid_and_long_term_candidates_witness :
  exists res,
    get_investment_opportunities (Q := Numpy.generic_quicksort)
      (_create_dataframe sample_records) = Ok res
    /\ map name (map candidate (rows (mid_term res))) = ["B"; "G"]
    /\ map name (map candidate (rows (long_term res))) = ["A"; "G"]
    /\ forall x, In x (map candidate (rows (mid_term res))) ->
         PyFloat.gt (monthly_pct x) PyFloat.zero = true.
Proof.
  pose proof (mid_and_long_term_candidates (QS := generic_quicksort_spec)
                sample_records) as H.
  destruct (get_investment_opportunities (_create_dataframe sample_records))
    as [res|e] eqn:E; [|discriminate H].
  exists res. split; [reflexivity|].
  split; [vm_compute in E; injection E as <-; reflexivity|].
  split; [vm_compute in E; injection E as <-; reflexivity|].
  intros x Hx. now apply (proj1 H x Hx).
Defined.

(** The ranks and the categories of the short term bucket on the same
    records. *)
Lemma opportunity_buckets_ranked_witness :
  exists res,
    get_investment_opportunities (Q := Numpy.generic_quicksort)
      (_create_dataframe sample_records) = Ok res
    /\ map opp_Rank (rows (short_term res)) = [1; 2]%nat
    /\ map (fun o => asset (candidate o)) (rows (short_term res))
       = ["Energy"; "Metals"]
    /\ Forall (fun o => opp_Rank_Asset o = 1%nat /\ Timeframe o = "Short-term")
         (rows (short_term res)).
Proof.
  pose proof (opportunity_buckets_ranked (QS := generic_quicksort_spec)
                sample_records) as H.
  destruct (get_investment_opportunities (_create_dataframe sample_records))
    as [res|e] eqn:E; [|discriminate H].
  exists res. split; [reflexivity|].
  destruct H as ((Hrank & Hrows & _) & _).
  split; [|split; [|exact Hrows]];
    vm_compute in E; injection E as <-; reflexivity.
Defined.

(** C6 on a table of two valid rows around a row of two cells. *)
Lemma C6_row_drop_witness : length (parse_tables sample_table) = 2%nat.
Proof.
  refine (proj2 (proj2 (proj2
    (C6_row_drop sample_table [gold_row] [gold_row] short_row _ _ _)))).
  - reflexivity.
  - repeat constructor; simpl; lia.
  - split; [reflexivity|]. intros category. apply _parse_row_None_iff.
    simpl. lia.
Defined.

(** C9 at the threshold: a change of exactly one percent meets a
    threshold of one percent, half a percent does not. *)
Lemma C9_alert_threshold_witness :
  is_Some (evaluate gold_subscription (gold_at (PyFloat.of_Z 101))
             (PyFloat.of_Z 100))
  /\ spec_percent_change (PyFloat.of_Z 101) (PyFloat.of_Z 100) = PyFloat.of_Z 1
  /\ evaluate gold_subscription (gold_at f100_5) (PyFloat.of_Z 100) = None.
Proof.
  split; [|split].
  - apply (proj1 (C9_alert_threshold (Date := Datatypes.unit)
                    (fun _ _ _ => None) (fun _ _ _ => true)
                    gold_subscription (gold_at (PyFloat.of_Z 101))
                    (PyFloat.of_Z 100))).
    vm_compute. reflexivity.
  - vm_compute. reflexivity.
  - vm_compute. reflexivity.
Defined.

(** C10 on three rows named Gold and a subscription to GOLD: the first
    row is the one that the alert is computed from. *)
Lemma C10_subscription_matching_witness :
  subscription_alert (fun _ _ (_ : Datatypes.unit) => Some (PyFloat.of_Z 100))
    gold_subscription
    (_create_dataframe [gold_at (PyFloat.of_Z 50); gold_at (PyFloat.of_Z 101);
                        gold_at (PyFloat.of_Z 300)]) ()
  = Ok (evaluate gold_subscription (gold_at (PyFloat.of_Z 50)) (PyFloat.of_Z 100)).
Proof.
  refine (proj2 (proj2 (proj2
    (C10_subscription_matching
       (fun _ _ (_ : Datatypes.unit) => Some (PyFloat.of_Z 100))
       (fun _ _ _ => true) gold_subscription
       (_create_dataframe [gold_at (PyFloat.of_Z 50); gold_at (PyFloat.of_Z 101);
                           gold_at (PyFloat.of_Z 300)]) () _)))
    (gold_at (PyFloat.of_Z 50))
    [gold_at (PyFloat.of_Z 101); gold_at (PyFloat.of_Z 300)] _).
  - repeat constructor.
  - reflexivity.
Defined.

(** The block of the category Metals in a document of two categories:
    the second and the third of its four records. *)
Lemma category_block_witness :
  exists recs_before recs_block recs_after,
    parse_tables two_category_table
    = recs_before ++ recs_block ++ recs_after
    /\ length recs_before = 1%nat
    /\ length recs_block = 2%nat
    /\ length recs_after = 1%nat
    /\ Forall (fun c => asset c = "Metals") recs_block.
Proof.
  apply (category_block two_category_table (Tag "tr" [th "Metals"])
           [Tag "tr" [th "Price"; th "Day"; th "%"]; gold_row]
           [gold_row; short_row; gold_row]
           [Tag "tr" [th "Energy"]; gold_row] "Metals").
  - reflexivity.
  - reflexivity.
  - repeat constructor.
Defined.

(** February of 2025 has a 28th and no 29th. *)
Lemma parse_date_calendar_witness :
  _parse_date "FEB/28" = "2025/02/28" /\ _parse_date "Feb/29" = "Feb/29".
Proof.
  split.
  - apply (parse_date_calendar "FEB" "28" 2 28); [reflexivity|lia|now left].
  - apply (parse_date_calendar "Feb" "29" 2 29); [reflexivity|lia|now left].
Defined.

(** Of the two sample records with a daily percentage of one, the first
    is among the three best and the second is left out. *)
Lemma top_performers_ties_witness :
  map name (rows top_daily_sample) = ["A"; "G"; "B"]
  /\ exists rest,
       List.filter (fun r => PyFloat.eq (daily_pct r) (PyFloat.of_Z 1))
         sample_records
       = List.filter (fun r => PyFloat.eq (daily_pct r) (PyFloat.of_Z 1))
           (rows top_daily_sample) ++ rest.
Proof.
  split; [reflexivity|].
  apply (top_performers_ties (Q := Numpy.generic_quicksort) sample_records
           "Daily %" 3 daily_pct top_daily_sample (PyFloat.of_Z 1)).
  - reflexivity.
  - reflexivity.
  - vm_compute. reflexivity.
Defined.

(** The best five by category of the sample records. *)
Lemma top_by_category_blocks_witness :
  match get_top_by_category (Q := Numpy.generic_quicksort) "Daily %" 5
          (_create_dataframe sample_records) with
  | Ok res =>
      rows res
      = concat (map (fun c => of_category c (rows res))
                  (unique (map asset sample_records)))
      /\ forall c, In c (map asset sample_records) ->
           exists top,
             get_top_performers (Q := Numpy.generic_quicksort) "Daily %" 5
               (_create_dataframe (of_category c sample_records)) = Ok top
             /\ of_category c (rows res) = rows top
  | Raise e =>
      get_top_performers (Q := Numpy.generic_quicksort) "Daily %" 5
        (_create_dataframe sample_records) = Raise e
  end.
Proof.
  apply (top_by_category_blocks (Q := Numpy.generic_quicksort)
           (QS := generic_quicksort_spec) sample_records "Daily %" 5).
  discriminate.
Defined.

(** The second category of the sample has two records: the one with a
    negative day is a strong lead in all four periods. *)
Lemma small_category_all_strong_leads_witness :
  exists res l,
    get_strong_leads (Q := Numpy.generic_quicksort)
      (_create_dataframe sample_records) = Ok res
    /\ In l (rows res) /\ name (lead l) = "H"
    /\ Match l = "4/4 (D,W,M,Y)".
Proof.
  destruct (small_category_all_strong_leads (Q := Numpy.generic_quicksort)
              (QS := generic_quicksort_spec) sample_records "Metals"
              (quote "Metals" "H" (PyFloat.of_Z (-2)) (PyFloat.of_Z 3)
                 PyFloat.zero PyFloat.zero))
    as (res & l & Hres & Hl & Hlead & Hmatch).
  - vm_compute. lia.
  - vm_compute. tauto.
  - exists res, l. rewrite Hlead. repeat split; assumption.
Defined.

(** Separators of thousands and the percent sign. *)
Lemma parse_whole_number_witness :
  _parse_number "4,100" = Ok (PyFloat.of_Z 4100)
  /\ _parse_percentage "-3 %" = Ok (PyFloat.of_Z (-3)).
Proof.
  split.
  - apply (proj1 (parse_whole_number "4,100" false 4100)). reflexivity.
  - apply (proj2 (parse_whole_number "-3 %" true 3)). reflexivity.
Defined.

(** A rise of one percent alerts under a threshold of one percent, and
    so under a threshold of zero. *)
Lemma alert_threshold_monotone_witness :
  exists alert,
    evaluate (with_threshold gold_subscription PyFloat.zero)
      (gold_at (PyFloat.of_Z 101)) (PyFloat.of_Z 100) = Some alert
    /\ percent_change alert = PyFloat.of_Z 1.
Proof.
  destruct (evaluate gold_subscription (gold_at (PyFloat.of_Z 101))
              (PyFloat.of_Z 100)) as [alert|] eqn:E;
    [|vm_compute in E; discriminate].
  exists alert. split.
  - apply (alert_threshold_monotone gold_subscription PyFloat.zero
             (gold_at (PyFloat.of_Z 101)) (PyFloat.of_Z 100) alert).
    + reflexivity.
    + exact E.
  - vm_compute in E. injection E as <-. reflexivity.
Defined.

(** A current price that is NaN gives no alert against a stored price of
    one hundred; against a stored price of zero the percent change is
    zero, and a threshold of zero gives an alert. *)
Lemma alert_never_on_nan_witness :
  evaluate gold_subscription (gold_at PyFloat.nan) (PyFloat.of_Z 100) = None
  /\ is_Some (evaluate (with_threshold gold_subscription PyFloat.zero)
                (gold_at PyFloat.nan) PyFloat.zero).
Proof.
  split.
  - destruct (alert_never_on_nan gold_subscription (gold_at PyFloat.nan)
                (PyFloat.of_Z 100)) as (_ & H & _).
    apply H; [reflexivity|now left].
  - destruct (alert_never_on_nan
                (with_threshold gold_subscription PyFloat.zero)
                (gold_at PyFloat.nan) PyFloat.zero) as (_ & _ & H).
    apply H; reflexivity.
Defined.

(** A row of eight cells. *)
Lemma parse_row_first_nine_cells_witness :
  exists c, _parse_row eight_cells "Metals" = Some c
            /\ asset c = "Metals" /\ date c = "".
Proof.
  apply (proj2 (parse_row_first_nine_cells eight_cells "Metals")).
  reflexivity.
Defined.

(** The three best daily performers of the sample records, under the
    generic quicksort. *)
Lemma top_performers_ranked_witness :
  exists ranked,
    Permutation ranked sample_records
    /\ StronglySorted (ranks_before daily_pct) ranked
    /\ rows top_daily_sample = take 3 ranked.
Proof.
  pose proof (top_performers_ranked (Q := Numpy.generic_quicksort)
                (QS := generic_quicksort_spec) sample_records "Daily %" 3)
    as H.
  assert (E : get_top_performers (Q := Numpy.generic_quicksort) "Daily %" 3
                (_create_dataframe sample_records) = Ok top_daily_sample)
    by (vm_compute; reflexivity).
  rewrite E in H. destruct H as (_ & key & ranked & Hkey & Hperm & Hsort & Hrows).
  injection Hkey as <-. now exists ranked.
Defined.

(** A page with the sample table gives a manager whose strong leads are
    computed. *)
Lemma run_returns_usable_manager_witness :
  exists res,
    get_strong_leads (Q := Numpy.generic_quicksort)
      (_create_dataframe (parse_tables sample_table)) = Ok res.
Proof.
  pose proof (run_returns_usable_manager (Q := Numpy.generic_quicksort)
                (QS := generic_quicksort_spec) (Some "<table>"%string)
                (fun _ => sample_table)) as H.
  assert (E : CommoditiesApp.run (Some "<table>"%string)
                (fun _ => sample_table)
              = Some (_create_dataframe (parse_tables sample_table)))
    by (vm_compute; reflexivity).
  rewrite E in H. destruct H as (_ & _ & Hleads & _). exact Hleads.
Defined.

(** Three records with a daily percentage of zero: no short term
    opportunity, and the frame of the bucket has no columns. *)
Lemma opportunity_bucket_empty_witness :
  exists res,
    get_investment_opportunities (Q := Numpy.generic_quicksort)
      (_create_dataframe nan_records) = Ok res
    /\ short_term res = empty_frame.
Proof.
  pose proof (opportunity_bucket_empty (Q := Numpy.generic_quicksort)
                (QS := generic_quicksort_spec) nan_records) as H.
  destruct (get_investment_opportunities (Q := Numpy.generic_quicksort)
              (_create_dataframe nan_records)) as [res|e];
    [|discriminate H].
  cbv zeta in H. destruct H as ((Hiff & Hempty) & _).
  exists res. split; [reflexivity|].
  apply Hempty, Hiff. intros r Hr.
  cbv [nan_records In] in Hr.
  destruct Hr as [<- | [<- | [<- | [] ] ] ]; reflexivity.
Defined.

(** The second category of the sample records has a strong lead. *)
Lemma strong_leads_cover_categories_witness :
  exists res l,
    get_strong_leads (Q := Numpy.generic_quicksort)
      (_create_dataframe sample_records) = Ok res
    /\ In l (rows res) /\ asset (lead l) = "Metals".
Proof.
  pose proof (strong_leads_cover_categories (Q := Numpy.generic_quicksort)
                (QS := generic_quicksort_spec) sample_records) as H.
  destruct (get_strong_leads (Q := Numpy.generic_quicksort)
              (_create_dataframe sample_records)) as [res|e];
    [|discriminate H].
  destruct H as (Hcover & _).
  destruct (Hcover (quote "Metals" "H" (PyFloat.of_Z (-2)) (PyFloat.of_Z 3)
                      PyFloat.zero PyFloat.zero)) as (l & Hl & Ha).
  - cbv [sample_records In]. tauto.
  - now exists res, l.
Defined.

(** A lone minus sign is read as zero by both parsers. *)
Lemma percentage_guard_redundant_witness :
  _parse_percentage " - %" = _parse_number "-"
  /\ _parse_number "-" = Ok PyFloat.zero.
Proof.
  split; [|reflexivity].
  apply (percentage_guard_redundant " - %" "-"). reflexivity.
Defined.

End Instances.
